(** * rule_extraction: the three document scripts, embedded and checked

    The repository holds three independent Python scripts:
    - [donut.py]: PDF pages -> images -> a visual question answering model ->
      printed answers;
    - [duplicate.py]: two images -> ORB descriptors -> number of matches ->
      a boolean;
    - [gemini_app.py]: a Streamlit page that extracts the text of a PDF,
      sends it to a hosted LLM and renders the JSON reply.

    Each script is embedded below as the code has it.  Calls into libraries
    that are not part of the repository (pdf2image, transformers, OpenCV,
    PyPDF2, the LLM clients, Streamlit) appear as parameters of the
    embedding; their possible failures are part of their result type. *)

From Stdlib Require Import Ascii String Bool ZArith NArith Lia List.
From Stdlib Require Decimal DecimalString.
Import ListNotations.

Set Implicit Arguments.

(* ================================================================== *)
(** * Python strings *)
(* ================================================================== *)

(** A Python [str] is a sequence of Unicode code points; indexing, slicing
    and [len] count code points, so that is what the model stores. *)
Module PyStr.

Definition str := list N.

(** Literals are written as UTF-8 text and decoded once. [pending] is the
    number of continuation bytes still expected, [acc] the bits read so
    far. *)
Fixpoint utf8_decode (pending : nat) (acc : N) (bs : list N) : str :=
  match bs with
  | [] => []
  | b :: rest =>
      match pending with
      | O =>
          if (b <? 128)%N then b :: utf8_decode 0 0 rest
          else if (b <? 224)%N then utf8_decode 1 (b - 192) rest
          else if (b <? 240)%N then utf8_decode 2 (b - 224) rest
          else utf8_decode 3 (b - 240) rest
      | S O => (acc * 64 + (b - 128))%N :: utf8_decode 0 0 rest
      | S p => utf8_decode p (acc * 64 + (b - 128))%N rest
      end
  end.

Definition lit (s : string) : str :=
  utf8_decode 0 0 (map N_of_ascii (list_ascii_of_string s)).

(** The quotation mark, U+0022. *)
Definition dquote : str := [34%N].

Fixpoint eqb (a b : str) : bool :=
  match a, b with
  | [], [] => true
  | x :: a', y :: b' => N.eqb x y && eqb a' b'
  | _, _ => false
  end.

(** [s.startswith(prefix)] *)
Fixpoint startswith (s prefix : str) {struct prefix} : bool :=
  match prefix with
  | [] => true
  | p :: prefix' =>
      match s with
      | [] => false
      | c :: s' => N.eqb c p && startswith s' prefix'
      end
  end.

(** [str.isspace] on one code point: the characters [str.strip()] removes
    when it is called without an argument. *)
Definition isspace (c : N) : bool :=
  ((9 <=? c) && (c <=? 13) || (28 <=? c) && (c <=? 32)
   || (c =? 133) || (c =? 160) || (c =? 5760)
   || (8192 <=? c) && (c <=? 8202)
   || (c =? 8232) || (c =? 8233) || (c =? 8239) || (c =? 8287)
   || (c =? 12288))%N.

Fixpoint lstrip (s : str) : str :=
  match s with
  | [] => []
  | c :: s' => if isspace c then lstrip s' else s
  end.

Definition rstrip (s : str) : str := rev (lstrip (rev s)).

(** [s.strip()] *)
Definition strip (s : str) : str := rstrip (lstrip s).

(** Index adjustment of a slice bound, as CPython's
    [PySlice_AdjustIndices] does it for a step of 1. *)
Definition adjust_index (len i : Z) : Z :=
  if (i <? 0)%Z then Z.max 0 (i + len) else Z.min i len.

(** [s[start:stop]] *)
Definition slice {A} (s : list A) (start stop : Z) : list A :=
  let len := Z.of_nat (length s) in
  let a := adjust_index len start in
  let b := adjust_index len stop in
  firstn (Z.to_nat (b - a)) (skipn (Z.to_nat a) s).

(** [s[:stop]] *)
Definition slice_to {A} (s : list A) (stop : Z) : list A := slice s 0 stop.

(** [s.replace(old, new)] for a non-empty [old]: every occurrence, left to
    right, without overlap. [skip] counts the characters of a match that
    are still to be dropped. With an empty [old] Python inserts [new]
    between all characters; no call in the repository does that. *)
Fixpoint replace_from (skip : nat) (old new s : str) : str :=
  match s with
  | [] => []
  | c :: s' =>
      match skip with
      | S k => replace_from k old new s'
      | O =>
          if startswith s old
          then new ++ replace_from (length old - 1) old new s'
          else c :: replace_from 0 old new s'
      end
  end.

Definition replace (s old new : str) : str := replace_from 0 old new s.

(** [str(n)] for a non-negative integer. *)
Definition of_nat (n : nat) : str :=
  lit (DecimalString.NilZero.string_of_uint (Nat.to_uint n)).

End PyStr.

Import PyStr.

(* ================================================================== *)
(** * Exceptions and effects *)
(* ================================================================== *)

(** An instance of Python's [Exception]: its class name and [str(e)].
    These are the exceptions an [except Exception] clause catches. *)
Record exn : Type := mkExn { exc_class : str; exc_str : str }.

(** How a call ends: with a value, or with a raised signal of type [E]. *)
Inductive flow (E A : Type) : Type :=
| Return (a : A)
| Raised (e : E).

Arguments Return {E A} a.
Arguments Raised {E A} e.

Class Monad (m : Type -> Type) : Type := {
  ret : forall {A}, A -> m A;
  bind : forall {A B}, m A -> (A -> m B) -> m B
}.

Declare Scope py_scope.
Delimit Scope py_scope with py.
Notation "x <- c ;; k" := (bind c (fun x => k))
  (at level 61, c at next level, right associativity) : py_scope.
Notation "' pat <- c ;; k" := (bind c (fun x => match x with pat => k end))
  (at level 61, pat pattern, c at next level, right associativity) : py_scope.
Notation "c ;; k" := (bind c (fun _ => k))
  (at level 61, right associativity) : py_scope.
Open Scope py_scope.

(** Calls without observable state. *)
#[export] Instance flow_monad (E : Type) : Monad (flow E) := {
  ret := fun A a => Return a;
  bind := fun A B c k =>
    match c with
    | Return a => k a
    | Raised e => Raised e
    end
}.

(** Calls that also change a state [S] (a console, a page, a session).
    A raised signal keeps the state changes made before it. *)
Definition M (S E A : Type) : Type := S -> flow E A * S.

#[export] Instance M_monad (S E : Type) : Monad (M S E) := {
  ret := fun A a => fun s => (Return a, s);
  bind := fun A B c k => fun s =>
    match c s with
    | (Return a, s') => k a s'
    | (Raised e, s') => (Raised e, s')
    end
}.

Section Effects.
Context {S E : Type}.

Definition raise {A} (e : E) : M S E A := fun s => (Raised e, s).
Definition get : M S E S := fun s => (Return s, s).
Definition modify (f : S -> S) : M S E unit := fun s => (Return tt, f s).

(** The result of a library call, brought into the stateful monad. *)
Definition lift {A} (r : flow E A) : M S E A := fun s => (r, s).

(** [for x in xs: body x] *)
Fixpoint for_each {A} (xs : list A) (body : A -> M S E unit) : M S E unit :=
  match xs with
  | [] => ret tt
  | x :: xs' => body x ;; for_each xs' body
  end.
End Effects.

(* ================================================================== *)
(** * duplicate.py *)
(* ================================================================== *)

Module Duplicate.

Section ORB.
(** OpenCV's types and the two calls the script makes on them; the
    detector and the matcher are built from constants, so their
    construction is part of these calls. *)
Variables image keypoint descriptors dmatch : Type.

(** [orb.detectAndCompute(img, None)]: key points and descriptors; the
    descriptors are [None] when nothing was detected. *)
Variable detectAndCompute :
  image -> flow exn (list keypoint * option descriptors).

(** [bf.match(des1, des2)] of the Hamming matcher with cross check. *)
Variable bf_match : descriptors -> descriptors -> flow exn (list dmatch).

Definition orb_similarity (img1 img2 : image) : flow exn Z :=
  '(kp1, des1) <- detectAndCompute img1 ;;
  '(kp2, des2) <- detectAndCompute img2 ;;
  match des1, des2 with
  | Some d1, Some d2 =>
      matches <- bf_match d1 d2 ;;
      ret (Z.of_nat (length matches))
  | _, _ => ret 0%Z
  end.

Definition default_match_threshold : Z := 30.

Definition are_images_similar_orb
    (img1 img2 : image) (match_threshold : Z) : flow exn bool :=
  matches <- orb_similarity img1 img2 ;;
  ret (match_threshold <? matches)%Z.

End ORB.

(** A stand-in for OpenCV used to run the functions: an image is the list
    of its descriptor rows, nothing is detected in an image without rows,
    and a row of the first image matches when the second has it too. *)
Module Fixture.
Definition image := list N.
Definition detectAndCompute (img : image)
  : flow exn (list nat * option (list N)) :=
  match img with
  | [] => Return ([], None)
  | _ => Return (seq 0 (length img), Some img)
  end.
Definition bf_match (d1 d2 : list N) : flow exn (list (N * N)) :=
  Return (flat_map
            (fun r => if existsb (N.eqb r) d2 then [(r, r)] else []) d1).
Definition blank : image := [].

(** An image OpenCV cannot process: a row 0 makes the detection raise. *)
Definition cv_error : exn :=
  mkExn (lit "error") (lit "OpenCV: (-215:Assertion failed)").
Definition detect_or_fail (img : image)
  : flow exn (list nat * option (list N)) :=
  if existsb (N.eqb 0) img then Raised cv_error else detectAndCompute img.
End Fixture.

End Duplicate.

(* ================================================================== *)
(** * donut.py *)
(* ================================================================== *)

Module Donut.

(** [enumerate(xs)] *)
Definition enumerate {A} (xs : list A) : list (nat * A) :=
  combine (seq 0 (length xs)) xs.

Section VQA.
(** Page images, and the tensors that travel between the calls of the
    transformers library. *)
Variables image pixel_values token_ids sequences : Type.

(** What the script does to the outside, in the order it does it: the
    library calls it makes and the lines it prints. *)
Inductive event : Type :=
| LoadProcessor (name : str)
| LoadModel (name : str)
| ModelToDevice
| ConvertFromPath (pdf_path : str)
| ProcessorCall (img : image)
| TokenizerCall (prompt : str)
| Generate (inputs : pixel_values) (decoder_input_ids : token_ids)
| BatchDecode (outputs : sequences)
| Printed (line : str).

Definition console : Type := list event.
Definition IO : Type -> Type := M console exn.

(** A library call: the call is recorded, its result decides how the
    script goes on. *)
Definition call {A} (ev : event) (r : flow exn A) : IO A :=
  modify (fun tr => tr ++ [ev]) ;; lift r.

Definition print (line : str) : IO unit :=
  modify (fun tr => tr ++ [Printed line]).

(** [convert_from_path(pdf_path, dpi=200)] *)
Variable convert_from_path : str -> flow exn (list image).
(** [DonutProcessor.from_pretrained], [VisionEncoderDecoderModel.from_pretrained]
    and [model.to(device)] *)
Variable processor_from_pretrained : str -> flow exn unit.
Variable model_from_pretrained : str -> flow exn unit.
Variable model_to : flow exn unit.
(** [processor(image, return_tensors="pt").to(device)] *)
Variable processor_call : image -> flow exn pixel_values.
(** [processor.tokenizer(prompt, add_special_tokens=False,
    return_tensors="pt").input_ids.to(device)] *)
Variable tokenizer_call : str -> flow exn token_ids.
(** [model.generate] on the processor output, with [decoder_input_ids=...],
    [max_length=512],
    [early_stopping=True] and the pad token of the tokenizer *)
Variable model_generate : pixel_values -> token_ids -> flow exn sequences.
(** [processor.batch_decode(outputs, skip_special_tokens=True)] *)
Variable batch_decode : sequences -> flow exn (list str).

Definition pdf_to_images (pdf_path : str) : IO (list image) :=
  images <- call (ConvertFromPath pdf_path) (convert_from_path pdf_path) ;;
  ret images.

Definition checkpoint : str :=
  lit "naver-clova-ix/donut-base-finetuned-docvqa".

(** The module-level statements that load the model. *)
Definition load_model : IO unit :=
  call (LoadProcessor checkpoint) (processor_from_pretrained checkpoint) ;;
  call (LoadModel checkpoint) (model_from_pretrained checkpoint) ;;
  call ModelToDevice model_to.

Definition make_prompt (question : str) : str :=
  lit "<s_docvqa><s_question>" ++ question
    ++ lit "</s_question><s_answer>".

Definition IndexError : exn :=
  mkExn (lit "IndexError") (lit "list index out of range").

(** [xs[0]] *)
Definition first_item {A} (xs : list A) : flow exn A :=
  match xs with
  | x :: _ => Return x
  | [] => Raised IndexError
  end.

Definition ask_question (img : image) (question : str) : IO str :=
  let prompt := make_prompt question in
  inputs <- call (ProcessorCall img) (processor_call img) ;;
  decoder_input_ids <- call (TokenizerCall prompt) (tokenizer_call prompt) ;;
  outputs <- call (Generate inputs decoder_input_ids)
                  (model_generate inputs decoder_input_ids) ;;
  decoded <- call (BatchDecode outputs) (batch_decode outputs) ;;
  result <- lift (first_item decoded) ;;
  ret (strip (replace result prompt [])).

Definition questions : list str :=
  [ lit "What is the print full name?";
    lit "What is the print surname?";
    lit "What is the official position?" ].

(** [f"\n📄 Page {page_num + 1}"] *)
Definition page_header (page_num : nat) : str :=
  [10%N] ++ lit "📄 Page " ++ of_nat (page_num + 1).

(** [f"{q} → {answer}"] *)
Definition answer_line (q answer : str) : str :=
  q ++ lit " → " ++ answer.

(** The body of the loop over the pages. *)
Definition answer_page (numbered : nat * image) : IO unit :=
  let '(page_num, img) := numbered in
  print (page_header page_num) ;;
  for_each questions (fun q =>
    answer <- ask_question img q ;;
    print (answer_line q answer)).

Definition extract_signatory_info (pdf_path : str) : IO unit :=
  images <- pdf_to_images pdf_path ;;
  for_each (enumerate images) answer_page.

(** The script as a whole: load the model, then run the extractor on
    the path written in the file. *)
Definition script : IO unit :=
  load_model ;;
  extract_signatory_info (lit "/content/regex_practise.docx").

(** ** What a successful run looks like *)

(** The text the model stack decodes for an image and a prompt, when
    each of its four stages succeeds. *)
Definition decoded_text (img : image) (prompt : str) : flow exn str :=
  inputs <- processor_call img ;;
  ids <- tokenizer_call prompt ;;
  outputs <- model_generate inputs ids ;;
  decoded <- batch_decode outputs ;;
  first_item decoded.

(** The library calls behind one question, in order. *)
Definition inference_calls (img : image) (prompt : str) : list event :=
  match processor_call img, tokenizer_call prompt with
  | Return inputs, Return ids =>
      ProcessorCall img :: TokenizerCall prompt :: Generate inputs ids ::
      match model_generate inputs ids with
      | Return outputs => [BatchDecode outputs]
      | Raised _ => []
      end
  | Return _, Raised _ => [ProcessorCall img; TokenizerCall prompt]
  | Raised _, _ => [ProcessorCall img]
  end.

(** The answer the script reports: the decoded text without the prompt
    and without surrounding white space. *)
Definition answer_of (raw prompt : str) : str :=
  strip (replace raw prompt []).

(** What one page adds to the console: its header, then for each question
    the calls of the model stack and the printed answer; [raw] is the text
    decoded for a question. *)
Definition page_events (raw : image -> str -> str)
    (numbered : nat * image) : list event :=
  let '(page_num, img) := numbered in
  Printed (page_header page_num) ::
  flat_map (fun q =>
              inference_calls img (make_prompt q)
                ++ [Printed (answer_line q (answer_of (raw img q)
                                                   (make_prompt q)))])
           questions.

End VQA.

(** A stand-in for pdf2image and the model stack, used to run the script:
    a page image is the text on it, and the model decodes the prompt
    followed by that text. *)
Module Fixture.
Definition image := str.
Definition two_pages (pdf_path : str) : flow exn (list image) :=
  Return [lit " Jane Doe "; lit "Director"].
Definition page_count_error : exn :=
  mkExn (lit "PDFPageCountError") (lit "Unable to get page count.").
Definition not_a_pdf (pdf_path : str) : flow exn (list image) :=
  Raised page_count_error.
Definition loaded (name : str) : flow exn unit := Return tt.
Definition processor_call (img : image) : flow exn image := Return img.
Definition tokenizer_call (prompt : str) : flow exn str := Return prompt.
Definition model_generate (inputs : image) (ids : str) : flow exn str :=
  Return (ids ++ inputs).
Definition batch_decode (outputs : str) : flow exn (list str) :=
  Return [outputs].

(** A decoder that returns no text, and a processor that cannot read the
    page with the text [Director]. *)
Definition decode_nothing (outputs : str) : flow exn (list str) := Return [].
Definition image_error : exn :=
  mkExn (lit "ValueError") (lit "Unsupported image").
Definition picky_processor (img : image) : flow exn image :=
  if eqb img (lit "Director") then Raised image_error else Return img.
End Fixture.

End Donut.

(* ================================================================== *)
(** * Python values *)
(* ================================================================== *)

(** The values [json.loads] can return, with the operations
    [gemini_app.py] applies to them. *)
Module PyVal.

(** A float is kept as the decimal numeral it was read from,
    [(-1)^negative * digits * 10^exp10]; Python rounds it to the nearest
    binary64 number. *)
Inductive pyfloat : Type :=
| FNan
| FInf (negative : bool)
| FDec (negative : bool) (digits : N) (exp10 : Z).

#[warnings="-register-all"] Inductive pyval : Type :=
| PyNone
| PyBool (b : bool)
| PyInt (z : Z)
| PyFloat (f : pyfloat)
| PyStr (s : str)
| PyList (items : list pyval)
| PyDict (entries : list (str * pyval)).

(** A numeral rounds to zero when it is at most half the smallest
    positive binary64 number, [2^-1075]. *)
Definition float_is_zero (f : pyfloat) : bool :=
  match f with
  | FNan | FInf _ => false
  | FDec _ digits exp10 =>
      (digits =? 0)%N
      || ((exp10 <? 0)%Z
          && (digits * 2 ^ 1075 <=? 10 ^ Z.to_N (- exp10))%N)
  end.

(** [bool(v)] *)
Definition truthy (v : pyval) : bool :=
  match v with
  | PyNone => false
  | PyBool b => b
  | PyInt z => negb (z =? 0)%Z
  | PyFloat f => negb (float_is_zero f)
  | PyStr s => negb (Nat.eqb (length s) 0)
  | PyList l => negb (Nat.eqb (length l) 0)
  | PyDict d => negb (Nat.eqb (length d) 0)
  end.

Definition type_name (v : pyval) : str :=
  match v with
  | PyNone => lit "NoneType"
  | PyBool _ => lit "bool"
  | PyInt _ => lit "int"
  | PyFloat _ => lit "float"
  | PyStr _ => lit "str"
  | PyList _ => lit "list"
  | PyDict _ => lit "dict"
  end.

(** ** Dictionaries: insertion-ordered, one entry per key *)

Fixpoint dict_get (d : list (str * pyval)) (k : str) : option pyval :=
  match d with
  | [] => None
  | (k', v) :: d' => if eqb k' k then Some v else dict_get d' k
  end.

(** [d[k] = v]: an existing key keeps its place. *)
Fixpoint dict_set (d : list (str * pyval)) (k : str) (v : pyval)
  : list (str * pyval) :=
  match d with
  | [] => [(k, v)]
  | (k', v') :: d' =>
      if eqb k' k then (k', v) :: d' else (k', v') :: dict_set d' k v
  end.

(** ** Exceptions of the operations *)

(** [str(KeyError(k))] is [repr(k)]. *)
Definition KeyError (k : str) : exn :=
  mkExn (lit "KeyError") (lit "'" ++ k ++ lit "'").
Definition TypeError (msg : str) : exn := mkExn (lit "TypeError") msg.
Definition AttributeError (msg : str) : exn :=
  mkExn (lit "AttributeError") msg.

Definition not_subscriptable (v : pyval) : exn :=
  TypeError (lit "'" ++ type_name v ++ lit "' object is not subscriptable").

(** [v[key]] for a string key *)
Definition getitem (v : pyval) (key : str) : flow exn pyval :=
  match v with
  | PyDict d =>
      match dict_get d key with
      | Some x => Return x
      | None => Raised (KeyError key)
      end
  | PyList _ =>
      Raised (TypeError
                (lit "list indices must be integers or slices, not str"))
  | PyStr _ =>
      Raised (TypeError (lit "string indices must be integers, not 'str'"))
  | _ => Raised (not_subscriptable v)
  end.

(** [v[:stop]] *)
Definition getslice_to (v : pyval) (stop : Z) : flow exn pyval :=
  match v with
  | PyStr s => Return (PyStr (slice_to s stop))
  | PyList l => Return (PyList (slice_to l stop))
  | PyDict _ => Raised (TypeError (lit "unhashable type: 'slice'"))
  | _ => Raised (not_subscriptable v)
  end.

(** [v.get(key, default)] *)
Definition get_default (v : pyval) (key : str) (default : pyval)
  : flow exn pyval :=
  match v with
  | PyDict d =>
      match dict_get d key with
      | Some x => Return x
      | None => Return default
      end
  | _ =>
      Raised (AttributeError
                (lit "'" ++ type_name v
                   ++ lit "' object has no attribute 'get'"))
  end.

(** [len(v)] *)
Definition len (v : pyval) : flow exn Z :=
  match v with
  | PyStr s => Return (Z.of_nat (length s))
  | PyList l => Return (Z.of_nat (length l))
  | PyDict d => Return (Z.of_nat (length d))
  | _ =>
      Raised (TypeError
                (lit "object of type '" ++ type_name v
                   ++ lit "' has no len()"))
  end.

(** The items a [for] loop over [v] visits. *)
Definition iter (v : pyval) : flow exn (list pyval) :=
  match v with
  | PyList l => Return l
  | PyDict d => Return (map (fun kv => PyStr (fst kv)) d)
  | PyStr s => Return (map (fun c => PyStr [c]) s)
  | _ =>
      Raised (TypeError
                (lit "'" ++ type_name v ++ lit "' object is not iterable"))
  end.

(** [v == s] for a string [s] *)
Definition eq_str (v : pyval) (s : str) : bool :=
  match v with
  | PyStr t => eqb t s
  | _ => false
  end.

Definition pyfloat_eqb (a b : pyfloat) : bool :=
  match a, b with
  | FNan, FNan => true
  | FInf x, FInf y => Bool.eqb x y
  | FDec n d e, FDec n' d' e' =>
      Bool.eqb n n' && (d =? d')%N && (e =? e')%Z
  | _, _ => false
  end.

(** Two values with the same structure.  (Python's [==] also identifies
    [1], [1.0] and [True], and dictionaries that differ in order.) *)
Fixpoint pyval_eqb (a b : pyval) : bool :=
  match a, b with
  | PyNone, PyNone => true
  | PyBool x, PyBool y => Bool.eqb x y
  | PyInt x, PyInt y => (x =? y)%Z
  | PyFloat x, PyFloat y => pyfloat_eqb x y
  | PyStr x, PyStr y => eqb x y
  | PyList xs, PyList ys =>
      (fix items xs ys :=
         match xs, ys with
         | [], [] => true
         | x :: xs', y :: ys' => pyval_eqb x y && items xs' ys'
         | _, _ => false
         end) xs ys
  | PyDict xs, PyDict ys =>
      (fix entries xs ys :=
         match xs, ys with
         | [], [] => true
         | (k, x) :: xs', (k', y) :: ys' =>
             eqb k k' && pyval_eqb x y && entries xs' ys'
         | _, _ => false
         end) xs ys
  | _, _ => false
  end.

End PyVal.

Import PyVal.

(* ================================================================== *)
(** * json.loads *)
(* ================================================================== *)

(** The decoder of Python's [json] module, following its scanner: the
    grammar of RFC 8259 plus [NaN], [Infinity] and [-Infinity], strings in
    strict mode, the last value winning for a repeated key.  The text of an
    error keeps json's wording; the line, column and offset that [str(e)]
    appends to it are left out.  Integers are unbounded. *)
Module PyJson.

Definition JSONDecodeError (msg : string) : exn :=
  mkExn (lit "JSONDecodeError") (lit msg).

Definition RecursionError : exn :=
  mkExn (lit "RecursionError")
        (lit "maximum recursion depth exceeded while decoding a JSON document").

(** The scanner's white space: space, tab, line feed, carriage return. *)
Definition is_ws (c : N) : bool :=
  ((c =? 32) || (c =? 9) || (c =? 10) || (c =? 13))%N.

Fixpoint skip_ws (s : str) : str :=
  match s with
  | c :: s' => if is_ws c then skip_ws s' else s
  | [] => []
  end.

Definition is_digit (c : N) : bool := ((48 <=? c) && (c <=? 57))%N.

(** The longest run of digits at the head of [s]: its value on top of
    [acc], how many digits it has, and what follows it. *)
Fixpoint take_digits (s : str) (acc : N) (count : nat) : N * nat * str :=
  match s with
  | c :: s' =>
      if is_digit c then take_digits s' (acc * 10 + (c - 48))%N (S count)
      else (acc, count, s)
  | [] => (acc, count, [])
  end.

(** The exponent part: [e] or [E], an optional sign, at least one digit. *)
Definition scan_exponent (s : str) : option (Z * str) :=
  match s with
  | e :: s1 =>
      if ((e =? 101) || (e =? 69))%N then
        let '(neg, s2) :=
          match s1 with
          | sg :: s2 =>
              if (sg =? 45)%N then (true, s2)
              else if (sg =? 43)%N then (false, s2)
              else (false, s1)
          | [] => (false, s1)
          end in
        match take_digits s2 0 0 with
        | (_, O, _) => None
        | (v, _, rest) =>
            Some (if neg then (- Z.of_N v)%Z else Z.of_N v, rest)
        end
      else None
  | [] => None
  end.

(** The fraction part: a dot and at least one digit, read on top of the
    integer digits. *)
Definition scan_fraction (s : str) (int_digits : N) : option (N * nat * str) :=
  match s with
  | dot :: s1 =>
      if (dot =? 46)%N then
        match take_digits s1 int_digits 0 with
        | (_, O, _) => None
        | r => Some r
        end
      else None
  | [] => None
  end.

(** A number: an optional minus sign, then [0] or a digit run that does not
    start with [0], then an optional fraction and an optional exponent.  It
    is an [int] when it has neither fraction nor exponent, a [float]
    otherwise. *)
Definition scan_number (s : str) : option (pyval * str) :=
  let '(neg, s0) :=
    match s with
    | c :: s' => if (c =? 45)%N then (true, s') else (false, s)
    | [] => (false, s)
    end in
  let int_part :=
    match s0 with
    | c :: s1 =>
        if (c =? 48)%N then Some (0%N, s1)
        else if is_digit c then
          let '(v, _, rest) := take_digits s0 0 0 in Some (v, rest)
        else None
    | [] => None
    end in
  match int_part with
  | None => None
  | Some (iv, s1) =>
      match scan_fraction s1 iv with
      | Some (digits, nfrac, s2) =>
          match scan_exponent s2 with
          | Some (e, s3) =>
              Some (PyFloat (FDec neg digits (e - Z.of_nat nfrac)), s3)
          | None => Some (PyFloat (FDec neg digits (- Z.of_nat nfrac)), s2)
          end
      | None =>
          match scan_exponent s1 with
          | Some (e, s3) => Some (PyFloat (FDec neg iv e), s3)
          | None => Some (PyInt (if neg then - Z.of_N iv else Z.of_N iv), s1)
          end
      end
  end.

Definition hex_digit (c : N) : option N :=
  if is_digit c then Some (c - 48)%N
  else if ((97 <=? c) && (c <=? 102))%N then Some (c - 87)%N
  else if ((65 <=? c) && (c <=? 70))%N then Some (c - 55)%N
  else None.

Definition hex4 (a b c d : N) : option N :=
  match hex_digit a, hex_digit b, hex_digit c, hex_digit d with
  | Some x, Some y, Some z, Some w => Some (((x * 16 + y) * 16 + z) * 16 + w)%N
  | _, _, _, _ => None
  end.

(** The one-character escapes. *)
Definition unescape (c : N) : option N :=
  if (c =? 34)%N then Some 34%N
  else if (c =? 92)%N then Some 92%N
  else if (c =? 47)%N then Some 47%N
  else if (c =? 98)%N then Some 8%N
  else if (c =? 102)%N then Some 12%N
  else if (c =? 110)%N then Some 10%N
  else if (c =? 114)%N then Some 13%N
  else if (c =? 116)%N then Some 9%N
  else None.

Definition is_high_surrogate (u : N) : bool :=
  ((55296 <=? u) && (u <=? 56319))%N.
Definition is_low_surrogate (u : N) : bool :=
  ((56320 <=? u) && (u <=? 57343))%N.

(** The body of a string, after its opening quote; [acc] holds the
    characters read so far, last first. *)
Fixpoint scan_string (s : str) (acc : str) : flow exn (str * str) :=
  match s with
  | [] => Raised (JSONDecodeError "Unterminated string starting at")
  | c :: r =>
      if (c =? 34)%N then Return (rev acc, r)
      else if (c <? 32)%N then
        Raised (JSONDecodeError "Invalid control character at")
      else if (c =? 92)%N then
        match r with
        | [] => Raised (JSONDecodeError "Unterminated string starting at")
        | e :: r1 =>
            if (e =? 117)%N then
              match r1 with
              | a :: b :: c' :: d :: r2 =>
                  match hex4 a b c' d with
                  | None => Raised (JSONDecodeError "Invalid \uXXXX escape")
                  | Some uni =>
                      if is_high_surrogate uni then
                        match r2 with
                        | bs :: u :: a2 :: b2 :: c2 :: d2 :: r3 =>
                            if ((bs =? 92) && (u =? 117))%N then
                              match hex4 a2 b2 c2 d2 with
                              | None =>
                                  Raised
                                    (JSONDecodeError "Invalid \uXXXX escape")
                              | Some uni2 =>
                                  if is_low_surrogate uni2 then
                                    scan_string r3
                                      ((65536 + (uni - 55296) * 1024
                                        + (uni2 - 56320))%N :: acc)
                                  else scan_string r2 (uni :: acc)
                              end
                            else scan_string r2 (uni :: acc)
                        | _ => scan_string r2 (uni :: acc)
                        end
                      else scan_string r2 (uni :: acc)
                  end
              | _ => Raised (JSONDecodeError "Invalid \uXXXX escape")
              end
            else
              match unescape e with
              | Some ch => scan_string r1 (ch :: acc)
              | None => Raised (JSONDecodeError "Invalid \escape")
              end
        end
      else scan_string r (c :: acc)
  end.

(** One JSON value at the head of [s], and what follows it.  [fuel] bounds
    the calls still allowed; [loads] gives enough for any text. *)
Fixpoint scan (fuel : nat) (s : str) {struct fuel} : flow exn (pyval * str) :=
  match fuel with
  | O => Raised RecursionError
  | S fuel' =>
      match s with
      | [] => Raised (JSONDecodeError "Expecting value")
      | c :: r =>
          if (c =? 34)%N then
            '(k, r') <- scan_string r [] ;; ret (PyStr k, r')
          else if (c =? 123)%N then
            match skip_ws r with
            | c2 :: r2 =>
                if (c2 =? 125)%N then ret (PyDict [], r2)
                else scan_members fuel' (skip_ws r) []
            | [] =>
                Raised (JSONDecodeError
                  "Expecting property name enclosed in double quotes")
            end
          else if (c =? 91)%N then
            match skip_ws r with
            | c2 :: r2 =>
                if (c2 =? 93)%N then ret (PyList [], r2)
                else scan_items fuel' (skip_ws r) []
            | [] => Raised (JSONDecodeError "Expecting value")
            end
          else if startswith s (lit "null") then ret (PyNone, skipn 4 s)
          else if startswith s (lit "true") then ret (PyBool true, skipn 4 s)
          else if startswith s (lit "false") then
            ret (PyBool false, skipn 5 s)
          else
            match scan_number s with
            | Some vr => ret vr
            | None =>
                if startswith s (lit "NaN") then ret (PyFloat FNan, skipn 3 s)
                else if startswith s (lit "Infinity") then
                  ret (PyFloat (FInf false), skipn 8 s)
                else if startswith s (lit "-Infinity") then
                  ret (PyFloat (FInf true), skipn 9 s)
                else Raised (JSONDecodeError "Expecting value")
            end
      end
  end

(** The members of an object, from the first character of a key on. *)
with scan_members (fuel : nat) (s : str) (acc : list (str * pyval))
    {struct fuel} : flow exn (pyval * str) :=
  match fuel with
  | O => Raised RecursionError
  | S fuel' =>
      match s with
      | c :: r =>
          if (c =? 34)%N then
            '(k, r1) <- scan_string r [] ;;
            match skip_ws r1 with
            | c2 :: r2 =>
                if (c2 =? 58)%N then
                  '(v, r3) <- scan fuel' (skip_ws r2) ;;
                  let acc' := dict_set acc k v in
                  match skip_ws r3 with
                  | c3 :: r4 =>
                      if (c3 =? 125)%N then ret (PyDict acc', r4)
                      else if (c3 =? 44)%N then
                        scan_members fuel' (skip_ws r4) acc'
                      else Raised (JSONDecodeError "Expecting ',' delimiter")
                  | [] => Raised (JSONDecodeError "Expecting ',' delimiter")
                  end
                else Raised (JSONDecodeError "Expecting ':' delimiter")
            | [] => Raised (JSONDecodeError "Expecting ':' delimiter")
            end
          else
            Raised (JSONDecodeError
              "Expecting property name enclosed in double quotes")
      | [] =>
          Raised (JSONDecodeError
            "Expecting property name enclosed in double quotes")
      end
  end

(** The items of an array, from the first character of an item on. *)
with scan_items (fuel : nat) (s : str) (acc : list pyval)
    {struct fuel} : flow exn (pyval * str) :=
  match fuel with
  | O => Raised RecursionError
  | S fuel' =>
      '(v, r1) <- scan fuel' s ;;
      let acc' := acc ++ [v] in
      match skip_ws r1 with
      | c :: r2 =>
          if (c =? 93)%N then ret (PyList acc', r2)
          else if (c =? 44)%N then scan_items fuel' (skip_ws r2) acc'
          else Raised (JSONDecodeError "Expecting ',' delimiter")
      | [] => Raised (JSONDecodeError "Expecting ',' delimiter")
      end
  end.

(** [json.loads(s)] *)
Definition loads (s : str) : flow exn pyval :=
  if startswith s [65279%N] then
    Raised (JSONDecodeError "Unexpected UTF-8 BOM (decode using utf-8-sig)")
  else
    '(v, rest) <- scan (2 * length s + 2) (skip_ws s) ;;
    match skip_ws rest with
    | [] => ret v
    | _ :: _ => Raised (JSONDecodeError "Extra data")
    end.

(** JSON text for the examples, written with ['] where the text has the
    quotation mark. *)
Definition text (s : string) : str :=
  map (fun c => if (c =? 39)%N then 34%N else c) (lit s).

End PyJson.

(* ================================================================== *)
(** * gemini_app.py *)
(* ================================================================== *)

Module GeminiApp.

(** ** Streamlit: what a script run does to the page *)

(** A formatted string whose replacement fields are kept as the values
    they show. *)
Inductive piece : Type :=
| Text (s : str)
| Value (v : pyval)
| Int (z : Z)
| IntGrouped (z : Z).

Definition ftext : Type := list piece.

Inductive container : Type :=
| Sidebar
| Column (index : nat)
| Expander (label : ftext)
| Spinner (text : str).

(** The elements a run puts on the page, in order. *)
Inductive widget : Type :=
| StPageConfig (page_title page_icon layout : str)
| StTitle (s : str)
| StHeader (s : str)
| StSubheader (s : str)
| StMarkdown (s : str)
| StInfo (s : str)
| StSuccess (s : str)
| StError (t : ftext)
| StWrite (t : ftext)
| StMetric (label : str) (value : pyval)
| StDivider
| StSelectbox (label : str) (options : list str)
| StTextInput (label kind : str)
| StFileUploader (label kind : str)
| StButton (label : str) (disabled : bool)
| StTextArea (label value : str) (height : Z) (disabled : bool)
| StColumns (spec : list Z)
| Enter (c : container)
| Leave (c : container).

(** [st.session_state]: the two attributes the script uses; [None] is an
    attribute that was never set. *)
Record session_state : Type := {
  current_page : option Z;
  extraction_results : option pyval
}.

Record app : Type := {
  session : session_state;
  page : list widget
}.

(** A run ends with a value, with an exception that [except Exception]
    catches, or with the signal of [st.rerun()], which derives from
    [BaseException] and passes through such a clause. *)
Inductive signal : Type :=
| Exception (e : exn)
| RerunException.

Definition Script : Type -> Type := M app signal.

Definition lift_exn {A} (r : flow exn A) : Script A :=
  fun s =>
    match r with
    | Return a => (Return a, s)
    | Raised e => (Raised (Exception e), s)
    end.

(** [try: body except Exception as e: handler e] *)
Definition try_except {A} (body : Script A) (handler : exn -> Script A)
  : Script A :=
  fun s =>
    match body s with
    | (Raised (Exception e), s') => handler e s'
    | r => r
    end.

(** The same for code that touches neither page nor session. *)
Definition try_flow {A} (body : flow exn A) (handler : exn -> flow exn A)
  : flow exn A :=
  match body with
  | Return a => Return a
  | Raised e => handler e
  end.

Definition show (w : widget) : Script unit :=
  modify (fun a => {| session := session a; page := page a ++ [w] |}).

(** [with c: body]: the container is left however the body ends. *)
Definition within {A} (c : container) (body : Script A) : Script A :=
  fun s =>
    let '(r, s') := (show (Enter c) ;; body) s in
    (r, snd (show (Leave c) s')).

Definition st_rerun {A} : Script A := raise RerunException.

(** [st.metric(label, value)] accepts numbers, strings and [None]. *)
Definition st_metric (label : str) (value : pyval) : Script unit :=
  match value with
  | PyList _ | PyDict _ =>
      lift_exn (Raised (TypeError
        (lit "value only accepts: int, float, str, or None.")))
  | _ => show (StMetric label value)
  end.

(** What the browser sends with a run: the widget values and the button
    that was clicked, if one was. *)
Inductive button : Type := Previous | Next | ExtractRules.

Definition button_eqb (a b : button) : bool :=
  match a, b with
  | Previous, Previous | Next, Next | ExtractRules, ExtractRules => true
  | _, _ => false
  end.

(** [st.button(label, disabled=...)]: true in the run that follows a click
    on it; a disabled button cannot be clicked. *)
Definition st_button (clicked : option button) (b : button) (label : str)
    (disabled : bool) : Script bool :=
  show (StButton label disabled) ;;
  ret (match clicked with
       | Some c => button_eqb c b && negb disabled
       | None => false
       end).

(** ** PyPDF2 and the uploaded file *)

Record pdf_page : Type := {
  extract_text : flow exn str
}.

(** [reader.pages] is read lazily and can fail when it is used. *)
Record pdf_reader : Type := {
  pages : flow exn (list pdf_page)
}.

Record UploadedFile : Type := {
  name : str;
  size : Z;
  seek : Z -> flow exn Z;
  (** [PyPDF2.PdfReader(file)] *)
  PdfReader : flow exn pdf_reader
}.

(** [xs[i]] with Python's negative indices. *)
Definition list_index {A} (xs : list A) (i : Z) : flow exn A :=
  let n := Z.of_nat (length xs) in
  let j := if (i <? 0)%Z then (i + n)%Z else i in
  if ((j <? 0) || (n <=? j))%Z then
    Raised (mkExn (lit "IndexError") (lit "sequence index out of range"))
  else
    match nth_error xs (Z.to_nat j) with
    | Some x => Return x
    | None =>
        Raised (mkExn (lit "IndexError") (lit "sequence index out of range"))
    end.

(** ** The LLM clients *)

Inductive content_block : Type :=
| TextBlock (text : str)
| ToolUseBlock.

Record anthropic_message : Type := {
  content : list content_block
}.

(** [client.messages.create(model=..., max_tokens=..., messages=...)];
    a message is a role and its content. *)
Record anthropic_client : Type := {
  messages_create :
    str -> Z -> list (str * str) -> flow exn anthropic_message
}.

(** [response.text] is a property and can raise. *)
Record gemini_response : Type := {
  text : flow exn str
}.

Record gemini_model : Type := {
  generate_content : str -> flow exn gemini_response
}.

(** [block.text] *)
Definition block_text (b : content_block) : flow exn str :=
  match b with
  | TextBlock t => Return t
  | ToolUseBlock =>
      Raised (AttributeError
                (lit "'ToolUseBlock' object has no attribute 'text'"))
  end.

(** [xs[0]] *)
Definition first_item {A} (xs : list A) : flow exn A :=
  match xs with
  | x :: _ => Return x
  | [] => Raised (mkExn (lit "IndexError") (lit "list index out of range"))
  end.

(** ** DocumentProcessor *)

(** An instance: [self.provider], and [self.client] or [self.model] when
    [__init__] has set it. *)
Record DocumentProcessor : Type := {
  provider : str;
  client : option anthropic_client;
  model : option gemini_model
}.

(** [self.<attribute>] *)
Definition attribute {A} (attr : string) (a : option A) : flow exn A :=
  match a with
  | Some x => Return x
  | None =>
      Raised (AttributeError
                (lit "'DocumentProcessor' object has no attribute '"
                   ++ lit attr ++ lit "'"))
  end.

Definition q (s : string) : str := dquote ++ lit s ++ dquote.

(** The lines of the prompt before and after the document. *)
Definition prompt_before : list str :=
  [ [];
    lit "        Analyze this document and automatically detect all sections containing signing rules or approval checkboxes.";
    lit "        ";
    lit "        Task:";
    lit "        1. Scan entire document for sections with signing rules/approval checkboxes";
    lit "        2. Identify checkbox elements: □, ☐, ■, ☑, ✓, X, numbers in brackets, parentheses";
    lit "        3. Determine approval status: filled = approved, empty = not approved";
    lit "        4. Extract complete rule text";
    lit "        ";
    lit "        Document:" ].

Definition prompt_after : list str :=
  [ lit "        ";
    lit "        Return JSON object:";
    lit "        {";
    lit "            " ++ q "status" ++ lit ": " ++ q "success"
      ++ lit " or " ++ q "error" ++ lit ",";
    lit "            " ++ q "message" ++ lit ": "
      ++ q "description of findings" ++ lit ",";
    lit "            " ++ q "sections_found" ++ lit ": [";
    lit "                {";
    lit "                    " ++ q "section_name" ++ lit ": "
      ++ q "section name" ++ lit ",";
    lit "                    " ++ q "section_number" ++ lit ": "
      ++ q "section number" ++ lit ",";
    lit "                    " ++ q "location" ++ lit ": "
      ++ q "location in document";
    lit "                }";
    lit "            ],";
    lit "            " ++ q "total_rules" ++ lit ": number,";
    lit "            " ++ q "approved_count" ++ lit ": number,";
    lit "            " ++ q "approved_rules" ++ lit ": [";
    lit "                {";
    lit "                    " ++ q "rule_number" ++ lit ": number,";
    lit "                    " ++ q "rule_text" ++ lit ": "
      ++ q "rule text without checkbox" ++ lit ",";
    lit "                    " ++ q "checkbox_content" ++ lit ": "
      ++ q "checkbox content" ++ lit ",";
    lit "                    " ++ q "section" ++ lit ": "
      ++ q "section name" ++ lit ",";
    lit "                    " ++ q "is_approved" ++ lit ": true";
    lit "                }";
    lit "            ],";
    lit "            " ++ q "all_rules" ++ lit ": [";
    lit "                {";
    lit "                    " ++ q "rule_number" ++ lit ": number,";
    lit "                    " ++ q "rule_text" ++ lit ": "
      ++ q "rule text without checkbox" ++ lit ",";
    lit "                    " ++ q "checkbox_content" ++ lit ": "
      ++ q "checkbox content" ++ lit ", ";
    lit "                    " ++ q "section" ++ lit ": "
      ++ q "section name" ++ lit ",";
    lit "                    " ++ q "is_approved" ++ lit ": true/false";
    lit "                }";
    lit "            ]";
    lit "        }";
    lit "        ";
    lit "        Checkbox detection rules:";
    lit "        - Approved: ✓, X, ☑, ■, numbers, letters, symbols";
    lit "        - Not approved: □, ☐, ( ), [ ], empty spaces";
    lit "        ";
    lit "        Return only JSON, no other text.";
    lit "        " ].

Fixpoint join_lines (ls : list str) : str :=
  match ls with
  | [] => []
  | [l] => l
  | l :: ls' => l ++ [10%N] ++ join_lines ls'
  end.

Definition make_prompt (document_content : str) : str :=
  join_lines
    (prompt_before ++ [lit "        " ++ document_content] ++ prompt_after).

(** The dictionary the [except] branch of [extract_signing_rules_smart]
    returns. *)
Definition error_result (e : exn) : pyval :=
  PyDict
    [ (lit "status", PyStr (lit "error"));
      (lit "message", PyStr (lit "Error processing document: " ++ exc_str e));
      (lit "sections_found", PyList []);
      (lit "total_rules", PyInt 0);
      (lit "approved_count", PyInt 0);
      (lit "approved_rules", PyList []);
      (lit "all_rules", PyList []) ].

(** The lines that take a Markdown code fence off the reply. *)
Definition strip_fence (response_text : str) : str :=
  if startswith response_text (lit "```json") then
    slice response_text 7 (-3)
  else if startswith response_text (lit "```") then
    slice response_text 3 (-3)
  else response_text.

Section App.

(** [json.loads] *)
Variable json_loads : str -> flow exn pyval.

(** [anthropic.Anthropic(api_key=...)], [genai.configure(api_key=...)] and
    [genai.GenerativeModel(name)] *)
Variable anthropic_Anthropic : str -> flow exn anthropic_client.
Variable genai_configure : str -> flow exn unit.
Variable genai_GenerativeModel : str -> flow exn gemini_model.

(** [DocumentProcessor(api_key, provider)] *)
Definition DocumentProcessor_init (api_key provider_name : str)
  : flow exn DocumentProcessor :=
  if eqb provider_name (lit "claude") then
    c <- anthropic_Anthropic api_key ;;
    ret {| provider := provider_name; client := Some c; model := None |}
  else if eqb provider_name (lit "gemini") then
    genai_configure api_key ;;
    m <- genai_GenerativeModel (lit "gemini-pro") ;;
    ret {| provider := provider_name; client := None; model := Some m |}
  else
    ret {| provider := provider_name; client := None; model := None |}.

(** The loop of [extract_text_from_pdf]. *)
Fixpoint concat_pages (ps : list pdf_page) (text : str) : flow exn str :=
  match ps with
  | [] => ret text
  | p :: ps' =>
      t <- extract_text p ;;
      concat_pages ps' (text ++ (t ++ [10%N]))
  end.

Definition extract_text_from_pdf (self : DocumentProcessor)
    (uploaded_file : UploadedFile) : Script str :=
  try_except
    (pdf_reader <- lift_exn (PdfReader uploaded_file) ;;
     ps <- lift_exn (pages pdf_reader) ;;
     lift_exn (concat_pages ps []))
    (fun e =>
       show (StError [Text (lit "Error reading PDF: "); Text (exc_str e)]) ;;
       ret []).

(** The first statement of the [try] of [extract_signing_rules_smart]: the
    reply of the provider, stripped. *)
Definition response_text_of (self : DocumentProcessor) (prompt : str)
  : flow exn str :=
  if eqb (provider self) (lit "claude") then
    c <- attribute "client" (client self) ;;
    message <- messages_create c (lit "claude-3-sonnet-20240229") 4000
                 [(lit "user", prompt)] ;;
    block <- first_item (content message) ;;
    t <- block_text block ;;
    ret (strip t)
  else
    m <- attribute "model" (model self) ;;
    response <- generate_content m prompt ;;
    t <- text response ;;
    ret (strip t).

(** The body of the [try]. *)
Definition request_and_parse (self : DocumentProcessor) (prompt : str)
  : flow exn pyval :=
  response_text <- response_text_of self prompt ;;
  json_loads (strip_fence response_text).

Definition extract_signing_rules_smart (self : DocumentProcessor)
    (document_content : str) : flow exn pyval :=
  let prompt := make_prompt document_content in
  try_flow (request_and_parse self prompt)
           (fun e => ret (error_result e)).

(** ** The page *)

Definition set_current_page (z : Z) : Script unit :=
  modify (fun a =>
    {| session := {| current_page := Some z;
                     extraction_results := extraction_results (session a) |};
       page := page a |}).

Definition set_extraction_results (v : pyval) : Script unit :=
  modify (fun a =>
    {| session := {| current_page := current_page (session a);
                     extraction_results := Some v |};
       page := page a |}).

(** [st.session_state.current_page], read *)
Definition get_current_page : Script Z :=
  a <- get ;;
  match current_page (session a) with
  | Some z => ret z
  | None =>
      lift_exn (Raised (AttributeError
        (lit "st.session_state has no attribute " ++ q "current_page")))
  end.

Definition display_pdf_pages (clicked : option button)
    (pdf_file : UploadedFile) : Script Z :=
  try_except
    (pdf_reader <- lift_exn (PdfReader pdf_file) ;;
     ps <- lift_exn (pages pdf_reader) ;;
     let total_pages := Z.of_nat (length ps) in
     a <- get ;;
     match current_page (session a) with
     | None => set_current_page 0
     | Some _ => ret tt
     end ;;
     show (StColumns [1; 2; 1]%Z) ;;
     within (Column 0)
       (cp <- get_current_page ;;
        pressed <- st_button clicked Previous (lit "◀ Previous") (cp =? 0)%Z ;;
        if pressed then
          cp <- get_current_page ;;
          set_current_page (cp - 1) ;;
          st_rerun
        else ret tt) ;;
     within (Column 1)
       (cp <- get_current_page ;;
        show (StWrite [Text (lit "Page "); Int (cp + 1);
                       Text (lit " of "); Int total_pages])) ;;
     within (Column 2)
       (cp <- get_current_page ;;
        pressed <- st_button clicked Next (lit "Next ▶")
                     (total_pages - 1 <=? cp)%Z ;;
        if pressed then
          cp <- get_current_page ;;
          set_current_page (cp + 1) ;;
          st_rerun
        else ret tt) ;;
     cp <- get_current_page ;;
     ps <- lift_exn (pages pdf_reader) ;;
     p <- lift_exn (list_index ps cp) ;;
     current_page_text <- lift_exn (extract_text p) ;;
     show (StTextArea (lit "Document Content (Current Page):")
                      current_page_text 400 true) ;;
     ret total_pages)
    (fun e =>
       show (StError [Text (lit "Error displaying PDF: ");
                      Text (exc_str e)]) ;;
       ret 0%Z).

(** The body of the loop over [results["approved_rules"]]. *)
Definition show_approved_rule (rule : pyval) : Script unit :=
  rule_number <- lift_exn (getitem rule (lit "rule_number")) ;;
  rule_text <- lift_exn (getitem rule (lit "rule_text")) ;;
  head <- lift_exn (getslice_to rule_text 50) ;;
  within (Expander [Text (lit "Rule "); Value rule_number; Text (lit ": ");
                    Value head; Text (lit "...")])
    (section <- lift_exn (get_default rule (lit "section")
                            (PyStr (lit "N/A"))) ;;
     show (StWrite [Text (lit "**Section:** "); Value section]) ;;
     checkbox <- lift_exn (getitem rule (lit "checkbox_content")) ;;
     show (StWrite [Text (lit "**Checkbox Content:** `"); Value checkbox;
                    Text (lit "`")]) ;;
     rule_text <- lift_exn (getitem rule (lit "rule_text")) ;;
     show (StWrite [Text (lit "**Full Rule Text:** "); Value rule_text]) ;;
     show (StSuccess (lit "✅ APPROVED"))).

(** The body of the loop over [results["all_rules"]]. *)
Definition show_rule_summary (rule : pyval) : Script unit :=
  approved <- lift_exn (getitem rule (lit "is_approved")) ;;
  let status_icon := if truthy approved then lit "✅" else lit "❌" in
  approved <- lift_exn (getitem rule (lit "is_approved")) ;;
  let status_text :=
    if truthy approved then lit "APPROVED" else lit "NOT APPROVED" in
  rule_number <- lift_exn (getitem rule (lit "rule_number")) ;;
  rule_text <- lift_exn (getitem rule (lit "rule_text")) ;;
  show (StWrite [Text status_icon; Text (lit " **Rule "); Value rule_number;
                 Text (lit ":** "); Value rule_text]) ;;
  section <- lift_exn (get_default rule (lit "section") (PyStr (lit "N/A"))) ;;
  checkbox <- lift_exn (getitem rule (lit "checkbox_content")) ;;
  show (StWrite [Text (lit "   📍 Section: "); Value section;
                 Text (lit " | Checkbox: `"); Value checkbox;
                 Text (lit "` | Status: "); Text status_text]) ;;
  show StDivider.

(** The body of the loop over [results["sections_found"]]. *)
Definition show_section (section : pyval) : Script unit :=
  section_name <- lift_exn (getitem section (lit "section_name")) ;;
  section_number <- lift_exn (get_default section (lit "section_number")
                                (PyStr [])) ;;
  show (StWrite [Text (lit "• **"); Value section_name; Text (lit "** ");
                 Value section_number]).

Definition display_signing_rules (results : pyval) : Script unit :=
  status <- lift_exn (getitem results (lit "status")) ;;
  if eq_str status (lit "error") then
    message <- lift_exn (getitem results (lit "message")) ;;
    show (StError [Text (lit "Error: "); Value message])
  else
    show (StSuccess (lit "✅ Successfully processed document!")) ;;
    show (StColumns [1; 1; 1]%Z) ;;
    within (Column 0)
      (total_rules <- lift_exn (getitem results (lit "total_rules")) ;;
       st_metric (lit "Total Rules") total_rules) ;;
    within (Column 1)
      (approved_count <- lift_exn (getitem results (lit "approved_count")) ;;
       st_metric (lit "Approved Rules") approved_count) ;;
    within (Column 2)
      (sections <- lift_exn (getitem results (lit "sections_found")) ;;
       n <- lift_exn (len sections) ;;
       st_metric (lit "Sections Found") (PyInt n)) ;;
    sections <- lift_exn (getitem results (lit "sections_found")) ;;
    (if truthy sections then
       show (StSubheader (lit "📍 Sections Found")) ;;
       sections <- lift_exn (getitem results (lit "sections_found")) ;;
       items <- lift_exn (iter sections) ;;
       for_each items show_section
     else ret tt) ;;
    approved_rules <- lift_exn (getitem results (lit "approved_rules")) ;;
    (if truthy approved_rules then
       show (StSubheader (lit "✅ Approved Signing Rules")) ;;
       approved_rules <- lift_exn (getitem results (lit "approved_rules")) ;;
       items <- lift_exn (iter approved_rules) ;;
       for_each items show_approved_rule
     else ret tt) ;;
    within (Expander [Text (lit "📋 All Rules Summary")])
      (all_rules <- lift_exn (getitem results (lit "all_rules")) ;;
       items <- lift_exn (iter all_rules) ;;
       for_each items show_rule_summary).

(** What the browser sends with a run: the chosen provider, the text typed
    into each text field (by its label), the uploaded file and the button
    that was clicked, if one was. *)
Record browser : Type := {
  selected_provider : str;
  typed_text : str -> str;
  uploaded : option UploadedFile;
  clicked_button : option button
}.

Definition sidebar (b : browser) : Script (str * str) :=
  within Sidebar
    (show (StHeader (lit "⚙️ Configuration")) ;;
     show (StSelectbox (lit "Select AI Provider:")
                       [lit "claude"; lit "gemini"]) ;;
     let provider_name := selected_provider b in
     api_key <-
       (if eqb provider_name (lit "claude") then
          show (StTextInput (lit "Enter Claude API Key:") (lit "password")) ;;
          show (StInfo
            (lit "Get your API key from: https://console.anthropic.com/")) ;;
          ret (typed_text b (lit "Enter Claude API Key:"))
        else
          show (StTextInput (lit "Enter Gemini API Key:") (lit "password")) ;;
          show (StInfo
            (lit "Get your API key from: https://makersuite.google.com/app/apikey")) ;;
          ret (typed_text b (lit "Enter Gemini API Key:"))) ;;
     show (StMarkdown (lit "---")) ;;
     show (StMarkdown (lit "### 📋 How it works:")) ;;
     show (StMarkdown (join_lines
       [ [];
         lit "        1. Upload a PDF document";
         lit "        2. Navigate through pages";
         lit "        3. Click 'Extract Rules' to analyze";
         lit "        4. View approved signing rules";
         lit "        " ])) ;;
     ret (provider_name, api_key)).

(** The block under the extraction button; it answers whether [main]
    returns from inside it. *)
Definition extract_clicked (provider_name api_key : str)
    (uploaded_file : UploadedFile) : Script bool :=
  if Nat.eqb (length api_key) 0 then
    show (StError [Text (lit "Please enter your API key in the sidebar!")]) ;;
    ret true
  else
    within (Spinner (lit "Analyzing document for signing rules..."))
      (try_except
         (processor <- lift_exn
                         (DocumentProcessor_init api_key provider_name) ;;
          lift_exn (seek uploaded_file 0) ;;
          document_text <- extract_text_from_pdf processor uploaded_file ;;
          if negb (Nat.eqb (length document_text) 0) then
            results <- lift_exn
                         (extract_signing_rules_smart processor
                                                      document_text) ;;
            set_extraction_results results
          else
            show (StError [Text (lit "Could not extract text from PDF")]))
         (fun e =>
            show (StError [Text (lit "Error processing document: ");
                           Text (exc_str e)]))) ;;
    ret false.

Definition main (b : browser) : Script unit :=
  show (StPageConfig (lit "Document Signing Rules Extractor") (lit "📄")
                     (lit "wide")) ;;
  show (StTitle (lit "📄 Document Signing Rules Extractor")) ;;
  show (StMarkdown (lit
    "Upload a PDF document to automatically extract and analyze signing rules with checkboxes")) ;;
  '(provider_name, api_key) <- sidebar b ;;
  show (StFileUploader (lit "Choose a PDF file") (lit "pdf")) ;;
  match uploaded b with
  | Some uploaded_file =>
      show (StHeader (lit "📖 Document Viewer")) ;;
      show (StColumns [3; 2]%Z) ;;
      total_pages <-
        within (Column 0)
          (show (StSubheader (lit "Document Pages")) ;;
           display_pdf_pages (clicked_button b) uploaded_file) ;;
      within (Column 1)
        (show (StSubheader (lit "Document Info")) ;;
         show (StWrite [Text (lit "**Filename:** ");
                        Text (name uploaded_file)]) ;;
         show (StWrite [Text (lit "**File size:** ");
                        IntGrouped (size uploaded_file);
                        Text (lit " bytes")]) ;;
         show (StWrite [Text (lit "**Total pages:** "); Int total_pages])) ;;
      show (StMarkdown (lit "---")) ;;
      pressed <- st_button (clicked_button b) ExtractRules
                   (lit "🔍 Extract Signing Rules") false ;;
      returned <-
        (if pressed then extract_clicked provider_name api_key uploaded_file
         else ret false) ;;
      if returned then ret tt
      else
        a <- get ;;
        match extraction_results (session a) with
        | Some results =>
            show (StHeader (lit "🎯 Extraction Results")) ;;
            display_signing_rules results
        | None => ret tt
        end
  | None =>
      show (StInfo (lit "👆 Please upload a PDF document to get started")) ;;
      show (StMarkdown (lit "---")) ;;
      show (StMarkdown (lit "### 🔍 What this app detects:")) ;;
      show (StMarkdown (join_lines
        [ [];
          lit "        - **Checkbox formats:** ☑, ✓, X, ■, [X], (X), numbered boxes";
          lit "        - **Empty checkboxes:** □, ☐, [ ], ( )";
          lit "        - **Signing rules** across all document sections";
          lit "        - **Approval status** based on checkbox content";
          lit "        " ]))
  end.

(** One run of the script: the page starts empty, the session is the one
    the previous run left. *)
Definition run (b : browser) (s : session_state)
  : flow signal unit * app :=
  main b {| session := s; page := [] |}.

End App.

(** ** The result object, as the specification describes it *)

Definition field (d : list (str * pyval)) (k : string) (p : pyval -> bool)
  : bool :=
  match dict_get d (lit k) with
  | Some v => p v
  | None => false
  end.

Definition anything (v : pyval) : bool := true.

Definition is_str (v : pyval) : bool :=
  match v with PyStr _ => true | _ => false end.

Definition is_bool (v : pyval) : bool :=
  match v with PyBool _ => true | _ => false end.

Definition is_number (v : pyval) : bool :=
  match v with PyInt _ | PyFloat _ => true | _ => false end.

(** A value [st.metric] shows: anything but a list or an object. *)
Definition is_metric_value (v : pyval) : bool :=
  match v with PyList _ | PyDict _ => false | _ => true end.

Definition is_list_of (p : pyval -> bool) (v : pyval) : bool :=
  match v with PyList l => forallb p l | _ => false end.

(** A detected section: an object with at least a name. *)
Definition is_section_object (v : pyval) : bool :=
  match v with
  | PyDict d => field d "section_name" anything
  | _ => false
  end.

(** A rule: a number, a text, a checkbox marker, a section and a boolean
    approval flag. *)
Definition is_rule_object (v : pyval) : bool :=
  match v with
  | PyDict d =>
      field d "rule_number" anything && field d "rule_text" is_str
      && field d "checkbox_content" anything && field d "section" anything
      && field d "is_approved" is_bool
  | _ => false
  end.

(** The JSON contract of the LLM reply: status, message, the list of
    sections, the two counts and the two lists of rules.  The contract says
    nothing about what the two counts are. *)
Definition meets_contract (results : pyval) : bool :=
  match results with
  | PyDict d =>
      field d "status" anything && field d "message" anything
      && field d "sections_found" (is_list_of is_section_object)
      && field d "total_rules" anything
      && field d "approved_count" anything
      && field d "approved_rules" (is_list_of is_rule_object)
      && field d "all_rules" (is_list_of is_rule_object)
  | _ => false
  end.

(** Both counts of a result are values [st.metric] shows. *)
Definition counts_can_be_shown (results : pyval) : bool :=
  match results with
  | PyDict d =>
      field d "total_rules" is_metric_value
      && field d "approved_count" is_metric_value
  | _ => false
  end.

(** [rule["is_approved"]] is [True]. *)
Definition marked_approved (rule : pyval) : bool :=
  match getitem rule (lit "is_approved") with
  | Return (PyBool true) => true
  | _ => false
  end.

(** The counts match the lists: [approved_count] is the length of
    [approved_rules], and every approved rule is also in [all_rules], marked
    approved. *)
Definition counts_match (results : pyval) : bool :=
  match getitem results (lit "approved_count"),
        getitem results (lit "approved_rules"),
        getitem results (lit "all_rules") with
  | Return (PyInt n), Return (PyList approved), Return (PyList all) =>
      (n =? Z.of_nat (length approved))%Z
      && forallb (fun r => existsb (pyval_eqb r) all && marked_approved r)
                 approved
  | _, _, _ => false
  end.

(** A piece of the script that ends normally from every state: it raises
    nothing and asks for no rerun. *)
Definition completes {A} (c : Script A) : Prop :=
  forall a, exists v a', c a = (Return v, a').

(** A piece of the script that, from no state, ends with a [KeyError] or
    with a rerun. *)
Definition no_key_error {A} (c : Script A) : Prop :=
  forall a s a',
    c a = (Raised s, a') ->
    exists e, s = Exception e /\ exc_class e <> lit "KeyError".

(** The state after a piece of the script has added the widgets [ws] and
    left the session alone. *)
Definition drawn (a : app) (ws : list widget) : app :=
  {| session := session a; page := page a ++ ws |}.

(** A piece of the script that, from every state, ends in the same way [r]
    and adds the same widgets [ws]: it neither reads nor writes the
    session. *)
Definition renders {A} (c : Script A) (r : flow signal A)
    (ws : list widget) : Prop :=
  forall a, c a = (r, drawn a ws).

Definition draws {A} (c : Script A) : Prop :=
  exists r ws, renders c r ws.

(** A piece of the script that leaves a property of the session as it
    finds it. *)
Definition preserves {A} (P : session_state -> Prop) (c : Script A) : Prop :=
  forall a, P (session a) -> P (session (snd (c a))).

(** ** Paging through one document *)

(** Where a click takes the pager of a document with [total_pages] pages:
    back unless on the first page, forward unless on the last (or
    beyond). *)
Definition next_page (total_pages : Z) (clicked : option button) (k : Z)
  : Z :=
  match clicked with
  | Some Previous => if (k =? 0)%Z then k else (k - 1)%Z
  | Some Next => if (total_pages - 1 <=? k)%Z then k else (k + 1)%Z
  | _ => k
  end.


(** The sessions that calls of [display_pdf_pages] on one file lead to,
    whatever is clicked between them. *)
Inductive paging (pdf_file : UploadedFile) (start : app) : app -> Prop :=
| paging_start : paging pdf_file start start
| paging_run (a : app) (clicked : option button) :
    paging pdf_file start a ->
    paging pdf_file start (snd (display_pdf_pages clicked pdf_file a)).

(** [current_page] is a page of a document with [total_pages] pages. *)
Definition on_a_page (total_pages : Z) (a : app) : Prop :=
  exists k, current_page (session a) = Some k /\ (0 <= k <= total_pages - 1)%Z.

Definition new_session : session_state :=
  {| current_page := None; extraction_results := None |}.

Definition blank_app : app := {| session := new_session; page := [] |}.

(** ** Stand-ins for the outside, used to run the functions *)

Module Fixture.

(** A Gemini processor whose model answers [reply] to every prompt. *)
Definition gemini_replying (reply : str) : DocumentProcessor :=
  {| provider := lit "gemini";
     client := None;
     model := Some {| generate_content := fun _ =>
                        Return {| text := Return reply |} |} |}.

(** A Claude processor whose request fails. *)
Definition claude_failing (e : exn) : DocumentProcessor :=
  {| provider := lit "claude";
     client := Some {| messages_create := fun _ _ _ => Raised e |};
     model := None |}.

Definition connection_error : exn :=
  mkExn (lit "APIConnectionError") (lit "Connection error.").

(** A PDF with one page per text. *)
Definition pdf_with (file_name : string) (texts : list str) : UploadedFile :=
  {| name := lit file_name;
     size := 1024;
     seek := fun pos => Return pos;
     PdfReader :=
       Return {| pages :=
                   Return (map (fun t => {| extract_text := Return t |})
                               texts) |} |}.

Definition pdf_read_error : exn :=
  mkExn (lit "PdfReadError") (lit "EOF marker not found").

(** A file that is not a PDF. *)
Definition broken_pdf : UploadedFile :=
  {| name := lit "notes.txt";
     size := 12;
     seek := fun pos => Return pos;
     PdfReader := Raised pdf_read_error |}.

(** A PDF whose second page cannot be decoded. *)
Definition half_readable_pdf : UploadedFile :=
  {| name := lit "scan.pdf";
     size := 2048;
     seek := fun pos => Return pos;
     PdfReader :=
       Return {| pages :=
                   Return [ {| extract_text := Return (lit "Page one") |};
                            {| extract_text := Raised pdf_read_error |} ] |} |}.

Definition three_pages : UploadedFile :=
  pdf_with "rules.pdf" [lit "one"; lit "two"; lit "three"].

Definition one_page : UploadedFile := pdf_with "cover.pdf" [lit "only"].

(** A scanned PDF: two pages without any text. *)
Definition scanned_pdf : UploadedFile := pdf_with "scan.pdf" [[]; []].

(** A PDF without pages. *)
Definition empty_pdf : UploadedFile := pdf_with "empty.pdf" [].

(** The libraries behind [DocumentProcessor]: no Claude client without a
    valid key, and a Gemini model that answers [reply] to every prompt. *)
Definition no_client (api_key : str) : flow exn anthropic_client :=
  Raised (mkExn (lit "AuthenticationError") (lit "invalid x-api-key")).

Definition configure (api_key : str) : flow exn unit := Return tt.

Definition model_replying (reply : str) (model_name : str)
  : flow exn gemini_model :=
  Return {| generate_content := fun _ =>
              Return {| text := Return reply |} |}.

(** What the browser sends: Gemini chosen, a key typed, a file and a
    click. *)
Definition browsing (file : option UploadedFile) (click : option button)
  : browser :=
  {| selected_provider := lit "gemini";
     typed_text := fun _ => lit "key";
     uploaded := file;
     clicked_button := click |}.

(** One run of the script against these libraries. *)
Definition visit (reply : str) (b : browser) (s : session_state)
  : flow signal unit * app :=
  run PyJson.loads no_client configure (model_replying reply) b s.

(** A sequence of runs in one browser session; the session is what is
    kept from one run to the next. *)
Fixpoint browse (reply : str) (visits : list browser) (s : session_state)
  : session_state :=
  match visits with
  | [] => s
  | b :: visits' => browse reply visits' (session (snd (visit reply b s)))
  end.

End Fixture.

End GeminiApp.

(* ================================================================== *)
(** * Properties *)
(* ================================================================== *)

Unset Implicit Arguments.

(** ** Strings *)

Lemma eqb_eq (a b : str) : eqb a b = true <-> a = b.
Proof.
  revert b; induction a as [|x a IH]; intros [|y b]; simpl;
    try (split; [discriminate | congruence]); try tauto.
  rewrite andb_true_iff, N.eqb_eq, IH. split.
  - intros [-> ->]; reflexivity.
  - intros H; injection H; auto.
Qed.

Lemma startswith_app (p r : str) : startswith (p ++ r) p = true.
Proof.
  induction p as [|c p IH]; simpl; [reflexivity|].
  now rewrite N.eqb_refl, IH.
Qed.

Lemma startswith_inv (s p : str) :
  startswith s p = true -> exists r, s = p ++ r.
Proof.
  revert s; induction p as [|c p IH]; intros s H; simpl in *.
  - now exists s.
  - destruct s as [|d s]; [discriminate|].
    apply andb_true_iff in H as [Hc Hs]. apply N.eqb_eq in Hc; subst d.
    destruct (IH _ Hs) as [r ->]. now exists r.
Qed.

(** A slice [s[a:-b]] drops the first [a] and the last [b] items, whatever
    they are. *)
Lemma slice_drop_both {A} (s : list A) (a b : nat) :
  (0 < b)%nat ->
  slice s (Z.of_nat a) (- Z.of_nat b) = skipn a (firstn (length s - b) s).
Proof.
  intros Hb. unfold slice, adjust_index.
  set (n := length s).
  assert (Hlo : (Z.of_nat a <? 0)%Z = false) by (apply Z.ltb_ge; lia).
  assert (Hhi : (- Z.of_nat b <? 0)%Z = true) by (apply Z.ltb_lt; lia).
  rewrite Hlo, Hhi.
  replace (Z.to_nat (Z.min (Z.of_nat a) (Z.of_nat n))) with (Nat.min a n)
    by lia.
  replace (Z.to_nat (Z.max 0 (- Z.of_nat b + Z.of_nat n)
                     - Z.min (Z.of_nat a) (Z.of_nat n)))
    with (n - b - Nat.min a n)%nat by lia.
  destruct (Nat.le_gt_cases a n) as [Han|Han].
  - rewrite Nat.min_l by lia. rewrite skipn_firstn_comm. reflexivity.
  - rewrite Nat.min_r by lia.
    replace (n - b - n)%nat with 0%nat by lia.
    rewrite firstn_O. symmetry. apply skipn_all2.
    rewrite length_firstn. fold n. lia.
Qed.

(** ** duplicate.py *)

Section DuplicateFacts.

Import Duplicate.

Variables image keypoint descriptors dmatch : Type.
Variable detectAndCompute :
  image -> flow exn (list keypoint * option descriptors).
Variable bf_match : descriptors -> descriptors -> flow exn (list dmatch).

Lemma similarity_without_descriptors img1 img2 kp1 kp2 des1 des2 :
  detectAndCompute img1 = Return (kp1, des1) ->
  detectAndCompute img2 = Return (kp2, des2) ->
  des1 = None \/ des2 = None ->
  orb_similarity detectAndCompute bf_match img1 img2 = Return 0%Z.
Proof.
  intros H1 H2 Hnone. unfold orb_similarity. simpl.
  rewrite H1, H2.
  destruct Hnone as [-> | ->]; [reflexivity | now destruct des1].
Qed.

(** C3, as the code has it: when the descriptors of one of the two images
    are [None], [orb_similarity] returns 0 and [are_images_similar_orb]
    returns [False] for every threshold that is not negative. *)
Theorem no_descriptors_not_similar img1 img2 kp1 kp2 des1 des2 :
  detectAndCompute img1 = Return (kp1, des1) ->
  detectAndCompute img2 = Return (kp2, des2) ->
  des1 = None \/ des2 = None ->
  orb_similarity detectAndCompute bf_match img1 img2 = Return 0%Z
  /\ forall match_threshold : Z,
       (0 <= match_threshold)%Z ->
       are_images_similar_orb detectAndCompute bf_match img1 img2
                              match_threshold = Return false.
Proof.
  intros H1 H2 Hnone.
  pose proof (similarity_without_descriptors _ _ _ _ _ _ H1 H2 Hnone) as Hs.
  split; [exact Hs|].
  intros t Ht. unfold are_images_similar_orb. simpl. rewrite Hs.
  f_equal. apply Z.ltb_ge. exact Ht.
Qed.

(** C10: [are_images_similar_orb] returns [True] exactly when
    [orb_similarity] returns a count strictly above the threshold; a count
    equal to the threshold gives [False]. *)
Theorem similar_iff_above_threshold img1 img2 (match_threshold : Z) :
  (are_images_similar_orb detectAndCompute bf_match img1 img2
                          match_threshold = Return true
   <-> exists matches,
         orb_similarity detectAndCompute bf_match img1 img2 = Return matches
         /\ (matches > match_threshold)%Z)
  /\ (orb_similarity detectAndCompute bf_match img1 img2
        = Return match_threshold ->
      are_images_similar_orb detectAndCompute bf_match img1 img2
                             match_threshold = Return false).
Proof.
  unfold are_images_similar_orb. simpl.
  destruct (orb_similarity detectAndCompute bf_match img1 img2)
    as [m|e] eqn:Hm.
  - split.
    + split.
      * intros H. injection H as H. apply Z.ltb_lt in H.
        exists m. split; [reflexivity | lia].
      * intros [m' [H Hgt]]. injection H as <-.
        f_equal. apply Z.ltb_lt. lia.
    + intros H. injection H as ->. f_equal. apply Z.ltb_irrefl.
  - split.
    + split; [discriminate | intros [m' [H _]]; discriminate].
    + discriminate.
Qed.

End DuplicateFacts.

(** Two images without descriptors and the threshold 5. *)
Lemma no_descriptors_not_similar_witness :
  Duplicate.orb_similarity Duplicate.Fixture.detectAndCompute
      Duplicate.Fixture.bf_match Duplicate.Fixture.blank [7%N; 9%N]
    = Return 0%Z
  /\ Duplicate.are_images_similar_orb Duplicate.Fixture.detectAndCompute
       Duplicate.Fixture.bf_match Duplicate.Fixture.blank [7%N; 9%N] 5
     = Return false.
Proof.
  destruct (@no_descriptors_not_similar _ _ _ _
              Duplicate.Fixture.detectAndCompute Duplicate.Fixture.bf_match
              Duplicate.Fixture.blank [7%N; 9%N] [] [0; 1]%nat
              None (Some [7%N; 9%N]))
    as [H0 Hall].
  - reflexivity.
  - reflexivity.
  - left; reflexivity.
  - split; [exact H0 | apply Hall; lia].
Defined.

(** C3 as it is written fails for a negative threshold: two images without
    descriptors have 0 matches, and 0 is above -1. *)
Lemma no_descriptors_negative_threshold :
  Duplicate.Fixture.detectAndCompute Duplicate.Fixture.blank
    = Return ([], None)
  /\ Duplicate.orb_similarity Duplicate.Fixture.detectAndCompute
       Duplicate.Fixture.bf_match Duplicate.Fixture.blank
       Duplicate.Fixture.blank = Return 0%Z
  /\ Duplicate.are_images_similar_orb Duplicate.Fixture.detectAndCompute
       Duplicate.Fixture.bf_match Duplicate.Fixture.blank
       Duplicate.Fixture.blank (-1) = Return true.
Proof. repeat split. Qed.

(** Three rows in common: similar for the threshold 2, not for 3. *)
Lemma similar_iff_above_threshold_witness :
  Duplicate.are_images_similar_orb Duplicate.Fixture.detectAndCompute
    Duplicate.Fixture.bf_match [1%N; 2%N; 3%N] [3%N; 2%N; 1%N; 8%N] 2
    = Return true
  /\ Duplicate.are_images_similar_orb Duplicate.Fixture.detectAndCompute
       Duplicate.Fixture.bf_match [1%N; 2%N; 3%N] [3%N; 2%N; 1%N; 8%N] 3
     = Return false.
Proof.
  split.
  - apply (proj1 (@similar_iff_above_threshold _ _ _ _
                    Duplicate.Fixture.detectAndCompute
                    Duplicate.Fixture.bf_match
                    [1%N; 2%N; 3%N] [3%N; 2%N; 1%N; 8%N] 2)).
    exists 3%Z. split; [reflexivity | lia].
  - apply (proj2 (@similar_iff_above_threshold _ _ _ _
                    Duplicate.Fixture.detectAndCompute
                    Duplicate.Fixture.bf_match
                    [1%N; 2%N; 3%N] [3%N; 2%N; 1%N; 8%N] 3)).
    reflexivity.
Defined.

(** ** donut.py *)

(** A loop whose body only appends to the state appends the pieces in the
    order of the list. *)
Lemma for_each_appends {A W E : Type} (xs : list A)
    (body : A -> M (list W) E unit) (f : A -> list W) :
  (forall x tr, In x xs -> body x tr = (Return tt, tr ++ f x)) ->
  forall tr, for_each xs body tr = (Return tt, tr ++ flat_map f xs).
Proof.
  induction xs as [|x xs IH]; intros Hbody tr; simpl.
  - now rewrite app_nil_r.
  - rewrite (Hbody x tr (or_introl eq_refl)).
    rewrite IH by (intros y tr' Hy; apply Hbody; now right).
    now rewrite <- app_assoc.
Qed.

Lemma in_enumerate {A} (xs : list A) (n : nat) (x : A) :
  In (n, x) (Donut.enumerate xs) -> In x xs.
Proof. unfold Donut.enumerate. apply in_combine_r. Qed.

(** A loop whose bodies end in the same way from every state: either all
    of them return, or the loop ends with the exception of the first one
    that raises. *)
Lemma for_each_first_failure {A W E : Type} (P : A -> E -> Prop)
    (xs : list A) (body : A -> M W E unit) (x : A) :
  (forall y, In y xs ->
     (forall tr, exists tr', body y tr = (Return tt, tr'))
     \/ (exists e', P y e' /\ forall tr, fst (body y tr) = Raised e')) ->
  In x xs ->
  (exists tr e, fst (body x tr) = Raised e) ->
  exists y e',
    In y xs /\ P y e' /\ forall tr, fst (for_each xs body tr) = Raised e'.
Proof.
  induction xs as [|x0 xs IH]; intros Hall Hin Hx; [destruct Hin|].
  destruct (Hall x0 (or_introl eq_refl)) as [Hret | [e0 [HP Hraise]]].
  - assert (Hin' : In x xs).
    { destruct Hin as [<- | Hin]; [|exact Hin].
      destruct Hx as (tr & e & Hx).
      destruct (Hret tr) as [tr' Hr].
      rewrite Hr in Hx. discriminate. }
    destruct IH as (y & e' & Hy & HPy & Hloop); [|exact Hin'|exact Hx|].
    + intros y Hy. apply Hall. now right.
    + exists y, e'. split; [now right|]. split; [exact HPy|].
      intros tr. simpl. destruct (Hret tr) as [tr' ->]. apply Hloop.
  - exists x0, e0. split; [now left|]. split; [exact HP|].
    intros tr. simpl. specialize (Hraise tr).
    destruct (body x0 tr) as [[u|e1] tr']; simpl in *; congruence.
Qed.

Lemma for_each_all_or_failure {A W E : Type} (P : A -> E -> Prop)
    (xs : list A) (body : A -> M W E unit) :
  (forall y, In y xs ->
     (forall tr, exists tr', body y tr = (Return tt, tr'))
     \/ (exists e', P y e' /\ forall tr, fst (body y tr) = Raised e')) ->
  (forall tr, exists tr', for_each xs body tr = (Return tt, tr'))
  \/ (exists y e',
        In y xs /\ P y e'
        /\ forall tr, fst (for_each xs body tr) = Raised e').
Proof.
  induction xs as [|x0 xs IH]; intros Hall.
  - left. intros tr. now exists tr.
  - destruct (Hall x0 (or_introl eq_refl)) as [Hret | [e0 [HP Hraise]]].
    + destruct IH as [Hrest | (y & e' & Hy & HPy & Hloop)].
      * intros y Hy. apply Hall. now right.
      * left. intros tr. simpl. destruct (Hret tr) as [tr' ->].
        apply Hrest.
      * right. exists y, e'. split; [now right|]. split; [exact HPy|].
        intros tr. simpl. destruct (Hret tr) as [tr' ->]. apply Hloop.
    + right. exists x0, e0. split; [now left|]. split; [exact HP|].
      intros tr. simpl. specialize (Hraise tr).
      destruct (body x0 tr) as [[u|e1] tr']; simpl in *; congruence.
Qed.

Lemma in_enumerate_number {A} (xs : list A) (x : A) :
  In x xs -> exists n, In (n, x) (Donut.enumerate xs).
Proof.
  unfold Donut.enumerate. generalize 0%nat.
  induction xs as [|x0 xs IH]; intros k Hin; [destruct Hin|].
  simpl. destruct Hin as [<- | Hin].
  - exists k. now left.
  - destruct (IH (S k) Hin) as [n Hn]. exists n. now right.
Qed.

Lemma flat_map_ext_in {A B : Type} (f g : A -> list B) (xs : list A) :
  (forall x, In x xs -> f x = g x) -> flat_map f xs = flat_map g xs.
Proof.
  induction xs as [|x xs IH]; intros H; simpl; [reflexivity|].
  rewrite (H x (or_introl eq_refl)), IH; [reflexivity|].
  intros y Hy. apply H. now right.
Qed.

Section DonutFacts.

Import Donut.

Variables image pixel_values token_ids sequences : Type.
Variable convert_from_path : str -> flow exn (list image).
Variable processor_call : image -> flow exn pixel_values.
Variable tokenizer_call : str -> flow exn token_ids.
Variable model_generate : pixel_values -> token_ids -> flow exn sequences.
Variable batch_decode : sequences -> flow exn (list str).

Abbreviation ask :=
  (ask_question processor_call tokenizer_call model_generate batch_decode).
Abbreviation decoded :=
  (decoded_text processor_call tokenizer_call model_generate batch_decode).
Abbreviation calls := (inference_calls processor_call tokenizer_call model_generate).
Abbreviation extract :=
  (extract_signatory_info convert_from_path processor_call tokenizer_call
                          model_generate batch_decode).

(** One question: the four calls of the model stack in order, and the
    decoded text without prompt and white space as the answer. *)
Lemma ask_question_answers img question raw tr :
  decoded img (make_prompt question) = Return raw ->
  ask img question tr
  = (Return (answer_of raw (make_prompt question)),
     tr ++ calls img (make_prompt question)).
Proof.
  unfold decoded_text, ask_question, inference_calls, call, lift, modify.
  simpl.
  destruct (processor_call img) as [px|e]; [|discriminate].
  destruct (tokenizer_call (make_prompt question)) as [ids|e];
    [|discriminate].
  destruct (model_generate px ids) as [out|e]; [|discriminate].
  destruct (batch_decode out) as [texts|e]; [|discriminate].
  destruct texts as [|t0 texts]; simpl; [discriminate|].
  intros H; injection H as ->.
  repeat rewrite <- app_assoc. reflexivity.
Qed.

Lemma answer_page_prints (raw : image -> str -> str) n img
    (tr : console image pixel_values token_ids sequences) :
  (forall q, In q questions ->
     decoded img (make_prompt q) = Return (raw img q)) ->
  answer_page processor_call tokenizer_call model_generate batch_decode
              (n, img) tr
  = (Return tt,
     tr ++ page_events processor_call tokenizer_call model_generate raw
                       (n, img)).
Proof.
  intros Hdec. unfold answer_page, page_events, print, modify.
  cbn -[questions for_each ask_question].
  rewrite for_each_appends
    with (f := fun q =>
                 calls img (make_prompt q)
                   ++ [Printed _ _ _ _
                         (answer_line q (answer_of (raw img q)
                                                   (make_prompt q)))]).
  - rewrite <- app_assoc. reflexivity.
  - intros q tr' Hq. cbn -[ask_question].
    rewrite (ask_question_answers _ _ _ _ (Hdec q Hq)).
    now rewrite <- app_assoc.
Qed.

(** The console of a run in which every question is answered: the
    conversion, then the events of the pages in order. *)
Lemma successful_run_console
    (pdf_path : str) (images : list image) (raw : image -> str -> str)
    (tr : console image pixel_values token_ids sequences) :
  convert_from_path pdf_path = Return images ->
  (forall img q, In img images -> In q questions ->
     decoded img (make_prompt q) = Return (raw img q)) ->
  extract pdf_path tr
  = (Return tt,
     tr ++ ConvertFromPath _ _ _ _ pdf_path
        :: flat_map (page_events processor_call tokenizer_call
                                 model_generate raw)
                    (enumerate images)).
Proof.
  intros Hconv Hdec.
  unfold extract_signatory_info, pdf_to_images, call, lift, modify.
  cbn -[for_each enumerate answer_page]. rewrite Hconv.
  rewrite for_each_appends
    with (f := page_events processor_call tokenizer_call model_generate raw).
  - rewrite <- app_assoc. reflexivity.
  - intros [n img] tr' Hin. apply in_enumerate in Hin.
    apply answer_page_prints. intros q Hq. now apply Hdec.
Qed.

(** C7: [extract_signatory_info] converts the PDF at the given path into
    page images first; then, page by page in order and for each of the
    three fixed questions in order, it obtains the answer of the model (the
    processor on the page image, the tokenizer on the prompt of the
    question, the generation, the decoding, the first decoded text without
    the prompt and without surrounding white space) and prints the question
    with the answer.  The console is written out in full: the conversion,
    and for page number [page_num] (from 0) the header line and five events
    for each question, the last one the printed [question → answer]. *)
Theorem extract_signatory_info_pipeline
    (pdf_path : str) (images : list image)
    (inputs : image -> pixel_values) (ids : str -> token_ids)
    (outputs : image -> str -> sequences)
    (raw : image -> str -> str) (others : image -> str -> list str)
    (tr : console image pixel_values token_ids sequences) :
  let three_questions :=
    [ lit "What is the print full name?";
      lit "What is the print surname?";
      lit "What is the official position?" ] in
  let prompt q :=
    lit "<s_docvqa><s_question>" ++ q ++ lit "</s_question><s_answer>" in
  convert_from_path pdf_path = Return images ->
  (forall img, In img images -> processor_call img = Return (inputs img)) ->
  (forall q, In q three_questions ->
     tokenizer_call (prompt q) = Return (ids q)) ->
  (forall img q, In img images -> In q three_questions ->
     model_generate (inputs img) (ids q) = Return (outputs img q)) ->
  (forall img q, In img images -> In q three_questions ->
     batch_decode (outputs img q) = Return (raw img q :: others img q)) ->
  extract pdf_path tr
  = (Return tt,
     tr ++ ConvertFromPath _ _ _ _ pdf_path
        :: flat_map
             (fun '(page_num, img) =>
                Printed _ _ _ _
                  ([10%N] ++ lit "📄 Page " ++ of_nat (page_num + 1))
                :: flat_map
                     (fun q =>
                        [ ProcessorCall _ _ _ img;
                          TokenizerCall _ _ _ _ (prompt q);
                          Generate _ _ (inputs img) (ids q);
                          BatchDecode _ _ _ (outputs img q);
                          Printed _ _ _ _
                            (q ++ lit " → "
                               ++ strip (replace (raw img q) (prompt q) [])) ])
                     three_questions)
             (combine (seq 0 (length images)) images)).
Proof.
  intros three_questions prompt Hconv Hproc Htok Hgen Hdec.
  rewrite (successful_run_console pdf_path images raw tr Hconv).
  - do 3 f_equal. apply flat_map_ext_in. intros [n img] Hin.
    apply in_enumerate in Hin.
    unfold page_events, inference_calls. f_equal.
    apply flat_map_ext_in. intros q Hq.
    change (make_prompt q) with (prompt q).
    rewrite (Hproc img Hin), (Htok q Hq), (Hgen img q Hin Hq).
    reflexivity.
  - intros img q Hin Hq. unfold decoded_text. simpl.
    change (make_prompt q) with (prompt q).
    now rewrite (Hproc img Hin), (Htok q Hq), (Hgen img q Hin Hq),
                (Hdec img q Hin Hq).
Qed.

(** Nothing in [donut.py] catches an exception: a failure of the conversion
    ends [extract_signatory_info] with that exception, before anything is
    printed. *)
Lemma conversion_failure_propagates (pdf_path : str) (e : exn)
    (tr : console image pixel_values token_ids sequences) :
  convert_from_path pdf_path = Raised e ->
  extract pdf_path tr = (Raised e, tr ++ [ConvertFromPath _ _ _ _ pdf_path]).
Proof.
  intros H.
  unfold extract_signatory_info, pdf_to_images, call, lift, modify. simpl.
  now rewrite H.
Qed.

(** And so does a failure of the model on a question. *)
Lemma inference_failure_propagates img question (e : exn)
    (tr : console image pixel_values token_ids sequences) :
  processor_call img = Raised e ->
  fst (ask img question tr) = Raised e.
Proof.
  intros H. unfold ask_question, call, lift, modify. simpl. now rewrite H.
Qed.

(** A failure of any of the four calls of the model stack ends
    [ask_question] with that exception. *)
Lemma stage_failure_propagates img question (e : exn) :
  processor_call img = Raised e
  \/ (exists inputs,
        processor_call img = Return inputs
        /\ (tokenizer_call (make_prompt question) = Raised e
            \/ exists ids,
                 tokenizer_call (make_prompt question) = Return ids
                 /\ (model_generate inputs ids = Raised e
                     \/ exists outputs,
                          model_generate inputs ids = Return outputs
                          /\ batch_decode outputs = Raised e))) ->
  forall tr : console image pixel_values token_ids sequences,
    fst (ask img question tr) = Raised e.
Proof.
  intros H tr. unfold ask_question, call, lift, modify. simpl.
  destruct H as [H | (inputs & Hp & [H | (ids & Ht & [H | (outputs & Hg & H)])])].
  - now rewrite H.
  - now rewrite Hp, H.
  - now rewrite Hp, Ht, H.
  - now rewrite Hp, Ht, Hg, H.
Qed.

(** [ask_question] ends in the same way whatever was printed before. *)
Lemma ask_question_outcome img question :
  (exists answer,
     forall tr : console image pixel_values token_ids sequences,
       exists tr', ask img question tr = (Return answer, tr'))
  \/ (exists e,
        forall tr : console image pixel_values token_ids sequences,
          fst (ask img question tr) = Raised e).
Proof.
  unfold ask_question, call, lift, modify. simpl.
  destruct (processor_call img) as [inputs|e];
    [|right; now exists e].
  destruct (tokenizer_call (make_prompt question)) as [ids|e];
    [|right; now exists e].
  destruct (model_generate inputs ids) as [outputs|e];
    [|right; now exists e].
  destruct (batch_decode outputs) as [[|t ts]|e];
    [right; now eexists | left | right; now exists e].
  eexists. intros tr. now eexists.
Qed.

(** The pages of a document on which the model fails: the exception of the
    first failing question on the first such page ends
    [extract_signatory_info]. *)
Lemma inference_failure_ends_extraction pdf_path images img question e :
  convert_from_path pdf_path = Return images ->
  In img images ->
  In question questions ->
  (forall tr, fst (ask img question tr) = Raised e) ->
  exists img' question' e',
    In img' images /\ In question' questions
    /\ (forall tr, fst (ask img' question' tr) = Raised e')
    /\ forall tr, fst (extract pdf_path tr) = Raised e'.
Proof.
  intros Hconv Himg Hq Hfail.
  pose (asked := fun (im : image) (q : str) (e' : exn) =>
                   forall tr : console image pixel_values token_ids sequences,
                     fst (ask im q tr) = Raised e').
  pose (answer := fun (im : image) (q : str) =>
                    (a <- ask im q ;; print (answer_line q a))
                    : IO image pixel_values token_ids sequences unit).
  assert (Hbody : forall im q,
            (forall tr, exists tr', answer im q tr = (Return tt, tr'))
            \/ (exists e', asked im q e'
                  /\ forall tr, fst (answer im q tr) = Raised e')).
  { intros im q. unfold answer.
    destruct (ask_question_outcome im q) as [[a Hret] | [e' Hraise]].
    - left. intros tr. destruct (Hret tr) as [tr' Hr].
      cbn -[ask_question]. rewrite Hr.
      unfold print, modify. now eexists.
    - right. exists e'. split; [exact Hraise|]. intros tr.
      specialize (Hraise tr). cbn -[ask_question].
      destruct (ask im q tr) as [[a|e1] tr']; cbn in *; congruence. }
  assert (Hpage : forall numbered,
            (forall tr, exists tr',
               answer_page processor_call tokenizer_call model_generate
                           batch_decode numbered tr = (Return tt, tr'))
            \/ (exists e',
                  (exists q, In q questions /\ asked (snd numbered) q e')
                  /\ forall tr,
                       fst (answer_page processor_call tokenizer_call
                              model_generate batch_decode numbered tr)
                       = Raised e')).
  { intros [n im]. unfold answer_page, print, modify.
    destruct (for_each_all_or_failure (asked im) questions (answer im)
                (fun q _ => Hbody im q))
      as [Hret | (q & e' & Hq' & Hasked & Hloop)].
    - left. intros tr.
      cbn -[questions for_each ask_question]. apply Hret.
    - right. exists e'. split; [now exists q|]. intros tr.
      cbn -[questions for_each ask_question]. apply Hloop. }
  destruct (in_enumerate_number images img Himg) as [n Hn].
  destruct (for_each_first_failure
              (fun numbered e' =>
                 exists q, In q questions /\ asked (snd numbered) q e')
              (enumerate images)
              (answer_page processor_call tokenizer_call model_generate
                           batch_decode)
              (n, img) (fun numbered _ => Hpage numbered) Hn)
    as ([n' img'] & e' & Hin & [q' [Hq' Hasked]] & Hloop).
  - destruct (for_each_first_failure (asked img) questions (answer img)
                question (fun q _ => Hbody img q) Hq)
      as (q1 & e1 & _ & _ & Hloop1).
    + exists [], e. unfold answer. specialize (Hfail []).
      cbn -[ask_question].
      destruct (ask img question []) as [[a|e1] tr']; cbn in *; congruence.
    + exists [], e1. unfold answer_page, print, modify.
      cbn -[questions for_each ask_question]. apply Hloop1.
  - exists img', q', e'. split; [now apply in_enumerate in Hin|].
    split; [exact Hq'|]. split; [exact Hasked|].
    intros tr. unfold extract_signatory_info, pdf_to_images, call, lift, modify.
    cbn -[for_each enumerate answer_page]. rewrite Hconv. apply Hloop.
Qed.

End DonutFacts.

(** The two pages of the stand-in: the header of each page and six printed
    answers, page by page, each after the four calls of the model stack. *)
Lemma extract_signatory_info_pipeline_witness :
  exists printed,
    Donut.extract_signatory_info Donut.Fixture.two_pages
      Donut.Fixture.processor_call Donut.Fixture.tokenizer_call
      Donut.Fixture.model_generate Donut.Fixture.batch_decode
      (lit "form.pdf") []
    = (Return tt, Donut.ConvertFromPath _ _ _ _ (lit "form.pdf") :: printed)
    /\ length printed = 32%nat
    /\ nth_error printed 0
       = Some (Donut.Printed _ _ _ _ ([10%N] ++ lit "📄 Page 1"))
    /\ nth_error printed 1
       = Some (Donut.ProcessorCall _ _ _ (lit " Jane Doe "))
    /\ nth_error printed 5
       = Some (Donut.Printed _ _ _ _
                 (lit "What is the print full name? → Jane Doe"))
    /\ nth_error printed 10
       = Some (Donut.Printed _ _ _ _
                 (lit "What is the print surname? → Jane Doe"))
    /\ nth_error printed 15
       = Some (Donut.Printed _ _ _ _
                 (lit "What is the official position? → Jane Doe"))
    /\ nth_error printed 16
       = Some (Donut.Printed _ _ _ _ ([10%N] ++ lit "📄 Page 2"))
    /\ nth_error printed 31
       = Some (Donut.Printed _ _ _ _
                 (lit "What is the official position? → Director")).
Proof.
  eexists. split.
  - apply (extract_signatory_info_pipeline _ _ _ _
             Donut.Fixture.two_pages Donut.Fixture.processor_call
             Donut.Fixture.tokenizer_call Donut.Fixture.model_generate
             Donut.Fixture.batch_decode (lit "form.pdf")
             [lit " Jane Doe "; lit "Director"]
             (fun img => img) (fun q => Donut.make_prompt q)
             (fun img q => Donut.make_prompt q ++ img)
             (fun img q => Donut.make_prompt q ++ img)
             (fun _ _ => []) []);
      reflexivity.
  - repeat split; vm_compute; reflexivity.
Defined.

(** ** gemini_app.py: the request to the LLM *)

Section RequestFacts.

Import GeminiApp.

Variable json_loads : str -> flow exn pyval.

Abbreviation smart := (extract_signing_rules_smart json_loads).

Lemma smart_ok self document_content result :
  request_and_parse json_loads self (make_prompt document_content)
    = Return result ->
  smart self document_content = Return result.
Proof. unfold extract_signing_rules_smart, try_flow. now intros ->. Qed.

Lemma smart_failed self document_content e :
  request_and_parse json_loads self (make_prompt document_content)
    = Raised e ->
  smart self document_content = Return (error_result e).
Proof. unfold extract_signing_rules_smart, try_flow. now intros ->. Qed.

Lemma smart_returns self document_content :
  exists result, smart self document_content = Return result.
Proof.
  destruct (request_and_parse json_loads self (make_prompt document_content))
    as [v|e] eqn:H.
  - exists v. now apply smart_ok.
  - exists (error_result e). now apply smart_failed.
Qed.

Lemma error_result_fields e :
  getitem (error_result e) (lit "status") = Return (PyStr (lit "error"))
  /\ getitem (error_result e) (lit "message")
     = Return (PyStr (lit "Error processing document: " ++ exc_str e))
  /\ getitem (error_result e) (lit "sections_found") = Return (PyList [])
  /\ getitem (error_result e) (lit "total_rules") = Return (PyInt 0)
  /\ getitem (error_result e) (lit "approved_count") = Return (PyInt 0)
  /\ getitem (error_result e) (lit "approved_rules") = Return (PyList [])
  /\ getitem (error_result e) (lit "all_rules") = Return (PyList []).
Proof. repeat split. Qed.

(** C1: whatever fails inside [extract_signing_rules_smart], the request
    to the LLM or the decoding of its reply, the function raises nothing:
    it returns the error result, with status ["error"], a message that
    carries the text of the exception, zero counts and empty lists. *)
Theorem smart_failure_gives_error_result self document_content :
  (exists result, smart self document_content = Return result)
  /\ (forall e,
        response_text_of self (make_prompt document_content) = Raised e ->
        smart self document_content = Return (error_result e))
  /\ (forall reply e,
        response_text_of self (make_prompt document_content) = Return reply ->
        json_loads (strip_fence reply) = Raised e ->
        smart self document_content = Return (error_result e))
  /\ (forall e,
        getitem (error_result e) (lit "status") = Return (PyStr (lit "error"))
        /\ getitem (error_result e) (lit "message")
           = Return (PyStr (lit "Error processing document: " ++ exc_str e))
        /\ getitem (error_result e) (lit "sections_found")
           = Return (PyList [])
        /\ getitem (error_result e) (lit "total_rules") = Return (PyInt 0)
        /\ getitem (error_result e) (lit "approved_count") = Return (PyInt 0)
        /\ getitem (error_result e) (lit "approved_rules")
           = Return (PyList [])
        /\ getitem (error_result e) (lit "all_rules") = Return (PyList [])).
Proof.
  split; [apply smart_returns|].
  split; [|split].
  - intros e H. apply smart_failed. unfold request_and_parse.
    now rewrite H.
  - intros reply e Hr Hj. apply smart_failed. unfold request_and_parse.
    rewrite Hr. exact Hj.
  - apply error_result_fields.
Qed.

(** The reply that reaches the decoder, for either provider. *)
Lemma gemini_reply self prompt m response raw :
  eqb (provider self) (lit "claude") = false ->
  model self = Some m ->
  generate_content m prompt = Return response ->
  text response = Return raw ->
  response_text_of self prompt = Return (strip raw).
Proof.
  intros Hp Hm Hg Ht. unfold response_text_of. rewrite Hp, Hm. simpl.
  now rewrite Hg, Ht.
Qed.

Lemma claude_reply self prompt c message raw others :
  eqb (provider self) (lit "claude") = true ->
  client self = Some c ->
  messages_create c (lit "claude-3-sonnet-20240229") 4000
                  [(lit "user", prompt)] = Return message ->
  content message = TextBlock raw :: others ->
  response_text_of self prompt = Return (strip raw).
Proof.
  intros Hp Hc Hm Hb. unfold response_text_of. rewrite Hp, Hc. simpl.
  now rewrite Hm, Hb.
Qed.

Lemma fence_json_cut (s : str) :
  startswith s (lit "```json") = true ->
  strip_fence s = skipn 7 (firstn (length s - 3) s).
Proof.
  intros H. unfold strip_fence. rewrite H.
  apply (slice_drop_both s 7 3). lia.
Qed.

Lemma fence_plain_cut (s : str) :
  startswith s (lit "```json") = false ->
  startswith s (lit "```") = true ->
  strip_fence s = skipn 3 (firstn (length s - 3) s).
Proof.
  intros H1 H2. unfold strip_fence. rewrite H1, H2.
  apply (slice_drop_both s 3 3). lia.
Qed.

(** C9: before the reply is decoded, a leading Markdown fence is cut off
    the stripped reply: after [```json] the text from index 7 on, after
    [```] the text from index 3 on, and in both cases without its last
    three characters, whatever they are. *)
Theorem fence_cut_before_decoding self prompt :
  (forall reply,
     response_text_of self prompt = Return reply ->
     request_and_parse json_loads self prompt
     = json_loads (strip_fence reply))
  /\ (forall s,
        startswith s (lit "```json") = true ->
        strip_fence s = skipn 7 (firstn (length s - 3) s))
  /\ (forall s,
        startswith s (lit "```json") = false ->
        startswith s (lit "```") = true ->
        strip_fence s = skipn 3 (firstn (length s - 3) s))
  /\ (forall body last3,
        length last3 = 3%nat ->
        strip_fence (lit "```json" ++ body ++ last3) = body)
  /\ (forall body last3,
        length last3 = 3%nat ->
        startswith (lit "```" ++ body ++ last3) (lit "```json") = false ->
        strip_fence (lit "```" ++ body ++ last3) = body).
Proof.
  split; [|split; [|split; [|split]]].
  - intros reply H. unfold request_and_parse. now rewrite H.
  - apply fence_json_cut.
  - apply fence_plain_cut.
  - intros body last3 Hlen.
    rewrite fence_json_cut by apply startswith_app.
    rewrite !length_app, Hlen.
    replace (length (lit "```json") + (length body + 3) - 3)%nat
      with (length (lit "```json" ++ body)) by (rewrite length_app; lia).
    rewrite app_assoc, firstn_app, firstn_all, Nat.sub_diag, firstn_O.
    rewrite app_nil_r. reflexivity.
  - intros body last3 Hlen Hj.
    rewrite fence_plain_cut.
    + rewrite !length_app, Hlen.
      replace (length (lit "```") + (length body + 3) - 3)%nat
        with (length (lit "```" ++ body)) by (rewrite length_app; lia).
      rewrite app_assoc, firstn_app, firstn_all, Nat.sub_diag, firstn_O.
      rewrite app_nil_r. reflexivity.
    + exact Hj.
    + apply startswith_app.
Qed.

End RequestFacts.

(** A reply that is no JSON, and a request that fails. *)
Lemma smart_failure_gives_error_result_witness :
  GeminiApp.extract_signing_rules_smart PyJson.loads
      (GeminiApp.Fixture.gemini_replying (lit " I cannot read this. "))
      (lit "1. Sign here [X]")
    = Return (GeminiApp.error_result
                (PyJson.JSONDecodeError "Expecting value"))
  /\ GeminiApp.extract_signing_rules_smart PyJson.loads
       (GeminiApp.Fixture.claude_failing
          GeminiApp.Fixture.connection_error)
       (lit "1. Sign here [X]")
     = Return (GeminiApp.error_result GeminiApp.Fixture.connection_error).
Proof.
  split.
  - apply (proj1 (proj2 (proj2
             (smart_failure_gives_error_result PyJson.loads
                (GeminiApp.Fixture.gemini_replying
                   (lit " I cannot read this. "))
                (lit "1. Sign here [X]"))))
             (lit "I cannot read this.")).
    + vm_compute. reflexivity.
    + vm_compute. reflexivity.
  - apply (proj1 (proj2
             (smart_failure_gives_error_result PyJson.loads
                (GeminiApp.Fixture.claude_failing
                   GeminiApp.Fixture.connection_error)
                (lit "1. Sign here [X]")))).
    vm_compute. reflexivity.
Defined.

(** A fenced reply that ends in three other characters. *)
Lemma fence_cut_before_decoding_witness :
  GeminiApp.request_and_parse PyJson.loads
      (GeminiApp.Fixture.gemini_replying
         (lit "```json" ++ PyJson.text "{'rules': 2}" ++ lit "end"))
      (GeminiApp.make_prompt (lit "1. Sign here [X]"))
    = PyJson.loads (PyJson.text "{'rules': 2}")
  /\ PyJson.loads (PyJson.text "{'rules': 2}")
     = Return (PyDict [(lit "rules", PyInt 2)]).
Proof.
  pose proof (fence_cut_before_decoding PyJson.loads
                (GeminiApp.Fixture.gemini_replying
                   (lit "```json" ++ PyJson.text "{'rules': 2}" ++ lit "end"))
                (GeminiApp.make_prompt (lit "1. Sign here [X]")))
    as [Hparse [_ [_ [Hcut _]]]].
  split.
  - rewrite (Hparse (lit "```json" ++ PyJson.text "{'rules': 2}" ++ lit "end"))
      by (vm_compute; reflexivity).
    rewrite (Hcut (PyJson.text "{'rules': 2}") (lit "end")) by reflexivity.
    reflexivity.
  - vm_compute. reflexivity.
Defined.

(** ** gemini_app.py: the result object and its renderer *)

Section ResultFacts.

Import GeminiApp.

Variable json_loads : str -> flow exn pyval.

Lemma completes_ret {A} (v : A) : completes (ret v).
Proof. intros a. now exists v, a. Qed.

Lemma completes_show (w : widget) : completes (show w).
Proof. intros a. unfold show, modify. now eexists _, _. Qed.

Lemma completes_bind {A B} (c : Script A) (k : A -> Script B) :
  completes c -> (forall x, completes (k x)) -> completes (bind c k).
Proof.
  intros Hc Hk a. destruct (Hc a) as [v [a' Hv]]. simpl. rewrite Hv.
  apply Hk.
Qed.

Lemma completes_lift {A B} (v : A) (k : A -> Script B) :
  completes (k v) -> completes (bind (lift_exn (Return v)) k).
Proof. intros Hk a. simpl. apply Hk. Qed.

Lemma completes_within {A} (c : container) (body : Script A) :
  completes body -> completes (within c body).
Proof.
  intros Hb a. unfold within.
  destruct (completes_bind (show (Enter c)) (fun _ => body)
              (completes_show _) (fun _ => Hb) a) as [v [a' H]].
  rewrite H. simpl. now eexists _, _.
Qed.

Lemma completes_for_each {A} (xs : list A) (body : A -> Script unit) :
  (forall x, In x xs -> completes (body x)) -> completes (for_each xs body).
Proof.
  induction xs as [|x xs IH]; intros H; simpl.
  - apply (completes_ret tt).
  - apply completes_bind; [apply H; now left|].
    intros _. apply IH. intros y Hy. apply H. now right.
Qed.

Lemma completes_metric (label : str) (v : pyval) :
  is_number v = true -> completes (st_metric label v).
Proof.
  destruct v; simpl; try discriminate; intros _; apply completes_show.
Qed.

Lemma completes_metric_value (label : str) (v : pyval) :
  is_metric_value v = true -> completes (st_metric label v).
Proof.
  destruct v; simpl; try discriminate; intros _; apply completes_show.
Qed.

(** What completes raises nothing, and what [st.metric] raises is a
    [TypeError]. *)
Lemma completes_no_key_error {A} (c : Script A) :
  completes c -> no_key_error c.
Proof.
  intros Hc a s a' H. destruct (Hc a) as [v [a2 Hv]]. congruence.
Qed.

Lemma no_key_error_bind {A B} (c : Script A) (k : A -> Script B) :
  no_key_error c -> (forall x, no_key_error (k x)) ->
  no_key_error (bind c k).
Proof.
  intros Hc Hk a s a' H. simpl in H.
  destruct (c a) as [[v|s1] a1] eqn:E.
  - now apply (Hk v a1 s a').
  - injection H as <- <-. now apply (Hc a s1 a1).
Qed.

Lemma no_key_error_lift {A B} (v : A) (k : A -> Script B) :
  no_key_error (k v) -> no_key_error (bind (lift_exn (Return v)) k).
Proof. intros Hk a. simpl. apply Hk. Qed.

Lemma no_key_error_within {A} (c : container) (body : Script A) :
  no_key_error body -> no_key_error (within c body).
Proof.
  intros Hb a s a' H. unfold within in H. simpl in H.
  destruct (body _) as [r a1] eqn:E. injection H as -> _.
  exact (Hb _ s a1 E).
Qed.

Lemma no_key_error_metric (label : str) (v : pyval) :
  no_key_error (st_metric label v).
Proof.
  destruct v; try (apply completes_no_key_error, completes_show);
    intros a s a' H; simpl in H; injection H as <- _;
    (eexists; split; [reflexivity|]); vm_compute; discriminate.
Qed.

Lemma field_getitem d k p :
  field d k p = true ->
  exists v, getitem (PyDict d) (lit k) = Return v /\ p v = true.
Proof.
  unfold field, getitem. destruct (dict_get d (lit k)) as [v|];
    [|discriminate].
  intros H. now exists v.
Qed.

Lemma get_default_dict d k default :
  exists v, get_default (PyDict d) k default = Return v.
Proof.
  unfold get_default. destruct (dict_get d k) as [v|]; now eexists.
Qed.

Tactic Notation "use_field" hyp(H) "as" ident(v) ident(Hv) ident(Hp) :=
  destruct (field_getitem _ _ _ H) as [v [Hv Hp]].

Lemma section_completes (v : pyval) :
  is_section_object v = true -> completes (show_section v).
Proof.
  destruct v as [| | | | | |d]; try discriminate. intros H. simpl in H.
  use_field H as name Hname Hp.
  destruct (get_default_dict d (lit "section_number") (PyStr []))
    as [num Hnum].
  unfold show_section. rewrite Hname, Hnum.
  apply completes_lift, completes_lift, completes_show.
Qed.

Lemma rule_fields (v : pyval) :
  is_rule_object v = true ->
  exists d number text checkbox approved,
    v = PyDict d
    /\ getitem v (lit "rule_number") = Return number
    /\ getitem v (lit "rule_text") = Return (PyStr text)
    /\ getitem v (lit "checkbox_content") = Return checkbox
    /\ getitem v (lit "is_approved") = Return approved.
Proof.
  destruct v as [| | | | | |d]; try discriminate. intros H. simpl in H.
  repeat (apply andb_true_iff in H as [H ?]).
  use_field H as number Hn Hp1.
  match goal with X : field d "rule_text" _ = true |- _ =>
    use_field X as text Ht Hp2 end.
  match goal with X : field d "checkbox_content" _ = true |- _ =>
    use_field X as checkbox Hc Hp3 end.
  match goal with X : field d "is_approved" _ = true |- _ =>
    use_field X as approved Ha Hp4 end.
  destruct text as [| | | |t| |]; try discriminate.
  exists d, number, t, checkbox, approved. repeat split; assumption.
Qed.

Lemma approved_rule_completes (v : pyval) :
  is_rule_object v = true -> completes (show_approved_rule v).
Proof.
  intros H.
  destruct (rule_fields v H) as (d & number & text & checkbox & approved
                                 & -> & Hn & Ht & Hc & Ha).
  destruct (get_default_dict d (lit "section") (PyStr (lit "N/A")))
    as [sec Hsec].
  unfold show_approved_rule. rewrite Hn, Ht, Hc, Hsec.
  apply completes_lift, completes_lift.
  unfold getslice_to. apply completes_lift, completes_within.
  apply completes_lift.
  apply completes_bind; [apply completes_show | intros _].
  apply completes_lift.
  apply completes_bind; [apply completes_show | intros _].
  apply completes_lift.
  apply completes_bind; [apply completes_show | intros _].
  apply completes_show.
Qed.

Lemma rule_summary_completes (v : pyval) :
  is_rule_object v = true -> completes (show_rule_summary v).
Proof.
  intros H.
  destruct (rule_fields v H) as (d & number & text & checkbox & approved
                                 & -> & Hn & Ht & Hc & Ha).
  destruct (get_default_dict d (lit "section") (PyStr (lit "N/A")))
    as [sec Hsec].
  unfold show_rule_summary. rewrite Hn, Ht, Hc, Ha, Hsec.
  do 4 apply completes_lift.
  apply completes_bind; [apply completes_show | intros _].
  do 2 apply completes_lift.
  apply completes_bind; [apply completes_show | intros _].
  apply completes_show.
Qed.

Lemma list_field_items d k p :
  field d k (is_list_of p) = true ->
  exists items,
    getitem (PyDict d) (lit k) = Return (PyList items)
    /\ forall x, In x items -> p x = true.
Proof.
  intros H. use_field H as v Hv Hp.
  destruct v; try discriminate. simpl in Hp.
  eexists. split; [exact Hv|]. now apply forallb_forall.
Qed.

(** The fields of a result that meets the contract, as the renderer reads
    them. *)
Lemma contract_fields (d : list (str * pyval)) :
  meets_contract (PyDict d) = true ->
  exists status message total count sections approved all,
    getitem (PyDict d) (lit "status") = Return status
    /\ getitem (PyDict d) (lit "message") = Return message
    /\ getitem (PyDict d) (lit "total_rules") = Return total
    /\ getitem (PyDict d) (lit "approved_count") = Return count
    /\ getitem (PyDict d) (lit "sections_found") = Return (PyList sections)
    /\ getitem (PyDict d) (lit "approved_rules") = Return (PyList approved)
    /\ getitem (PyDict d) (lit "all_rules") = Return (PyList all)
    /\ (forall x, In x sections -> is_section_object x = true)
    /\ (forall x, In x approved -> is_rule_object x = true)
    /\ (forall x, In x all -> is_rule_object x = true).
Proof.
  intros H. simpl in H.
  repeat (apply andb_true_iff in H as [H ?]).
  use_field H as status Hstatus Hp0.
  match goal with X : field d "message" _ = true |- _ =>
    use_field X as message Hmessage Hp1 end.
  match goal with X : field d "total_rules" _ = true |- _ =>
    use_field X as total Htotal Hp2 end.
  match goal with X : field d "approved_count" _ = true |- _ =>
    use_field X as count Hcount Hp3 end.
  match goal with X : field d "sections_found" _ = true |- _ =>
    destruct (list_field_items _ _ _ X) as [sections [Hsections Hsec]] end.
  match goal with X : field d "approved_rules" _ = true |- _ =>
    destruct (list_field_items _ _ _ X) as [approved [Happroved Happ]] end.
  match goal with X : field d "all_rules" _ = true |- _ =>
    destruct (list_field_items _ _ _ X) as [all [Hall Hal]] end.
  exists status, message, total, count, sections, approved, all.
  repeat split; assumption.
Qed.

(** The part of the renderer after the three metrics: the sections, the
    approved rules and the summary of all rules. *)
Lemma lists_render (d : list (str * pyval)) sections approved all :
  getitem (PyDict d) (lit "sections_found") = Return (PyList sections) ->
  getitem (PyDict d) (lit "approved_rules") = Return (PyList approved) ->
  getitem (PyDict d) (lit "all_rules") = Return (PyList all) ->
  (forall x, In x sections -> is_section_object x = true) ->
  (forall x, In x approved -> is_rule_object x = true) ->
  (forall x, In x all -> is_rule_object x = true) ->
  completes
    (sections <- lift_exn (getitem (PyDict d) (lit "sections_found")) ;;
     (if truthy sections then
        show (StSubheader (lit "📍 Sections Found")) ;;
        sections <- lift_exn (getitem (PyDict d) (lit "sections_found")) ;;
        items <- lift_exn (iter sections) ;;
        for_each items show_section
      else ret tt) ;;
     approved_rules <- lift_exn (getitem (PyDict d) (lit "approved_rules")) ;;
     (if truthy approved_rules then
        show (StSubheader (lit "✅ Approved Signing Rules")) ;;
        approved_rules
          <- lift_exn (getitem (PyDict d) (lit "approved_rules")) ;;
        items <- lift_exn (iter approved_rules) ;;
        for_each items show_approved_rule
      else ret tt) ;;
     within (Expander [Text (lit "📋 All Rules Summary")])
       (all_rules <- lift_exn (getitem (PyDict d) (lit "all_rules")) ;;
        items <- lift_exn (iter all_rules) ;;
        for_each items show_rule_summary)).
Proof.
  intros Hsections Happroved Hall Hsec Happ Hal.
  rewrite Hsections, Happroved, Hall.
  apply completes_lift.
  apply completes_bind; [| intros _].
  { destruct (truthy (PyList sections)); [|apply (completes_ret tt)].
    apply completes_bind; [apply completes_show | intros _].
    apply completes_lift. unfold iter. apply completes_lift.
    apply completes_for_each. intros x Hx.
    apply section_completes, Hsec, Hx. }
  apply completes_lift.
  apply completes_bind; [| intros _].
  { destruct (truthy (PyList approved)); [|apply (completes_ret tt)].
    apply completes_bind; [apply completes_show | intros _].
    apply completes_lift. unfold iter. apply completes_lift.
    apply completes_for_each. intros x Hx.
    apply approved_rule_completes, Happ, Hx. }
  apply completes_within, completes_lift. unfold iter.
  apply completes_lift, completes_for_each. intros x Hx.
  apply rule_summary_completes, Hal, Hx.
Qed.

(** The renderer raises no [KeyError] on a result that meets the
    contract: every key it reads is there. *)
Lemma contract_no_key_error (results : pyval) :
  meets_contract results = true ->
  no_key_error (display_signing_rules results).
Proof.
  destruct results as [| | | | | |d]; try discriminate. intros H.
  destruct (contract_fields d H)
    as (status & message & total & count & sections & approved & all
        & Hstatus & Hmessage & Htotal & Hcount & Hsections & Happroved
        & Hall & Hsec & Happ & Hal).
  pose proof (lists_render d sections approved all Hsections Happroved Hall
                Hsec Happ Hal) as Hlists.
  unfold display_signing_rules.
  rewrite Hstatus, Hmessage, Htotal, Hcount.
  apply no_key_error_lift.
  destruct (eq_str status (lit "error")).
  - apply no_key_error_lift, completes_no_key_error, completes_show.
  - apply no_key_error_bind;
      [apply completes_no_key_error, completes_show | intros _].
    apply no_key_error_bind;
      [apply completes_no_key_error, completes_show | intros _].
    apply no_key_error_bind; [| intros _].
    { apply no_key_error_within, no_key_error_lift, no_key_error_metric. }
    apply no_key_error_bind; [| intros _].
    { apply no_key_error_within, no_key_error_lift, no_key_error_metric. }
    apply no_key_error_bind; [| intros _].
    { rewrite Hsections.
      apply no_key_error_within, no_key_error_lift. unfold len.
      apply no_key_error_lift, no_key_error_metric. }
    apply completes_no_key_error, Hlists.
Qed.

(** The renderer goes through a result that meets the contract without
    raising anything, when [st.metric] can show its two counts. *)
Lemma contract_renders (results : pyval) :
  meets_contract results = true ->
  counts_can_be_shown results = true ->
  completes (display_signing_rules results).
Proof.
  destruct results as [| | | | | |d]; try discriminate. intros H Hcounts.
  destruct (contract_fields d H)
    as (status & message & total & count & sections & approved & all
        & Hstatus & Hmessage & Htotal & Hcount & Hsections & Happroved
        & Hall & Hsec & Happ & Hal).
  pose proof (lists_render d sections approved all Hsections Happroved Hall
                Hsec Happ Hal) as Hlists.
  simpl in Hcounts. apply andb_true_iff in Hcounts as [Ht Hc].
  use_field Ht as t Ht' Hpt. use_field Hc as c Hc' Hpc.
  unfold display_signing_rules.
  rewrite Hstatus, Hmessage, Ht', Hc'.
  apply completes_lift.
  destruct (eq_str status (lit "error")).
  - apply completes_lift, completes_show.
  - apply completes_bind; [apply completes_show | intros _].
    apply completes_bind; [apply completes_show | intros _].
    apply completes_bind; [| intros _].
    { apply completes_within, completes_lift, completes_metric_value, Hpt. }
    apply completes_bind; [| intros _].
    { apply completes_within, completes_lift, completes_metric_value, Hpc. }
    apply completes_bind; [| intros _].
    { rewrite Hsections.
      apply completes_within, completes_lift. unfold len.
      apply completes_lift, completes_metric. reflexivity. }
    exact Hlists.
Qed.

End ResultFacts.

(** C2, as the code has it: a JSON object that [extract_signing_rules_smart]
    decodes is returned unchanged, so its [approved_count] and its two lists
    of rules are the ones the LLM wrote; the function checks nothing.  The
    error result, which the function builds itself, has matching counts. *)
Theorem smart_returns_reply_unchanged
    (json_loads : str -> flow exn pyval)
    (self : GeminiApp.DocumentProcessor) (document_content : str) :
  (forall reply parsed,
     GeminiApp.response_text_of self
       (GeminiApp.make_prompt document_content) = Return reply ->
     json_loads (GeminiApp.strip_fence reply) = Return parsed ->
     GeminiApp.extract_signing_rules_smart json_loads self document_content
     = Return parsed)
  /\ (forall e,
        GeminiApp.request_and_parse json_loads self
          (GeminiApp.make_prompt document_content) = Raised e ->
        GeminiApp.extract_signing_rules_smart json_loads self
          document_content = Return (GeminiApp.error_result e)
        /\ GeminiApp.counts_match (GeminiApp.error_result e) = true).
Proof.
  split.
  - intros reply parsed Hr Hj. apply smart_ok.
    unfold GeminiApp.request_and_parse. rewrite Hr. exact Hj.
  - intros e H. split; [now apply smart_failed | reflexivity].
Qed.

(** A reply with one approved rule: returned as it is. *)
Lemma smart_returns_reply_unchanged_witness :
  GeminiApp.extract_signing_rules_smart PyJson.loads
    (GeminiApp.Fixture.gemini_replying
       (PyJson.text
          "{'approved_count': 1, 'approved_rules': [{'is_approved': true}]}"))
    (lit "1. Sign here [X]")
  = Return (PyDict
      [ (lit "approved_count", PyInt 1);
        (lit "approved_rules",
         PyList [PyDict [(lit "is_approved", PyBool true)]]) ]).
Proof.
  apply (proj1 (smart_returns_reply_unchanged PyJson.loads
                  (GeminiApp.Fixture.gemini_replying
                     (PyJson.text
          "{'approved_count': 1, 'approved_rules': [{'is_approved': true}]}"))
                  (lit "1. Sign here [X]"))
           (PyJson.text
          "{'approved_count': 1, 'approved_rules': [{'is_approved': true}]}")).
  - vm_compute. reflexivity.
  - vm_compute. reflexivity.
Defined.

(** C2 as it is written fails: the LLM answers with an object that counts
    two approved rules, lists one, and has no rule in [all_rules]; the
    function returns that object. *)
Lemma mismatched_counts_returned :
  exists result approved,
    GeminiApp.extract_signing_rules_smart PyJson.loads
      (GeminiApp.Fixture.gemini_replying
         (PyJson.text
            "{'status': 'success', 'message': 'one rule',
  'sections_found': [{'section_name': 'A'}],
  'total_rules': 1, 'approved_count': 2,
  'approved_rules': [{'rule_number': 1, 'rule_text': 'Sign',
                      'checkbox_content': 'X', 'section': 'A',
                      'is_approved': true}],
  'all_rules': []}"))
      (lit "1. Sign here [X]") = Return result
    /\ getitem result (lit "approved_count") = Return (PyInt 2)
    /\ getitem result (lit "approved_rules") = Return (PyList [approved])
    /\ getitem result (lit "all_rules") = Return (PyList [])
    /\ GeminiApp.counts_match result = false.
Proof. eexists _, _. vm_compute. repeat split. Qed.

(** C5, as the code has it: the result built on a failure has all fields
    of the contract, with counts that can be shown; on success the result
    is the decoded reply of the LLM, unchanged and unchecked.  The renderer
    raises no missing-key error on a result that meets the contract, and
    goes through it without any exception when, in addition, [st.metric]
    can show the two counts (they are no list and no object). *)
Theorem result_fields_for_renderer
    (json_loads : str -> flow exn pyval)
    (self : GeminiApp.DocumentProcessor) (document_content : str) :
  (forall e,
     GeminiApp.request_and_parse json_loads self
       (GeminiApp.make_prompt document_content) = Raised e ->
     GeminiApp.extract_signing_rules_smart json_loads self document_content
     = Return (GeminiApp.error_result e)
     /\ GeminiApp.meets_contract (GeminiApp.error_result e) = true
     /\ GeminiApp.counts_can_be_shown (GeminiApp.error_result e) = true)
  /\ (forall parsed,
        GeminiApp.request_and_parse json_loads self
          (GeminiApp.make_prompt document_content) = Return parsed ->
        GeminiApp.extract_signing_rules_smart json_loads self
          document_content = Return parsed)
  /\ (forall result,
        GeminiApp.extract_signing_rules_smart json_loads self
          document_content = Return result ->
        GeminiApp.meets_contract result = true ->
        GeminiApp.no_key_error (GeminiApp.display_signing_rules result))
  /\ (forall result,
        GeminiApp.extract_signing_rules_smart json_loads self
          document_content = Return result ->
        GeminiApp.meets_contract result = true ->
        GeminiApp.counts_can_be_shown result = true ->
        GeminiApp.completes (GeminiApp.display_signing_rules result)).
Proof.
  split; [|split; [|split]].
  - intros e H. split; [now apply smart_failed | split; reflexivity].
  - intros parsed. apply smart_ok.
  - intros result _. apply contract_no_key_error.
  - intros result _. apply contract_renders.
Qed.

(** A complete reply with one rule is rendered to the end.  A reply whose
    [total_rules] is a list has every field too: the renderer stops at the
    first metric, with a [TypeError] and no missing-key error. *)
Lemma result_fields_for_renderer_witness :
  (exists result widgets,
     GeminiApp.extract_signing_rules_smart PyJson.loads
       (GeminiApp.Fixture.gemini_replying
          (PyJson.text
             "{'status': 'success', 'message': 'one rule',
  'sections_found': [{'section_name': 'A'}],
  'total_rules': 1, 'approved_count': 1,
  'approved_rules': [{'rule_number': 1, 'rule_text': 'Sign',
                      'checkbox_content': 'X', 'section': 'A',
                      'is_approved': true}],
  'all_rules': [{'rule_number': 1, 'rule_text': 'Sign',
                 'checkbox_content': 'X', 'section': 'A',
                 'is_approved': true}]}"))
       (lit "1. Sign here [X]") = Return result
     /\ GeminiApp.display_signing_rules result GeminiApp.blank_app
        = (Return tt, widgets))
  /\ (exists result e shown,
        GeminiApp.extract_signing_rules_smart PyJson.loads
          (GeminiApp.Fixture.gemini_replying
             (PyJson.text
                "{'status': 'success', 'message': 'no rule',
  'sections_found': [], 'total_rules': [], 'approved_count': 'none',
  'approved_rules': [], 'all_rules': []}"))
          (lit "1. Sign here [X]") = Return result
        /\ GeminiApp.display_signing_rules result GeminiApp.blank_app
           = (Raised (GeminiApp.Exception e), shown)
        /\ exc_class e = lit "TypeError"
        /\ exc_class e <> lit "KeyError").
Proof.
  split.
  - eexists.
    assert (Hrun : GeminiApp.extract_signing_rules_smart PyJson.loads
      (GeminiApp.Fixture.gemini_replying
         (PyJson.text
            "{'status': 'success', 'message': 'one rule',
  'sections_found': [{'section_name': 'A'}],
  'total_rules': 1, 'approved_count': 1,
  'approved_rules': [{'rule_number': 1, 'rule_text': 'Sign',
                      'checkbox_content': 'X', 'section': 'A',
                      'is_approved': true}],
  'all_rules': [{'rule_number': 1, 'rule_text': 'Sign',
                 'checkbox_content': 'X', 'section': 'A',
                 'is_approved': true}]}"))
      (lit "1. Sign here [X]") = Return _) by (vm_compute; reflexivity).
    destruct (proj2 (proj2 (proj2
                (result_fields_for_renderer PyJson.loads _ _)))
                _ Hrun eq_refl eq_refl GeminiApp.blank_app)
      as [[] [widgets Hw]].
    exists widgets. split; [exact Hrun | exact Hw].
  - eexists.
    assert (Hrun : GeminiApp.extract_signing_rules_smart PyJson.loads
      (GeminiApp.Fixture.gemini_replying
         (PyJson.text
            "{'status': 'success', 'message': 'no rule',
  'sections_found': [], 'total_rules': [], 'approved_count': 'none',
  'approved_rules': [], 'all_rules': []}"))
      (lit "1. Sign here [X]") = Return _) by (vm_compute; reflexivity).
    assert (Hshown : exists e shown,
              GeminiApp.display_signing_rules
                (PyDict
                   [ (lit "status", PyStr (lit "success"));
                     (lit "message", PyStr (lit "no rule"));
                     (lit "sections_found", PyList []);
                     (lit "total_rules", PyList []);
                     (lit "approved_count", PyStr (lit "none"));
                     (lit "approved_rules", PyList []);
                     (lit "all_rules", PyList []) ])
                GeminiApp.blank_app
              = (Raised (GeminiApp.Exception e), shown)
              /\ exc_class e = lit "TypeError")
      by (eexists _, _; vm_compute; split; reflexivity).
    destruct Hshown as (e & shown & Hshown & Hclass).
    exists e, shown. split; [exact Hrun|].
    split; [exact Hshown|]. split; [exact Hclass|].
    destruct (proj1 (proj2 (proj2
                (result_fields_for_renderer PyJson.loads _ _)))
                _ Hrun eq_refl GeminiApp.blank_app _ _ Hshown)
      as [e' [He Hno]].
    injection He as <-. exact Hno.
Defined.

(** C5 as it is written fails: the LLM answers with a status and a message
    only; the function returns that object and the renderer raises
    [KeyError] on the first field it misses. *)
Lemma incomplete_reply_breaks_renderer :
  exists result,
    GeminiApp.extract_signing_rules_smart PyJson.loads
      (GeminiApp.Fixture.gemini_replying
         (PyJson.text "{'status': 'success', 'message': 'no rules found'}"))
      (lit "Minutes of the meeting") = Return result
    /\ getitem result (lit "total_rules")
       = Raised (KeyError (lit "total_rules"))
    /\ fst (GeminiApp.display_signing_rules result GeminiApp.blank_app)
       = Raised (GeminiApp.Exception (KeyError (lit "total_rules"))).
Proof. eexists. vm_compute. repeat split. Qed.

(** ** gemini_app.py: reading the PDF *)

Section PdfFacts.

Import GeminiApp.

(** The page after [st.error(f"Error reading PDF: {e}")]. *)
Abbreviation reading_error_shown a e :=
  {| session := session a;
     page := page a ++ [StError [Text (lit "Error reading PDF: ");
                                 Text (exc_str e)]] |}.

Lemma concat_pages_first_failure before p after e text :
  Forall (fun p => exists t, extract_text p = Return t) before ->
  extract_text p = Raised e ->
  concat_pages (before ++ p :: after) text = Raised e.
Proof.
  intros Hok Hp. revert text.
  induction Hok as [|p0 before [t Ht] _ IH]; intros text; simpl.
  - now rewrite Hp.
  - rewrite Ht. apply IH.
Qed.

Lemma extract_text_from_pdf_completes self f :
  completes (extract_text_from_pdf self f).
Proof.
  intros a. unfold extract_text_from_pdf, try_except, lift_exn. simpl.
  destruct (PdfReader f) as [reader|e]; [|now eexists _, _].
  destruct (pages reader) as [ps|e]; [|now eexists _, _].
  destruct (concat_pages ps []) as [t|e]; now eexists _, _.
Qed.

Lemma extract_text_from_pdf_reports self f a e :
  PdfReader f = Raised e ->
  extract_text_from_pdf self f a = (Return [], reading_error_shown a e).
Proof.
  intros H.
  unfold extract_text_from_pdf, try_except, lift_exn, show, modify. simpl.
  now rewrite H.
Qed.

(** Whatever the reading of the PDF raises is shown, and the empty string
    returned. *)
Lemma extract_text_from_pdf_outcome self f a :
  extract_text_from_pdf self f a
  = match (reader <- PdfReader f ;;
           ps <- pages reader ;;
           concat_pages ps []) with
    | Return text => (Return text, a)
    | Raised e =>
        (Return [],
         {| session := session a;
            page := page a ++ [StError [Text (lit "Error reading PDF: ");
                                        Text (exc_str e)]] |})
    end.
Proof.
  unfold extract_text_from_pdf, try_except, lift_exn, show, modify. simpl.
  destruct (PdfReader f) as [reader|e]; [|reflexivity].
  destruct (pages reader) as [ps|e]; [|reflexivity].
  destruct (concat_pages ps []) as [t|e]; reflexivity.
Qed.

(** C6: when reading the PDF raises, be it in [PdfReader], in the list of
    pages or in [extract_text] of a page, [extract_text_from_pdf] raises
    nothing: it shows the error with the text of the exception and returns
    the empty string. *)
Theorem extract_text_from_pdf_failure self f a e :
  PdfReader f = Raised e
  \/ (exists reader, PdfReader f = Return reader /\ pages reader = Raised e)
  \/ (exists reader before p after,
        PdfReader f = Return reader
        /\ pages reader = Return (before ++ p :: after)
        /\ Forall (fun p => exists t, extract_text p = Return t) before
        /\ extract_text p = Raised e) ->
  extract_text_from_pdf self f a = (Return [], reading_error_shown a e).
Proof.
  unfold extract_text_from_pdf, try_except, lift_exn, show, modify. simpl.
  intros [H | [(reader & Hr & Hp) | (reader & before & p & after
                                     & Hr & Hp & Hok & He)]].
  - now rewrite H.
  - now rewrite Hr, Hp.
  - rewrite Hr, Hp, (concat_pages_first_failure _ _ _ _ _ Hok He).
    reflexivity.
Qed.

End PdfFacts.

(** A file that is no PDF, and a PDF whose second page cannot be read. *)
Lemma extract_text_from_pdf_failure_witness :
  GeminiApp.extract_text_from_pdf
      (GeminiApp.Fixture.gemini_replying []) GeminiApp.Fixture.broken_pdf
      GeminiApp.blank_app
    = (Return [],
       {| GeminiApp.session := GeminiApp.new_session;
          GeminiApp.page :=
            [GeminiApp.StError
               [GeminiApp.Text (lit "Error reading PDF: ");
                GeminiApp.Text (lit "EOF marker not found")]] |})
  /\ fst (GeminiApp.extract_text_from_pdf
            (GeminiApp.Fixture.gemini_replying [])
            GeminiApp.Fixture.half_readable_pdf GeminiApp.blank_app)
     = Return [].
Proof.
  split.
  - apply (extract_text_from_pdf_failure
             (GeminiApp.Fixture.gemini_replying [])
             GeminiApp.Fixture.broken_pdf GeminiApp.blank_app
             GeminiApp.Fixture.pdf_read_error).
    left. reflexivity.
  - rewrite (extract_text_from_pdf_failure
               (GeminiApp.Fixture.gemini_replying [])
               GeminiApp.Fixture.half_readable_pdf GeminiApp.blank_app
               GeminiApp.Fixture.pdf_read_error); [reflexivity|].
    right; right.
    eexists _, [_], _, []. repeat split.
    constructor; [|constructor]. now eexists.
Defined.

(** ** gemini_app.py: paging *)

Section PagingFacts.

Import GeminiApp.

Variables (pdf_file : UploadedFile) (reader : pdf_reader)
          (ps : list pdf_page).
Hypothesis opened : PdfReader pdf_file = Return reader.
Hypothesis listed : pages reader = Return ps.

Abbreviation total_pages := (Z.of_nat (length ps)).

(** The page number a call works with: the stored one, or 0 when the
    session is new. *)
Abbreviation page_before a :=
  (match current_page (session a) with Some k => k | None => 0%Z end).

(** The session after one call: the click is followed as [next_page] says,
    nothing else changes. *)
Ltac page_cases :=
  repeat (cbn -[Z.of_nat lit list_index Z.sub Z.add Z.leb Z.eqb];
          match goal with
          | |- context [if ?b then _ else _] => destruct b eqn:?
          | |- context [match list_index ?l ?k with _ => _ end] =>
              destruct (list_index l k)
          | |- context [match extract_text ?p with _ => _ end] =>
              destruct (extract_text p)
          end).

Lemma display_pdf_pages_session clicked a :
  session (snd (display_pdf_pages clicked pdf_file a))
  = {| current_page := Some (next_page total_pages clicked (page_before a));
       extraction_results := extraction_results (session a) |}.
Proof.
  unfold display_pdf_pages, try_except, within, next_page, lift_exn.
  destruct a as [[cp er] pg].
  cbn -[Z.of_nat lit list_index]. rewrite opened.
  cbn -[Z.of_nat lit list_index]. rewrite listed.
  destruct cp as [k|]; destruct clicked as [[| |]|];
    page_cases; try reflexivity; try discriminate.
Qed.

(** The button for the previous page is drawn disabled exactly on page 0. *)
Lemma previous_button_drawn clicked a :
  In (StButton (lit "◀ Previous") (page_before a =? 0)%Z)
     (page (snd (display_pdf_pages clicked pdf_file a))).
Proof.
  unfold display_pdf_pages, try_except, within, lift_exn.
  destruct a as [[cp er] pg].
  cbn -[Z.of_nat lit list_index]. rewrite opened.
  cbn -[Z.of_nat lit list_index]. rewrite listed.
  destruct cp as [k|]; destruct clicked as [[| |]|];
    page_cases; try discriminate;
    cbn -[Z.of_nat lit list_index Z.sub Z.add Z.leb Z.eqb];
    repeat rewrite <- app_assoc; apply in_or_app; right;
    cbn [In List.app]; repeat (first [left; reflexivity | right]).
Qed.

(** The button for the next page is drawn disabled exactly on the last
    page and beyond; it is drawn unless the run ends at the other
    button. *)
Lemma next_button_drawn clicked a :
  clicked <> Some Previous ->
  In (StButton (lit "Next ▶") (total_pages - 1 <=? page_before a)%Z)
     (page (snd (display_pdf_pages clicked pdf_file a))).
Proof.
  intros Hc.
  unfold display_pdf_pages, try_except, within, lift_exn.
  destruct a as [[cp er] pg].
  cbn -[Z.of_nat lit list_index]. rewrite opened.
  cbn -[Z.of_nat lit list_index]. rewrite listed.
  destruct cp as [k|]; destruct clicked as [[| |]|]; try congruence;
    page_cases; try discriminate;
    cbn -[Z.of_nat lit list_index Z.sub Z.add Z.leb Z.eqb];
    repeat rewrite <- app_assoc; apply in_or_app; right;
    cbn [In List.app]; repeat (first [left; reflexivity | right]).
Qed.

Lemma next_page_on_a_page clicked k :
  (0 <= k <= total_pages - 1)%Z ->
  (0 <= next_page total_pages clicked k <= total_pages - 1)%Z.
Proof.
  intros Hk. unfold next_page.
  destruct clicked as [[| |]|]; try lia.
  - destruct (Z.eqb_spec k 0); lia.
  - destruct (Z.leb_spec (total_pages - 1) k); lia.
Qed.

(** Paging through one document from a new session: the page number is
    unset before the first call and a page of the document after every
    call. *)
Lemma paging_invariant start a :
  (1 <= total_pages)%Z ->
  current_page (session start) = None ->
  paging pdf_file start a ->
  current_page (session a) = None \/ on_a_page total_pages a.
Proof.
  intros Htotal Hnew Hpaging.
  induction Hpaging as [|a clicked _ IH]; [now left|].
  right. unfold on_a_page. rewrite display_pdf_pages_session. simpl.
  eexists. split; [reflexivity|].
  apply next_page_on_a_page.
  destruct IH as [-> | [k [-> Hk]]]; lia.
Qed.

(** One document in a new session: the page number becomes 0
    on the first call and is a page of the document after every call,
    whatever is clicked; on page 0 the button for the previous page is
    disabled and a click on it changes nothing, and on the last page the
    same holds for the button for the next page. *)
Lemma paging_stays_on_a_page :
  (1 <= total_pages)%Z ->
  (forall start a clicked,
     current_page (session start) = None ->
     paging pdf_file start a ->
     on_a_page total_pages (snd (display_pdf_pages clicked pdf_file a)))
  /\ (forall a,
        current_page (session a) = None ->
        current_page (session (snd (display_pdf_pages None pdf_file a)))
        = Some 0%Z)
  /\ (forall a clicked,
        page_before a = 0%Z ->
        In (StButton (lit "◀ Previous") true)
           (page (snd (display_pdf_pages clicked pdf_file a)))
        /\ current_page
             (session (snd (display_pdf_pages (Some Previous) pdf_file a)))
           = Some 0%Z)
  /\ (forall a k,
        current_page (session a) = Some k ->
        (total_pages - 1 <= k)%Z ->
        In (StButton (lit "Next ▶") true)
           (page (snd (display_pdf_pages (Some Next) pdf_file a)))
        /\ current_page
             (session (snd (display_pdf_pages (Some Next) pdf_file a)))
           = Some k).
Proof.
  intros Htotal. split; [|split; [|split]].
  - intros start a clicked Hnew Hpaging.
    destruct (paging_invariant start
                (snd (display_pdf_pages clicked pdf_file a)) Htotal Hnew
                (@paging_run pdf_file start a clicked Hpaging)) as [H|H];
      [|exact H].
    rewrite display_pdf_pages_session in H. discriminate.
  - intros a Hnew. rewrite display_pdf_pages_session. simpl.
    now rewrite Hnew.
  - intros a clicked H0. split.
    + pose proof (previous_button_drawn clicked a) as H.
      now rewrite H0 in H.
    + rewrite display_pdf_pages_session. simpl. now rewrite H0.
  - intros a k Hk Hlast. split.
    + pose proof (next_button_drawn (Some Next) a) as H.
      rewrite Hk in H.
      replace (total_pages - 1 <=? k)%Z with true in H
        by (symmetry; apply Z.leb_le; exact Hlast).
      apply H. discriminate.
    + rewrite display_pdf_pages_session. simpl. rewrite Hk.
      replace (total_pages - 1 <=? k)%Z with true
        by (symmetry; apply Z.leb_le; exact Hlast).
      reflexivity.
Qed.

End PagingFacts.

(** ** gemini_app.py: failures in the viewer *)

Section ViewerFacts.

Import GeminiApp.

Variables (pdf_file : UploadedFile) (reader : pdf_reader)
          (ps : list pdf_page).
Hypothesis opened : PdfReader pdf_file = Return reader.

(** The list of pages cannot be built: the error is shown and 0 is
    returned, before anything of the pager is drawn. *)
Lemma display_pdf_pages_no_list clicked a e :
  pages reader = Raised e ->
  display_pdf_pages clicked pdf_file a
  = (Return 0%Z,
     {| session := session a;
        page := page a ++ [StError [Text (lit "Error displaying PDF: ");
                                    Text (exc_str e)]] |}).
Proof.
  intros H. unfold display_pdf_pages, try_except, lift_exn, show, modify.
  simpl. rewrite opened. simpl. now rewrite H.
Qed.

Hypothesis listed : pages reader = Return ps.

Abbreviation pages_total := (Z.of_nat (length ps)).
Abbreviation page_stored a :=
  (match current_page (session a) with Some k => k | None => 0%Z end).

Ltac viewer_cases :=
  repeat (cbn -[Z.of_nat lit list_index Z.sub Z.add Z.leb Z.eqb];
          match goal with
          | |- context [if ?b then _ else _] => destruct b eqn:?
          | |- context [match list_index ?l ?k with _ => _ end] =>
              destruct (list_index l k) eqn:?
          | |- context [match extract_text ?p with _ => _ end] =>
              destruct (extract_text p) eqn:?
          end);
  cbn -[Z.of_nat lit list_index Z.sub Z.add Z.leb Z.eqb].

(** The access to the current page, or the extraction of its text, fails
    in a run in which no click moves the page: the error is shown under
    the pager and 0 is returned. *)
Lemma display_pdf_pages_page_failure clicked a e :
  next_page pages_total clicked (page_stored a) = page_stored a ->
  list_index ps (page_stored a) = Raised e
  \/ (exists p, list_index ps (page_stored a) = Return p
                /\ extract_text p = Raised e) ->
  display_pdf_pages clicked pdf_file a
  = (Return 0%Z,
     {| session := {| current_page := Some (page_stored a);
                      extraction_results := extraction_results (session a) |};
        page :=
          page a
          ++ [ StColumns [1; 2; 1]%Z;
               Enter (Column 0);
               StButton (lit "◀ Previous") (page_stored a =? 0)%Z;
               Leave (Column 0);
               Enter (Column 1);
               StWrite [Text (lit "Page "); Int (page_stored a + 1);
                        Text (lit " of "); Int pages_total];
               Leave (Column 1);
               Enter (Column 2);
               StButton (lit "Next ▶") (pages_total - 1 <=? page_stored a)%Z;
               Leave (Column 2);
               StError [Text (lit "Error displaying PDF: ");
                        Text (exc_str e)] ] |}).
Proof.
  intros Hstay Hfail. revert Hstay Hfail.
  unfold display_pdf_pages, try_except, within, next_page, lift_exn.
  destruct a as [[cp er] pg].
  cbn -[Z.of_nat lit list_index]. rewrite opened.
  cbn -[Z.of_nat lit list_index]. rewrite listed.
  destruct cp as [k|]; destruct clicked as [[| |]|];
    cbn -[Z.of_nat lit list_index Z.sub Z.add Z.leb Z.eqb];
    intros Hstay Hfail;
    viewer_cases; try discriminate; try (exfalso; lia);
    try match goal with
        | H : negb ?b = true, S : context [if ?b then _ else _] |- _ =>
            apply negb_true_iff in H; rewrite H in S; exfalso; lia
        end;
    destruct Hfail as [Hfail | [p0 [Hfail Hp0]]];
    repeat rewrite <- app_assoc; cbn [List.app]; congruence.
Qed.

End ViewerFacts.

(** ** Which scripts guard their library calls *)

Section GuardFacts.

Import GeminiApp.

Variable json_loads : str -> flow exn pyval.
Variable anthropic_Anthropic : str -> flow exn anthropic_client.
Variable genai_configure : str -> flow exn unit.
Variable genai_GenerativeModel : str -> flow exn gemini_model.

(** [display_pdf_pages] lets no exception out; it ends with a page count or
    with the rerun it asks for itself. *)
Lemma display_pdf_pages_guarded clicked f a :
  (exists n a', display_pdf_pages clicked f a = (Return n, a'))
  \/ (exists a', display_pdf_pages clicked f a = (Raised RerunException, a')).
Proof.
  unfold display_pdf_pages, try_except.
  match goal with |- context [match ?body a with _ => _ end] =>
    destruct (body a) as [[n | [e |]] a'] end.
  - left. now eexists _, _.
  - left. unfold show, modify. simpl. now eexists _, _.
  - right. now eexists.
Qed.

Lemma display_pdf_pages_reports clicked f a e :
  PdfReader f = Raised e ->
  display_pdf_pages clicked f a
  = (Return 0%Z,
     {| session := session a;
        page := page a ++ [StError [Text (lit "Error displaying PDF: ");
                                    Text (exc_str e)]] |}).
Proof.
  intros H. unfold display_pdf_pages, try_except, lift_exn, show, modify.
  simpl. now rewrite H.
Qed.

(** The block under the extraction button ends normally whatever the
    construction of the client, [seek], the PDF, the request or the decoding
    of the reply do. *)
Lemma extract_clicked_completes provider_name api_key f :
  completes (extract_clicked json_loads anthropic_Anthropic genai_configure
                             genai_GenerativeModel provider_name api_key f).
Proof.
  intros a. unfold extract_clicked.
  destruct (Nat.eqb (length api_key) 0).
  - unfold show, modify. simpl. now eexists _, _.
  - unfold within, try_except, lift_exn, show, modify. simpl.
    destruct (DocumentProcessor_init anthropic_Anthropic genai_configure
                genai_GenerativeModel api_key provider_name) as [proc|e];
      [|simpl; now eexists _, _].
    destruct (seek f 0) as [pos|e]; [|simpl; now eexists _, _].
    match goal with |- context [extract_text_from_pdf proc f ?s] =>
      destruct (extract_text_from_pdf_completes proc f s) as [t [a' Ht]] end.
    rewrite Ht.
    destruct (negb (Nat.eqb (length t) 0)).
    + destruct (smart_returns json_loads proc t) as [result Hr].
      rewrite Hr. simpl. now eexists _, _.
    + simpl. now eexists _, _.
Qed.

(** A client that cannot be built, or a file that cannot be rewound: the
    error is shown under the spinner and the block ends normally. *)
Lemma extract_clicked_reports provider_name api_key f a e :
  api_key <> [] ->
  DocumentProcessor_init anthropic_Anthropic genai_configure
    genai_GenerativeModel api_key provider_name = Raised e
  \/ (exists self,
        DocumentProcessor_init anthropic_Anthropic genai_configure
          genai_GenerativeModel api_key provider_name = Return self
        /\ seek f 0 = Raised e) ->
  extract_clicked json_loads anthropic_Anthropic genai_configure
    genai_GenerativeModel provider_name api_key f a
  = (Return false,
     {| session := session a;
        page := page a
                ++ [ Enter (Spinner
                              (lit "Analyzing document for signing rules..."));
                     StError [Text (lit "Error processing document: ");
                              Text (exc_str e)];
                     Leave (Spinner
                              (lit "Analyzing document for signing rules...")) ] |}).
Proof.
  intros Hkey H. unfold extract_clicked.
  destruct api_key as [|c0 key]; [congruence|]. cbn [length Nat.eqb].
  unfold within, try_except, lift_exn, show, modify. simpl.
  destruct H as [H | [self [H Hs]]].
  - rewrite H. simpl. now rewrite <- !app_assoc.
  - rewrite H, Hs. simpl. now rewrite <- !app_assoc.
Qed.

(** The message of a failed request reaches the page through the error
    result. *)
Lemma error_result_rendered e a :
  display_signing_rules (error_result e) a
  = (Return tt,
     {| session := session a;
        page := page a
                ++ [StError
                      [Text (lit "Error: ");
                       Value (PyStr (lit "Error processing document: "
                                       ++ exc_str e))]] |}).
Proof. reflexivity. Qed.

End GuardFacts.

(** C4, as the code has it: in [gemini_app.py] every call into PyPDF2, the
    LLM clients and [json] sits inside a [try] with [except Exception], so
    none of their failures leaves the function that makes the call, and the
    text of every such failure is shown on the page: directly for the
    failures of reading the PDF (opening it, listing its pages, reaching a
    page, extracting its text), of building the client and of rewinding the
    file, and through the message of the error result for the request and
    the decoding of the reply.  [donut.py] and [duplicate.py] have no [try]
    at all: there the failure of a library call (the conversion of the PDF,
    any of the four calls of the model stack, the detection of features, the
    matching) ends the function that makes it, and the caller, with that
    exception. *)
Theorem guards_only_in_gemini_app :
  (* gemini_app.py: reading the PDF for the extraction *)
  (forall self f, GeminiApp.completes (GeminiApp.extract_text_from_pdf self f))
  /\ (forall self f a e,
        GeminiApp.PdfReader f = Raised e
        \/ (exists reader,
              GeminiApp.PdfReader f = Return reader
              /\ GeminiApp.pages reader = Raised e)
        \/ (exists reader before p after,
              GeminiApp.PdfReader f = Return reader
              /\ GeminiApp.pages reader = Return (before ++ p :: after)
              /\ Forall (fun p => exists t,
                            GeminiApp.extract_text p = Return t) before
              /\ GeminiApp.extract_text p = Raised e) ->
        GeminiApp.extract_text_from_pdf self f a
        = (Return [],
           {| GeminiApp.session := GeminiApp.session a;
              GeminiApp.page :=
                GeminiApp.page a
                ++ [GeminiApp.StError
                      [GeminiApp.Text (lit "Error reading PDF: ");
                       GeminiApp.Text (exc_str e)]] |}))
  (* gemini_app.py: reading the PDF for the viewer *)
  /\ (forall clicked f a,
        (exists n a',
           GeminiApp.display_pdf_pages clicked f a = (Return n, a'))
        \/ (exists a',
              GeminiApp.display_pdf_pages clicked f a
              = (Raised GeminiApp.RerunException, a')))
  /\ (forall clicked f a e,
        GeminiApp.PdfReader f = Raised e
        \/ (exists reader,
              GeminiApp.PdfReader f = Return reader
              /\ GeminiApp.pages reader = Raised e) ->
        GeminiApp.display_pdf_pages clicked f a
        = (Return 0%Z,
           {| GeminiApp.session := GeminiApp.session a;
              GeminiApp.page :=
                GeminiApp.page a
                ++ [GeminiApp.StError
                      [GeminiApp.Text (lit "Error displaying PDF: ");
                       GeminiApp.Text (exc_str e)]] |}))
  /\ (forall clicked f reader ps a e,
        GeminiApp.PdfReader f = Return reader ->
        GeminiApp.pages reader = Return ps ->
        let k := match GeminiApp.current_page (GeminiApp.session a) with
                 | Some k => k
                 | None => 0%Z
                 end in
        GeminiApp.next_page (Z.of_nat (length ps)) clicked k = k ->
        GeminiApp.list_index ps k = Raised e
        \/ (exists p, GeminiApp.list_index ps k = Return p
                      /\ GeminiApp.extract_text p = Raised e) ->
        fst (GeminiApp.display_pdf_pages clicked f a) = Return 0%Z
        /\ exists pager,
             GeminiApp.page (snd (GeminiApp.display_pdf_pages clicked f a))
             = GeminiApp.page a ++ pager
               ++ [GeminiApp.StError
                     [GeminiApp.Text (lit "Error displaying PDF: ");
                      GeminiApp.Text (exc_str e)]])
  (* gemini_app.py: the request and the decoding of the reply *)
  /\ (forall json_loads self document_content,
        (exists result,
           GeminiApp.extract_signing_rules_smart json_loads self
             document_content = Return result)
        /\ forall e a,
             GeminiApp.request_and_parse json_loads self
               (GeminiApp.make_prompt document_content) = Raised e ->
             GeminiApp.extract_signing_rules_smart json_loads self
               document_content = Return (GeminiApp.error_result e)
             /\ GeminiApp.display_signing_rules (GeminiApp.error_result e) a
                = (Return tt,
                   {| GeminiApp.session := GeminiApp.session a;
                      GeminiApp.page :=
                        GeminiApp.page a
                        ++ [GeminiApp.StError
                              [GeminiApp.Text (lit "Error: ");
                               GeminiApp.Value
                                 (PyStr (lit "Error processing document: "
                                           ++ exc_str e))]] |}))
  (* gemini_app.py: the block of main that builds the client and calls
     the three functions above *)
  /\ (forall json_loads anthropic_Anthropic genai_configure
             genai_GenerativeModel provider_name api_key f,
        GeminiApp.completes
          (GeminiApp.extract_clicked json_loads anthropic_Anthropic
             genai_configure genai_GenerativeModel provider_name api_key f))
  /\ (forall json_loads anthropic_Anthropic genai_configure
             genai_GenerativeModel provider_name api_key f a e,
        api_key <> [] ->
        GeminiApp.DocumentProcessor_init anthropic_Anthropic genai_configure
          genai_GenerativeModel api_key provider_name = Raised e
        \/ (exists self,
              GeminiApp.DocumentProcessor_init anthropic_Anthropic
                genai_configure genai_GenerativeModel api_key provider_name
              = Return self
              /\ GeminiApp.seek f 0 = Raised e) ->
        GeminiApp.extract_clicked json_loads anthropic_Anthropic
          genai_configure genai_GenerativeModel provider_name api_key f a
        = (Return false,
           {| GeminiApp.session := GeminiApp.session a;
              GeminiApp.page :=
                GeminiApp.page a
                ++ [ GeminiApp.Enter
                       (GeminiApp.Spinner
                          (lit "Analyzing document for signing rules..."));
                     GeminiApp.StError
                       [GeminiApp.Text (lit "Error processing document: ");
                        GeminiApp.Text (exc_str e)];
                     GeminiApp.Leave
                       (GeminiApp.Spinner
                          (lit "Analyzing document for signing rules...")) ]
           |}))
  (* donut.py: nothing is caught *)
  /\ (forall (image pixel_values token_ids sequences : Type)
             (convert_from_path : str -> flow exn (list image))
             (processor_call : image -> flow exn pixel_values)
             (tokenizer_call : str -> flow exn token_ids)
             (model_generate :
                pixel_values -> token_ids -> flow exn sequences)
             (batch_decode : sequences -> flow exn (list str)),
        (* the conversion of the PDF *)
        (forall pdf_path e tr,
           convert_from_path pdf_path = Raised e ->
           Donut.extract_signatory_info convert_from_path processor_call
             tokenizer_call model_generate batch_decode pdf_path tr
           = (Raised e, tr ++ [Donut.ConvertFromPath _ _ _ _ pdf_path]))
        (* the four calls of the model stack, in [ask_question] *)
        /\ (forall img question e,
              processor_call img = Raised e
              \/ (exists inputs,
                    processor_call img = Return inputs
                    /\ (tokenizer_call (Donut.make_prompt question)
                        = Raised e
                        \/ exists ids,
                             tokenizer_call (Donut.make_prompt question)
                             = Return ids
                             /\ (model_generate inputs ids = Raised e
                                 \/ exists outputs,
                                      model_generate inputs ids
                                      = Return outputs
                                      /\ batch_decode outputs = Raised e))) ->
              forall tr : Donut.console image pixel_values token_ids sequences,
                fst (Donut.ask_question processor_call tokenizer_call
                       model_generate batch_decode img question tr)
                = Raised e)
        (* and from there out of [extract_signatory_info] *)
        /\ (forall pdf_path images img question e,
              convert_from_path pdf_path = Return images ->
              In img images ->
              In question Donut.questions ->
              (forall tr,
                 fst (Donut.ask_question processor_call tokenizer_call
                        model_generate batch_decode img question tr)
                 = Raised e) ->
              exists img' question' e',
                In img' images /\ In question' Donut.questions
                /\ (forall tr,
                      fst (Donut.ask_question processor_call tokenizer_call
                             model_generate batch_decode img' question' tr)
                      = Raised e')
                /\ forall tr,
                     fst (Donut.extract_signatory_info convert_from_path
                            processor_call tokenizer_call model_generate
                            batch_decode pdf_path tr)
                     = Raised e'))
  (* duplicate.py: nothing is caught *)
  /\ (forall (image keypoint descriptors dmatch : Type)
             (detectAndCompute :
                image -> flow exn (list keypoint * option descriptors))
             (bf_match :
                descriptors -> descriptors -> flow exn (list dmatch))
             img1 img2 match_threshold e,
        detectAndCompute img1 = Raised e
        \/ (exists found1,
              detectAndCompute img1 = Return found1
              /\ detectAndCompute img2 = Raised e)
        \/ (exists kp1 des1 kp2 des2,
              detectAndCompute img1 = Return (kp1, Some des1)
              /\ detectAndCompute img2 = Return (kp2, Some des2)
              /\ bf_match des1 des2 = Raised e) ->
        Duplicate.are_images_similar_orb detectAndCompute bf_match
          img1 img2 match_threshold = Raised e).
Proof.
  repeat apply conj.
  - apply extract_text_from_pdf_completes.
  - intros self f a e H. rewrite extract_text_from_pdf_outcome.
    destruct H as [H | [(reader & Hr & Hp) | (reader & before & p & after
                                             & Hr & Hp & Hok & He)]].
    + now rewrite H.
    + simpl. now rewrite Hr, Hp.
    + simpl. rewrite Hr, Hp.
      now rewrite (concat_pages_first_failure _ _ _ _ _ Hok He).
  - apply display_pdf_pages_guarded.
  - intros clicked f a e [H | (reader & Hr & Hp)].
    + now apply display_pdf_pages_reports.
    + now apply (display_pdf_pages_no_list f reader Hr).
  - intros clicked f reader ps a e Hr Hp k Hstay Hfail.
    rewrite (display_pdf_pages_page_failure f reader ps Hr Hp clicked a e
               Hstay Hfail).
    split; [reflexivity|]. simpl. now eexists (_ :: _ :: _ :: _ :: _ :: _
                                                 :: _ :: _ :: _ :: [_]).
  - intros json_loads self doc. split; [apply smart_returns|].
    intros e a H. split; [now apply smart_failed|].
    apply error_result_rendered.
  - apply extract_clicked_completes.
  - intros. now apply extract_clicked_reports.
  - intros image pixel_values token_ids sequences convert processor
           tokenizer generate decode.
    repeat apply conj.
    + intros. now apply conversion_failure_propagates.
    + intros. now apply stage_failure_propagates.
    + apply inference_failure_ends_extraction.
  - intros image keypoint descriptors dmatch detect bf img1 img2 t e H.
    unfold Duplicate.are_images_similar_orb, Duplicate.orb_similarity.
    simpl.
    destruct H as [H | [([kp1 des1] & H1 & H2)
                       | (kp1 & des1 & kp2 & des2 & H1 & H2 & H3)]].
    + now rewrite H.
    + now rewrite H1, H2.
    + now rewrite H1, H2, H3.
Qed.

(** A file that is no PDF, in the viewer: the error is shown, nothing is
    raised.  A page number left over from a longer document: the failed
    access to the page is shown.  A client that cannot be built: the error
    is shown under the spinner.  And in [donut.py], a page the processor
    cannot read: its exception ends [extract_signatory_info]. *)
Lemma guards_only_in_gemini_app_witness :
  GeminiApp.display_pdf_pages None GeminiApp.Fixture.broken_pdf
    GeminiApp.blank_app
  = (Return 0%Z,
     {| GeminiApp.session := GeminiApp.new_session;
        GeminiApp.page :=
          [GeminiApp.StError
             [GeminiApp.Text (lit "Error displaying PDF: ");
              GeminiApp.Text (lit "EOF marker not found")]] |})
  /\ (fst (GeminiApp.display_pdf_pages None GeminiApp.Fixture.one_page
             {| GeminiApp.session :=
                  {| GeminiApp.current_page := Some 2%Z;
                     GeminiApp.extraction_results := None |};
                GeminiApp.page := [] |})
      = Return 0%Z
      /\ In (GeminiApp.StError
               [GeminiApp.Text (lit "Error displaying PDF: ");
                GeminiApp.Text (lit "sequence index out of range")])
            (GeminiApp.page
               (snd (GeminiApp.display_pdf_pages None
                       GeminiApp.Fixture.one_page
                       {| GeminiApp.session :=
                            {| GeminiApp.current_page := Some 2%Z;
                               GeminiApp.extraction_results := None |};
                          GeminiApp.page := [] |}))))
  /\ GeminiApp.extract_clicked PyJson.loads GeminiApp.Fixture.no_client
       GeminiApp.Fixture.configure (GeminiApp.Fixture.model_replying [])
       (lit "claude") (lit "key") GeminiApp.Fixture.one_page
       GeminiApp.blank_app
     = (Return false,
        {| GeminiApp.session := GeminiApp.new_session;
           GeminiApp.page :=
             [ GeminiApp.Enter
                 (GeminiApp.Spinner
                    (lit "Analyzing document for signing rules..."));
               GeminiApp.StError
                 [GeminiApp.Text (lit "Error processing document: ");
                  GeminiApp.Text (lit "invalid x-api-key")];
               GeminiApp.Leave
                 (GeminiApp.Spinner
                    (lit "Analyzing document for signing rules...")) ] |})
  /\ fst (Donut.extract_signatory_info Donut.Fixture.two_pages
            Donut.Fixture.picky_processor Donut.Fixture.tokenizer_call
            Donut.Fixture.model_generate Donut.Fixture.batch_decode
            (lit "form.pdf") [])
     = Raised Donut.Fixture.image_error.
Proof.
  pose proof guards_only_in_gemini_app
    as (_ & _ & _ & Hviewer & Hpage & _ & _ & Hclient & Hdonut & _).
  split; [|split; [|split]].
  - apply (Hviewer None GeminiApp.Fixture.broken_pdf GeminiApp.blank_app
             GeminiApp.Fixture.pdf_read_error).
    left. reflexivity.
  - destruct (Hpage None GeminiApp.Fixture.one_page _ _
                {| GeminiApp.session :=
                     {| GeminiApp.current_page := Some 2%Z;
                        GeminiApp.extraction_results := None |};
                   GeminiApp.page := [] |}
                (mkExn (lit "IndexError") (lit "sequence index out of range"))
                eq_refl eq_refl eq_refl (or_introl eq_refl))
      as [Hzero [pager Hshown]].
    split; [exact Hzero|].
    rewrite Hshown. apply in_or_app. right. apply in_or_app. right.
    left. reflexivity.
  - apply (Hclient PyJson.loads GeminiApp.Fixture.no_client
             GeminiApp.Fixture.configure
             (GeminiApp.Fixture.model_replying [])
             (lit "claude") (lit "key") GeminiApp.Fixture.one_page
             GeminiApp.blank_app
             (mkExn (lit "AuthenticationError") (lit "invalid x-api-key"))).
    + discriminate.
    + left. reflexivity.
  - destruct (Hdonut _ _ _ _ Donut.Fixture.two_pages
                Donut.Fixture.picky_processor Donut.Fixture.tokenizer_call
                Donut.Fixture.model_generate Donut.Fixture.batch_decode)
      as (_ & Hstage & Hextract).
    destruct (Hextract (lit "form.pdf") _ (lit "Director")
                (lit "What is the print full name?")
                Donut.Fixture.image_error eq_refl)
      as (img' & question' & e' & _ & _ & _ & Hends).
    + right. left. reflexivity.
    + left. reflexivity.
    + apply Hstage. left. reflexivity.
    + assert (Hrun : fst (Donut.extract_signatory_info
                            Donut.Fixture.two_pages
                            Donut.Fixture.picky_processor
                            Donut.Fixture.tokenizer_call
                            Donut.Fixture.model_generate
                            Donut.Fixture.batch_decode (lit "form.pdf") [])
                     = Raised Donut.Fixture.image_error)
        by (vm_compute; reflexivity).
      pose proof (Hends []) as He. rewrite Hrun in He.
      rewrite (Hends []). symmetry. exact He.
Defined.

(** C4 as it is written fails for [donut.py]: the script hands the path of
    a Word file to the PDF conversion; when the conversion raises, the
    exception leaves [extract_signatory_info] and the script, and no message
    is printed. *)
Lemma donut_script_raises :
  Donut.script Donut.Fixture.not_a_pdf Donut.Fixture.loaded
    Donut.Fixture.loaded (Return tt) Donut.Fixture.processor_call
    Donut.Fixture.tokenizer_call Donut.Fixture.model_generate
    Donut.Fixture.batch_decode []
  = (Raised Donut.Fixture.page_count_error,
     [ Donut.LoadProcessor _ _ _ _ Donut.checkpoint;
       Donut.LoadModel _ _ _ _ Donut.checkpoint;
       Donut.ModelToDevice _ _ _ _;
       Donut.ConvertFromPath _ _ _ _ (lit "/content/regex_practise.docx") ]).
Proof. reflexivity. Qed.

(** ** One browser session, two documents *)

(** C8 fails when a second document is uploaded in the same session.  The
    user opens a PDF of three pages and clicks the button for the next page
    twice, which leaves [current_page] at 2; then a PDF of one page is
    uploaded in its place.  [display_pdf_pages] keeps the stored 2, writes
    page 3 of 1, and its access to that page raises [IndexError], which it
    reports. *)
Lemma stale_page_after_new_upload :
  let three := Some GeminiApp.Fixture.three_pages in
  let one := Some GeminiApp.Fixture.one_page in
  let before :=
    GeminiApp.Fixture.browse []
      [ GeminiApp.Fixture.browsing three None;
        GeminiApp.Fixture.browsing three (Some GeminiApp.Next);
        GeminiApp.Fixture.browsing three None;
        GeminiApp.Fixture.browsing three (Some GeminiApp.Next);
        GeminiApp.Fixture.browsing three None ]
      GeminiApp.new_session in
  let after :=
    snd (GeminiApp.Fixture.visit [] (GeminiApp.Fixture.browsing one None)
                                 before) in
  GeminiApp.current_page before = Some 2%Z
  /\ GeminiApp.current_page (GeminiApp.session after) = Some 2%Z
  /\ ~ GeminiApp.on_a_page 1 after
  /\ In (GeminiApp.StWrite
           [GeminiApp.Text (lit "Page "); GeminiApp.Int 3;
            GeminiApp.Text (lit " of "); GeminiApp.Int 1])
        (GeminiApp.page after)
  /\ In (GeminiApp.StError
           [GeminiApp.Text (lit "Error displaying PDF: ");
            GeminiApp.Text (lit "sequence index out of range")])
        (GeminiApp.page after).
Proof.
  vm_compute. repeat split.
  - intros [k [Hk Hrange]]. injection Hk as <-.
    destruct Hrange as [_ Hle]. apply Hle. reflexivity.
  - repeat (first [left; reflexivity | right]).
  - repeat (first [left; reflexivity | right]).
Qed.

(** The same two documents in the other order: from a new session the page
    number stays on a page of the document. *)
Lemma paging_stays_on_a_page_example :
  GeminiApp.on_a_page 3
    (snd (GeminiApp.display_pdf_pages (Some GeminiApp.Next)
            GeminiApp.Fixture.three_pages
            (snd (GeminiApp.display_pdf_pages None
                    GeminiApp.Fixture.three_pages GeminiApp.blank_app)))).
Proof.
  apply (proj1 (paging_stays_on_a_page GeminiApp.Fixture.three_pages
                  _ _ eq_refl eq_refl ltac:(simpl; lia))
           GeminiApp.blank_app).
  - reflexivity.
  - apply GeminiApp.paging_run. apply GeminiApp.paging_start.
Defined.

(** The incomplete reply of the LLM, seen from the page: the click on the
    extraction button ends the run with the [KeyError] of the renderer. *)
Lemma main_raises_on_incomplete_reply :
  fst (GeminiApp.Fixture.visit
         (PyJson.text "{'status': 'success', 'message': 'no rules found'}")
         (GeminiApp.Fixture.browsing (Some GeminiApp.Fixture.one_page)
                                     (Some GeminiApp.ExtractRules))
         GeminiApp.new_session)
  = Raised (GeminiApp.Exception (KeyError (lit "total_rules"))).
Proof. vm_compute. reflexivity. Qed.

(** A file that is no PDF, seen from the page: the click on the extraction
    button shows both messages and stores no result. *)
Lemma main_reports_unreadable_pdf :
  let '(outcome, after) :=
    GeminiApp.Fixture.visit []
      (GeminiApp.Fixture.browsing (Some GeminiApp.Fixture.broken_pdf)
                                  (Some GeminiApp.ExtractRules))
      GeminiApp.new_session in
  outcome = Return tt
  /\ GeminiApp.extraction_results (GeminiApp.session after) = None
  /\ In (GeminiApp.StError
           [GeminiApp.Text (lit "Error reading PDF: ");
            GeminiApp.Text (lit "EOF marker not found")])
        (GeminiApp.page after)
  /\ In (GeminiApp.StError
           [GeminiApp.Text (lit "Could not extract text from PDF")])
        (GeminiApp.page after).
Proof.
  vm_compute. repeat split; repeat (first [left; reflexivity | right]).
Qed.


(* ================================================================== *)
(** * Further properties of the code *)
(* ================================================================== *)

(** ** duplicate.py *)

Section MoreDuplicateFacts.

Import Duplicate.

Variables image keypoint descriptors dmatch : Type.
Variable detectAndCompute :
  image -> flow exn (list keypoint * option descriptors).
Variable bf_match : descriptors -> descriptors -> flow exn (list dmatch).

Lemma match_count_lower_bound img1 img2 matches :
  orb_similarity detectAndCompute bf_match img1 img2 = Return matches ->
  (0 <= matches)%Z.
Proof.
  unfold orb_similarity. simpl.
  destruct (detectAndCompute img1) as [[kp1 des1]|e]; [|discriminate].
  destruct (detectAndCompute img2) as [[kp2 des2]|e]; [|discriminate].
  destruct des1 as [d1|]; [destruct des2 as [d2|]|].
  - destruct (bf_match d1 d2) as [ms|e]; [|discriminate].
    intros H; injection H as <-. lia.
  - intros H; injection H as <-. lia.
  - intros H; injection H as <-. lia.
Qed.

(** The match count is never negative, so with a negative threshold every
    pair of images for which the count is obtained is reported similar. *)
Theorem negative_threshold_always_similar img1 img2 matches
    (match_threshold : Z) :
  orb_similarity detectAndCompute bf_match img1 img2 = Return matches ->
  (match_threshold < 0)%Z ->
  (0 <= matches)%Z
  /\ are_images_similar_orb detectAndCompute bf_match img1 img2
                            match_threshold = Return true.
Proof.
  intros Hm Ht. pose proof (match_count_lower_bound _ _ _ Hm) as H0.
  split; [exact H0|].
  unfold are_images_similar_orb. simpl. rewrite Hm.
  f_equal. apply Z.ltb_lt. lia.
Qed.

(** Lowering the threshold never turns similar images into dissimilar
    ones. *)
Theorem similar_for_lower_thresholds img1 img2 (t t' : Z) :
  are_images_similar_orb detectAndCompute bf_match img1 img2 t
    = Return true ->
  (t' <= t)%Z ->
  are_images_similar_orb detectAndCompute bf_match img1 img2 t'
    = Return true.
Proof.
  unfold are_images_similar_orb. simpl.
  destruct (orb_similarity detectAndCompute bf_match img1 img2) as [m|e];
    [|discriminate].
  intros H Hle. injection H as H. apply Z.ltb_lt in H.
  f_equal. apply Z.ltb_lt. lia.
Qed.

(** The second image is examined even when the first has no descriptors:
    a failure of its detection is raised, not turned into a count of 0. *)
Theorem second_detection_failure_raised img1 img2 kp1 e :
  detectAndCompute img1 = Return (kp1, None) ->
  detectAndCompute img2 = Raised e ->
  orb_similarity detectAndCompute bf_match img1 img2 = Raised e
  /\ forall match_threshold,
       are_images_similar_orb detectAndCompute bf_match img1 img2
                              match_threshold = Raised e.
Proof.
  intros H1 H2.
  assert (Hs : orb_similarity detectAndCompute bf_match img1 img2
               = Raised e).
  { unfold orb_similarity. simpl. now rewrite H1, H2. }
  split; [exact Hs|].
  intros t. unfold are_images_similar_orb. simpl. now rewrite Hs.
Qed.

End MoreDuplicateFacts.

Lemma negative_threshold_always_similar_witness :
  Duplicate.are_images_similar_orb Duplicate.Fixture.detectAndCompute
    Duplicate.Fixture.bf_match [1%N; 2%N] [5%N] (-3) = Return true.
Proof.
  apply (proj2 (negative_threshold_always_similar _ _ _ _
                  Duplicate.Fixture.detectAndCompute
                  Duplicate.Fixture.bf_match [1%N; 2%N] [5%N] 0 (-3)
                  eq_refl ltac:(lia))).
Defined.

Lemma similar_for_lower_thresholds_witness :
  Duplicate.are_images_similar_orb Duplicate.Fixture.detectAndCompute
    Duplicate.Fixture.bf_match [1%N; 2%N; 3%N] [3%N; 2%N; 1%N] 1
  = Return true.
Proof.
  apply (similar_for_lower_thresholds _ _ _ _
           Duplicate.Fixture.detectAndCompute Duplicate.Fixture.bf_match
           [1%N; 2%N; 3%N] [3%N; 2%N; 1%N] 2 1).
  - reflexivity.
  - lia.
Defined.

Lemma second_detection_failure_raised_witness :
  Duplicate.orb_similarity Duplicate.Fixture.detect_or_fail
    Duplicate.Fixture.bf_match Duplicate.Fixture.blank [0%N; 4%N]
  = Raised Duplicate.Fixture.cv_error.
Proof.
  apply (proj1 (second_detection_failure_raised _ _ _ _
                  Duplicate.Fixture.detect_or_fail Duplicate.Fixture.bf_match
                  Duplicate.Fixture.blank [0%N; 4%N] []
                  Duplicate.Fixture.cv_error eq_refl eq_refl)).
Defined.

(** ** donut.py *)

Lemma lstrip_head (s : str) c r : lstrip s = c :: r -> isspace c = false.
Proof.
  induction s as [|d s IH]; simpl; [discriminate|].
  destruct (isspace d) eqn:Hd; [exact IH|].
  intros H; injection H as <- _. exact Hd.
Qed.

Lemma lstrip_suffix (s : str) :
  exists spaces, s = spaces ++ lstrip s /\ forallb isspace spaces = true.
Proof.
  induction s as [|d s [sp [Hs Hsp]]]; simpl.
  - now exists [].
  - destruct (isspace d) eqn:Hd.
    + exists (d :: sp). simpl. rewrite Hd, Hsp. split; [now f_equal|easy].
    + now exists [].
Qed.

Lemma rstrip_prefix (s : str) :
  exists spaces, s = rstrip s ++ spaces /\ forallb isspace spaces = true.
Proof.
  unfold rstrip. destruct (lstrip_suffix (rev s)) as [sp [Hs Hsp]].
  exists (rev sp). split.
  - rewrite <- rev_app_distr, <- Hs. now rewrite rev_involutive.
  - rewrite forallb_forall in *. intros x Hx. apply Hsp.
    now apply in_rev.
Qed.

Lemma rstrip_last (s r : str) c : rstrip s = r ++ [c] -> isspace c = false.
Proof.
  unfold rstrip. intros H.
  apply (f_equal (@rev N)) in H. rewrite rev_involutive, rev_app_distr in H.
  simpl in H. now apply lstrip_head in H.
Qed.

Lemma strip_first (s : str) c r : strip s = c :: r -> isspace c = false.
Proof.
  unfold strip. intros H.
  destruct (rstrip_prefix (lstrip s)) as [sp [Hs Hsp]].
  rewrite H in Hs. simpl in Hs. now apply lstrip_head in Hs.
Qed.

Lemma strip_last (s r : str) c : strip s = r ++ [c] -> isspace c = false.
Proof. unfold strip. apply rstrip_last. Qed.

Lemma combine_seq_app {A} (xs ys : list A) (y : A) (n : nat) :
  combine (seq n (length (xs ++ y :: ys))) (xs ++ y :: ys)
  = combine (seq n (length xs)) xs
      ++ (n + length xs, y)%nat
      :: combine (seq (S (n + length xs)) (length ys)) ys.
Proof.
  revert n. induction xs as [|x xs IH]; intros n; simpl.
  - now rewrite Nat.add_0_r.
  - rewrite IH. now rewrite Nat.add_succ_comm.
Qed.

Lemma enumerate_app {A} (xs ys : list A) (y : A) :
  Donut.enumerate (xs ++ y :: ys)
  = Donut.enumerate xs
      ++ (length xs, y) :: combine (seq (S (length xs)) (length ys)) ys.
Proof. unfold Donut.enumerate. apply (combine_seq_app xs ys y 0). Qed.

(** A loop stops at the first item whose body raises; what the items
    before it appended stays. *)
Lemma for_each_stops {A W E : Type} (xs ys : list A) (x : A)
    (body : A -> M (list W) E unit) (f : A -> list W) (e : E)
    (last : list W) :
  (forall y tr, In y xs -> body y tr = (Return tt, tr ++ f y)) ->
  (forall tr, body x tr = (Raised e, tr ++ last)) ->
  forall tr,
    for_each (xs ++ x :: ys) body tr
    = (Raised e, tr ++ flat_map f xs ++ last).
Proof.
  induction xs as [|x0 xs IH]; intros Hok Hfail tr; simpl.
  - now rewrite Hfail.
  - rewrite (Hok x0 tr (or_introl eq_refl)).
    rewrite IH by (auto; intros; apply Hok; now right).
    now rewrite <- !app_assoc.
Qed.

Section MoreDonutFacts.

Import Donut.

Variables image pixel_values token_ids sequences : Type.
Variable convert_from_path : str -> flow exn (list image).
Variable processor_call : image -> flow exn pixel_values.
Variable tokenizer_call : str -> flow exn token_ids.
Variable model_generate : pixel_values -> token_ids -> flow exn sequences.
Variable batch_decode : sequences -> flow exn (list str).

Abbreviation ask' :=
  (ask_question processor_call tokenizer_call model_generate batch_decode).
Abbreviation decoded' :=
  (decoded_text processor_call tokenizer_call model_generate batch_decode).
Abbreviation extract' :=
  (extract_signatory_info convert_from_path processor_call tokenizer_call
                          model_generate batch_decode).

(** When the decoder returns no text at all, [ask_question] raises
    [IndexError] after the four calls of the model stack. *)
Theorem ask_question_without_text img question inputs ids outputs
    (tr : console image pixel_values token_ids sequences) :
  processor_call img = Return inputs ->
  tokenizer_call (make_prompt question) = Return ids ->
  model_generate inputs ids = Return outputs ->
  batch_decode outputs = Return [] ->
  ask' img question tr
  = (Raised IndexError,
     tr ++ [ ProcessorCall _ _ _ img;
             TokenizerCall _ _ _ _ (make_prompt question);
             Generate _ _ inputs ids;
             BatchDecode _ _ _ outputs ]).
Proof.
  intros Hp Ht Hg Hd.
  unfold ask_question, call, lift, modify. simpl.
  rewrite Hp, Ht, Hg, Hd. simpl.
  repeat rewrite <- app_assoc. reflexivity.
Qed.

Lemma ask_question_result img question answer
    (tr : console image pixel_values token_ids sequences) :
  fst (ask' img question tr) = Return answer ->
  exists raw, answer = strip (replace raw (make_prompt question) []).
Proof.
  unfold ask_question, call, lift, modify. simpl.
  destruct (processor_call img) as [px|e]; [|discriminate].
  destruct (tokenizer_call (make_prompt question)) as [ids|e];
    [|discriminate].
  destruct (model_generate px ids) as [out|e]; [|discriminate].
  destruct (batch_decode out) as [texts|e]; [|discriminate].
  destruct texts as [|t0 texts]; simpl; [discriminate|].
  intros H; injection H as <-. now exists t0.
Qed.

(** An answer of [ask_question] neither begins nor ends with white
    space. *)
Theorem ask_question_answer_stripped img question answer
    (tr : console image pixel_values token_ids sequences) :
  fst (ask' img question tr) = Return answer ->
  (forall c rest, answer = c :: rest -> isspace c = false)
  /\ (forall rest c, answer = rest ++ [c] -> isspace c = false).
Proof.
  intros H. destruct (ask_question_result _ _ _ _ H) as [raw ->]. split.
  - intros c rest. apply strip_first.
  - intros rest c. apply strip_last.
Qed.

(** A failure on a later page ends [extract_signatory_info] with that
    exception: what was printed for the pages before it stays on the
    console, the header of the failing page is its last line, and no page
    after it is looked at. *)
Theorem failure_on_a_later_page
    (pdf_path : str) (before after : list image) (img : image)
    (raw : image -> str -> str) (e : exn)
    (tr : console image pixel_values token_ids sequences) :
  convert_from_path pdf_path = Return (before ++ img :: after) ->
  (forall im q, In im before -> In q questions ->
     decoded' im (make_prompt q) = Return (raw im q)) ->
  processor_call img = Raised e ->
  extract' pdf_path tr
  = (Raised e,
     tr ++ ConvertFromPath _ _ _ _ pdf_path
        :: flat_map (page_events processor_call tokenizer_call
                                 model_generate raw)
                    (enumerate before)
        ++ [ Printed _ _ _ _ (page_header (length before));
             ProcessorCall _ _ _ img ]).
Proof.
  intros Hconv Hdec Hfail.
  unfold extract_signatory_info, pdf_to_images, call, lift, modify.
  cbn -[for_each enumerate answer_page]. rewrite Hconv.
  rewrite enumerate_app.
  rewrite for_each_stops
    with (f := page_events processor_call tokenizer_call model_generate raw)
         (e := e)
         (last := [ Printed _ _ _ _ (page_header (length before));
                    ProcessorCall _ _ _ img ]).
  - rewrite <- app_assoc. reflexivity.
  - intros [n im] tr' Hin. apply in_enumerate in Hin.
    apply answer_page_prints. intros q Hq. now apply Hdec.
  - intros tr'. unfold answer_page, print, ask_question, call, lift, modify.
    simpl. rewrite Hfail. now rewrite <- app_assoc.
Qed.

End MoreDonutFacts.

Lemma ask_question_without_text_witness :
  fst (Donut.ask_question Donut.Fixture.processor_call
         Donut.Fixture.tokenizer_call Donut.Fixture.model_generate
         Donut.Fixture.decode_nothing (lit "Director")
         (lit "What is the official position?") [])
  = Raised Donut.IndexError.
Proof.
  rewrite (ask_question_without_text _ _ _ _
             Donut.Fixture.processor_call Donut.Fixture.tokenizer_call
             Donut.Fixture.model_generate Donut.Fixture.decode_nothing
             (lit "Director") (lit "What is the official position?")
             _ _ _ [] eq_refl eq_refl eq_refl eq_refl).
  reflexivity.
Defined.

Lemma ask_question_answer_stripped_witness :
  isspace 74%N = false /\ isspace 101%N = false.
Proof.
  pose proof (ask_question_answer_stripped _ _ _ _
                Donut.Fixture.processor_call Donut.Fixture.tokenizer_call
                Donut.Fixture.model_generate Donut.Fixture.batch_decode
                (lit " Jane Doe ") (lit "What is the print full name?")
                (lit "Jane Doe") [] eq_refl) as [Hfirst Hlast].
  split.
  - apply (Hfirst 74%N (lit "ane Doe")). reflexivity.
  - apply (Hlast (lit "Jane Do") 101%N). reflexivity.
Defined.

Lemma failure_on_a_later_page_witness :
  exists printed,
    Donut.extract_signatory_info Donut.Fixture.two_pages
      Donut.Fixture.picky_processor Donut.Fixture.tokenizer_call
      Donut.Fixture.model_generate Donut.Fixture.batch_decode
      (lit "form.pdf") []
    = (Raised Donut.Fixture.image_error, printed)
    /\ length printed = 19%nat.
Proof.
  eexists. split.
  - apply (failure_on_a_later_page _ _ _ _
             Donut.Fixture.two_pages Donut.Fixture.picky_processor
             Donut.Fixture.tokenizer_call Donut.Fixture.model_generate
             Donut.Fixture.batch_decode (lit "form.pdf")
             [lit " Jane Doe "] [] (lit "Director")
             (fun img q => Donut.make_prompt q ++ img)
             Donut.Fixture.image_error []).
    + reflexivity.
    + intros im q [<-|[]] _. reflexivity.
    + reflexivity.
  - reflexivity.
Defined.

(** ** gemini_app.py: pieces of the script that only draw *)

Section DrawFacts.

Import GeminiApp.

Lemma drawn_nil a : drawn a [] = a.
Proof. destruct a. unfold drawn. simpl. now rewrite app_nil_r. Qed.

Lemma drawn_app a ws1 ws2 : drawn (drawn a ws1) ws2 = drawn a (ws1 ++ ws2).
Proof. unfold drawn. simpl. now rewrite app_assoc. Qed.

Lemma renders_ret {A} (v : A) : renders (ret v) (Return v) [].
Proof. intros a. simpl. now rewrite drawn_nil. Qed.

Lemma renders_show (w : widget) : renders (show w) (Return tt) [w].
Proof. intros a. reflexivity. Qed.

Lemma renders_lift_return {A} (v : A) :
  renders (lift_exn (Return v)) (Return v) [].
Proof. intros a. simpl. now rewrite drawn_nil. Qed.

Lemma renders_lift_raised {A} (e : exn) :
  renders (@lift_exn A (Raised e)) (Raised (Exception e)) [].
Proof. intros a. simpl. now rewrite drawn_nil. Qed.

Lemma renders_bind_return {A B} (c : Script A) (k : A -> Script B)
    v ws1 r ws2 :
  renders c (Return v) ws1 -> renders (k v) r ws2 ->
  renders (bind c k) r (ws1 ++ ws2).
Proof.
  intros Hc Hk a. simpl. rewrite Hc, Hk. now rewrite drawn_app.
Qed.

Lemma renders_bind_raised {A B} (c : Script A) (k : A -> Script B) e ws :
  renders c (Raised e) ws -> renders (bind c k) (Raised e) ws.
Proof. intros Hc a. simpl. now rewrite Hc. Qed.

Lemma renders_within {A} (c : container) (body : Script A) r ws :
  renders body r ws ->
  renders (within c body) r (Enter c :: ws ++ [Leave c]).
Proof.
  intros Hb a. unfold within. simpl. unfold show, modify. simpl.
  rewrite Hb. unfold drawn. simpl. f_equal.
  repeat rewrite <- app_assoc. reflexivity.
Qed.

Lemma draws_ret {A} (v : A) : draws (ret v).
Proof. eexists _, _. apply renders_ret. Qed.

Lemma draws_show (w : widget) : draws (show w).
Proof. eexists _, _. apply renders_show. Qed.

Lemma draws_lift {A} (r : flow exn A) : draws (lift_exn r).
Proof.
  destruct r; eexists _, _;
    [apply renders_lift_return | apply renders_lift_raised].
Qed.

Lemma draws_bind {A B} (c : Script A) (k : A -> Script B) :
  draws c -> (forall v, draws (k v)) -> draws (bind c k).
Proof.
  intros [[v|e] [ws1 Hc]] Hk.
  - destruct (Hk v) as [r [ws2 Hkv]]. eexists _, _.
    eapply renders_bind_return; eassumption.
  - eexists _, _. eapply renders_bind_raised; eassumption.
Qed.

Lemma draws_within {A} (c : container) (body : Script A) :
  draws body -> draws (within c body).
Proof. intros [r [ws H]]. eexists _, _. apply renders_within, H. Qed.

Lemma draws_for_each {A} (xs : list A) (body : A -> Script unit) :
  (forall x, draws (body x)) -> draws (for_each xs body).
Proof.
  intros H. induction xs as [|x xs IH]; simpl.
  - apply (draws_ret tt).
  - apply draws_bind; [apply H | intros _; exact IH].
Qed.

Lemma draws_metric label v : draws (st_metric label v).
Proof.
  destruct v; simpl; try apply draws_show; apply draws_lift.
Qed.

Ltac draw :=
  repeat first
    [ apply draws_show
    | apply draws_lift
    | apply draws_metric
    | apply (draws_ret tt)
    | apply draws_within
    | apply draws_for_each; intro
    | apply draws_bind; [|intro]
    | match goal with |- draws (if ?b then _ else _) => destruct b end ].

Lemma display_signing_rules_draws (results : pyval) :
  draws (display_signing_rules results).
Proof.
  unfold display_signing_rules.
  apply draws_bind; [apply draws_lift | intro status].
  destruct (eq_str status (lit "error")); draw.
Qed.

(** The renderer neither reads nor writes the session: for a result it
    always ends in the same way and adds the same widgets at the end of
    the page, also when it raises. *)
Theorem display_signing_rules_only_draws (results : pyval) :
  exists outcome widgets,
    forall a,
      display_signing_rules results a
      = (outcome,
         {| session := session a; page := page a ++ widgets |}).
Proof. apply display_signing_rules_draws. Qed.

(** A reply that is valid JSON but no object (an array, a string, a
    number, [null]) cannot be rendered: the renderer raises [TypeError]
    before it shows anything; an object without [status] makes it raise
    [KeyError]. *)
Theorem result_without_status_not_rendered (results : pyval) :
  ((forall d, results <> PyDict d) ->
   exists msg,
     forall a,
       display_signing_rules results a
       = (Raised (Exception (TypeError msg)), a))
  /\ (forall d,
        results = PyDict d ->
        dict_get d (lit "status") = None ->
        forall a,
          display_signing_rules results a
          = (Raised (Exception (KeyError (lit "status"))), a)).
Proof.
  split.
  - intros Hnot.
    destruct results as [| | | | | |d];
      try (eexists; intros a; reflexivity).
    now destruct (Hnot d).
  - intros d -> Hd a. unfold display_signing_rules, getitem. rewrite Hd.
    reflexivity.
Qed.

(** A result whose status is ["error"] is rendered as its message alone;
    none of the other fields is read, so they can be missing. *)
Theorem error_status_shows_message_only d status message :
  dict_get d (lit "status") = Some status ->
  eq_str status (lit "error") = true ->
  dict_get d (lit "message") = Some message ->
  forall a,
    display_signing_rules (PyDict d) a
    = (Return tt,
       {| session := session a;
          page := page a ++ [StError [Text (lit "Error: ");
                                      Value message]] |}).
Proof.
  intros Hs He Hm a. unfold display_signing_rules, getitem.
  rewrite Hs. simpl. rewrite He, Hm. reflexivity.
Qed.

(** The two counts on the page are the numbers the reply gives, while the
    number of sections is counted from the list: the page starts with
    these three metrics whatever the lists of rules hold. *)
Theorem metrics_show_reported_counts d status total approved sections :
  dict_get d (lit "status") = Some status ->
  eq_str status (lit "error") = false ->
  dict_get d (lit "total_rules") = Some total ->
  dict_get d (lit "approved_count") = Some approved ->
  dict_get d (lit "sections_found") = Some (PyList sections) ->
  is_number total = true ->
  is_number approved = true ->
  exists outcome rest,
    forall a,
      display_signing_rules (PyDict d) a
      = (outcome,
         {| session := session a;
            page :=
              page a
              ++ [ StSuccess (lit "✅ Successfully processed document!");
                   StColumns [1; 1; 1]%Z;
                   Enter (Column 0);
                   StMetric (lit "Total Rules") total;
                   Leave (Column 0);
                   Enter (Column 1);
                   StMetric (lit "Approved Rules") approved;
                   Leave (Column 1);
                   Enter (Column 2);
                   StMetric (lit "Sections Found")
                            (PyInt (Z.of_nat (length sections)));
                   Leave (Column 2) ]
              ++ rest |}).
Proof.
  intros Hs He Ht Ha Hsec Hnt Hna.
  assert (Hrest : draws
    (sections0 <- lift_exn (getitem (PyDict d) (lit "sections_found")) ;;
     (if truthy sections0 then
        show (StSubheader (lit "📍 Sections Found")) ;;
        sections1 <- lift_exn (getitem (PyDict d) (lit "sections_found")) ;;
        items <- lift_exn (iter sections1) ;;
        for_each items show_section
      else ret tt) ;;
     approved_rules <- lift_exn (getitem (PyDict d) (lit "approved_rules")) ;;
     (if truthy approved_rules then
        show (StSubheader (lit "✅ Approved Signing Rules")) ;;
        approved_rules0 <-
          lift_exn (getitem (PyDict d) (lit "approved_rules")) ;;
        items <- lift_exn (iter approved_rules0) ;;
        for_each items show_approved_rule
      else ret tt) ;;
     within (Expander [Text (lit "📋 All Rules Summary")])
       (all_rules <- lift_exn (getitem (PyDict d) (lit "all_rules")) ;;
        items <- lift_exn (iter all_rules) ;;
        for_each items show_rule_summary))).
  { draw. }
  destruct Hrest as [outcome [rest Hrest]].
  exists outcome, rest.
  assert (Hm1 : renders (st_metric (lit "Total Rules") total) (Return tt)
                        [StMetric (lit "Total Rules") total]).
  { destruct total; try discriminate; apply renders_show. }
  assert (Hm2 : renders (st_metric (lit "Approved Rules") approved)
                        (Return tt)
                        [StMetric (lit "Approved Rules") approved]).
  { destruct approved; try discriminate; apply renders_show. }
  assert (H : renders (display_signing_rules (PyDict d)) outcome
                ([] ++ [StSuccess (lit "✅ Successfully processed document!")]
                 ++ [StColumns [1; 1; 1]%Z]
                 ++ (Enter (Column 0)
                     :: ([] ++ [StMetric (lit "Total Rules") total])
                     ++ [Leave (Column 0)])
                 ++ (Enter (Column 1)
                     :: ([] ++ [StMetric (lit "Approved Rules") approved])
                     ++ [Leave (Column 1)])
                 ++ (Enter (Column 2)
                     :: ([] ++ [] ++
                         [StMetric (lit "Sections Found")
                            (PyInt (Z.of_nat (length sections)))])
                     ++ [Leave (Column 2)])
                 ++ rest)).
  { unfold display_signing_rules.
    eapply renders_bind_return.
    { unfold getitem. rewrite Hs. apply renders_lift_return. }
    cbv beta. rewrite He.
    eapply renders_bind_return; [apply renders_show|].
    eapply renders_bind_return; [apply renders_show|].
    eapply renders_bind_return.
    { apply renders_within. unfold getitem. rewrite Ht.
      eapply renders_bind_return; [apply renders_lift_return | exact Hm1]. }
    eapply renders_bind_return.
    { apply renders_within. unfold getitem. rewrite Ha.
      eapply renders_bind_return; [apply renders_lift_return | exact Hm2]. }
    eapply renders_bind_return.
    { apply renders_within. unfold getitem. rewrite Hsec.
      eapply renders_bind_return; [apply renders_lift_return|].
      eapply renders_bind_return; [apply renders_lift_return|].
      apply renders_show. }
    exact Hrest. }
  intros a. rewrite (H a). reflexivity.
Qed.

End DrawFacts.

(** ** gemini_app.py: the text of the PDF and the request *)

Section TextFacts.

Import GeminiApp.

Lemma concat_pages_joins ps texts acc :
  Forall2 (fun p t => extract_text p = Return t) ps texts ->
  concat_pages ps acc
  = Return (acc ++ flat_map (fun t => t ++ [10%N]) texts).
Proof.
  intros H. revert acc.
  induction H as [|p t ps texts Hp _ IH]; intros acc; simpl.
  - now rewrite app_nil_r.
  - rewrite Hp, IH. now rewrite <- !app_assoc.
Qed.

Lemma extract_text_from_pdf_reads self f reader ps texts a :
  PdfReader f = Return reader ->
  pages reader = Return ps ->
  Forall2 (fun p t => extract_text p = Return t) ps texts ->
  extract_text_from_pdf self f a
  = (Return (flat_map (fun t => t ++ [10%N]) texts), a).
Proof.
  intros Hr Hp Ht.
  unfold extract_text_from_pdf, try_except, lift_exn. simpl.
  rewrite Hr, Hp, (concat_pages_joins _ _ _ Ht). reflexivity.
Qed.

(** When every page can be read, [extract_text_from_pdf] returns the texts
    of the pages in order, each followed by a line feed, and shows
    nothing. *)
Theorem extract_text_joins_pages self f reader ps texts a :
  PdfReader f = Return reader ->
  pages reader = Return ps ->
  Forall2 (fun p t => extract_text p = Return t) ps texts ->
  extract_text_from_pdf self f a
  = (Return (flat_map (fun t => t ++ [10%N]) texts), a).
Proof. apply extract_text_from_pdf_reads. Qed.

Lemma joined_length (texts : list str) :
  (length texts <= length (flat_map (fun t => t ++ [10%N]) texts))%nat.
Proof.
  induction texts as [|t texts IH]; simpl; [lia|].
  rewrite !length_app. simpl. lia.
Qed.

(** The text of a readable PDF has at least one character per page, so it
    is empty only for a PDF without pages: pages without any text still
    give a text that [main] takes as present. *)
Theorem text_empty_only_without_pages self f reader ps texts a :
  PdfReader f = Return reader ->
  pages reader = Return ps ->
  Forall2 (fun p t => extract_text p = Return t) ps texts ->
  exists text,
    extract_text_from_pdf self f a = (Return text, a)
    /\ (length ps <= length text)%nat
    /\ (text = [] <-> ps = []).
Proof.
  intros Hr Hp Ht. eexists. split.
  - apply (extract_text_from_pdf_reads _ _ _ _ _ _ Hr Hp Ht).
  - pose proof (joined_length texts) as Hlen.
    rewrite (Forall2_length Ht). split; [exact Hlen|]. split.
    + intros H. rewrite H in Hlen. simpl in Hlen.
      destruct ps; [reflexivity|].
      apply Forall2_length in Ht. simpl in *. lia.
    + intros ->. inversion Ht. reflexivity.
Qed.

Lemma join_lines_app (ls1 ls2 : list str) (l : str) :
  join_lines (ls1 ++ l :: ls2)
  = flat_map (fun x => x ++ [10%N]) ls1 ++ join_lines (l :: ls2).
Proof.
  induction ls1 as [|x ls1 IH]; [reflexivity|].
  cbn [flat_map]. rewrite <- app_assoc, <- IH.
  destruct ls1; simpl; now rewrite <- app_assoc.
Qed.

(** The prompt is the document between two fixed texts: the document is
    neither shortened nor escaped, and nothing of it decides what stands
    around it. *)
Theorem prompt_wraps_document :
  exists head tail : str,
    length head = 466%nat /\ length tail = 1356%nat
    /\ forall document_content,
         make_prompt document_content = head ++ document_content ++ tail.
Proof.
  exists (flat_map (fun x => x ++ [10%N]) prompt_before ++ lit "        "),
         (10%N :: join_lines prompt_after).
  split; [reflexivity|]. split; [reflexivity|].
  intros doc. unfold make_prompt.
  change (prompt_before ++ [lit "        " ++ doc] ++ prompt_after)
    with (prompt_before ++ (lit "        " ++ doc) :: prompt_after).
  rewrite join_lines_app.
  change (join_lines ((lit "        " ++ doc) :: prompt_after))
    with ((lit "        " ++ doc) ++ [10%N] ++ join_lines prompt_after).
  now rewrite <- !app_assoc.
Qed.

(** Cutting the fence only takes characters off the two ends of the
    reply, at most seven in front and at most three at the end; a reply
    that does not start with a fence is not changed at all. *)
Theorem strip_fence_keeps_middle (reply : str) :
  (exists front back,
     reply = front ++ strip_fence reply ++ back
     /\ (length front <= 7)%nat /\ (length back <= 3)%nat)
  /\ (startswith reply (lit "```") = false -> strip_fence reply = reply).
Proof.
  assert (Hcut : forall n,
            exists front back,
              reply = front ++ skipn n (firstn (length reply - 3) reply)
                            ++ back
              /\ (length front <= n)%nat /\ (length back <= 3)%nat).
  { intros n.
    exists (firstn n (firstn (length reply - 3) reply)),
           (skipn (length reply - 3) reply).
    rewrite app_assoc, firstn_skipn, firstn_skipn.
    split; [reflexivity|]. split.
    - rewrite length_firstn. lia.
    - rewrite length_skipn. lia. }
  split.
  - destruct (startswith reply (lit "```json")) eqn:Hj.
    + rewrite (fence_json_cut _ Hj). apply Hcut.
    + destruct (startswith reply (lit "```")) eqn:Hp.
      * rewrite (fence_plain_cut _ Hj Hp).
        destruct (Hcut 3%nat) as (front & back & H & Hf & Hb).
        exists front, back. repeat split; [exact H | lia | exact Hb].
      * exists [], []. unfold strip_fence. rewrite Hj, Hp.
        rewrite app_nil_r. simpl. repeat split; lia.
  - intros Hp. unfold strip_fence. rewrite Hp.
    destruct (startswith reply (lit "```json")) eqn:Hj; [|reflexivity].
    apply startswith_inv in Hj as [r ->]. discriminate Hp.
Qed.

Variable json_loads : str -> flow exn pyval.
Variable anthropic_Anthropic : str -> flow exn anthropic_client.
Variable genai_configure : str -> flow exn unit.
Variable genai_GenerativeModel : str -> flow exn gemini_model.

Abbreviation init' :=
  (DocumentProcessor_init anthropic_Anthropic genai_configure
                          genai_GenerativeModel).
Abbreviation clicked' :=
  (extract_clicked json_loads anthropic_Anthropic genai_configure
                   genai_GenerativeModel).

(** A processor for a provider that is neither ["claude"] nor ["gemini"] is
    built without any error and without a client; every extraction with it
    returns the error result for the missing attribute, and no request is
    made. *)
Theorem unknown_provider_gives_error_result api_key provider_name :
  eqb provider_name (lit "claude") = false ->
  eqb provider_name (lit "gemini") = false ->
  exists self,
    init' api_key provider_name = Return self
    /\ client self = None /\ model self = None
    /\ forall document_content,
         extract_signing_rules_smart json_loads self document_content
         = Return (error_result
                     (AttributeError
                        (lit "'DocumentProcessor' object has no attribute 'model'"))).
Proof.
  intros Hc Hg. eexists. unfold DocumentProcessor_init. rewrite Hc, Hg.
  split; [reflexivity|]. split; [reflexivity|]. split; [reflexivity|].
  intros doc. apply smart_failed.
  unfold request_and_parse, response_text_of. simpl. rewrite Hc.
  reflexivity.
Qed.

(** The spinner of the extraction block. *)
Abbreviation spinner :=
  (Spinner (lit "Analyzing document for signing rules...")).

(** A click on the extraction button with a key, a client that can be
    built and a PDF whose pages can be read: the result of
    [extract_signing_rules_smart] for the text of the PDF replaces whatever
    result the session held, also when it is the error result; nothing is
    shown by the block itself. *)
Theorem extraction_result_stored provider_name api_key f a
    self position reader ps texts :
  api_key <> [] ->
  init' api_key provider_name = Return self ->
  seek f 0 = Return position ->
  PdfReader f = Return reader ->
  pages reader = Return ps ->
  Forall2 (fun p t => extract_text p = Return t) ps texts ->
  ps <> [] ->
  exists result,
    extract_signing_rules_smart json_loads self
      (flat_map (fun t => t ++ [10%N]) texts) = Return result
    /\ clicked' provider_name api_key f a
       = (Return false,
          {| session := {| current_page := current_page (session a);
                           extraction_results := Some result |};
             page := page a ++ [Enter spinner; Leave spinner] |}).
Proof.
  intros Hkey Hinit Hseek Hr Hp Ht Hps.
  destruct (smart_returns json_loads self
              (flat_map (fun t => t ++ [10%N]) texts)) as [result Hres].
  exists result. split; [exact Hres|].
  unfold extract_clicked.
  destruct api_key as [|c0 key]; [congruence|]. cbn [length Nat.eqb].
  unfold within, try_except, lift_exn, show, modify. simpl.
  rewrite Hinit, Hseek.
  rewrite (extract_text_from_pdf_reads self f reader ps texts _ Hr Hp Ht).
  destruct ps as [|p ps]; [congruence|].
  inversion Ht as [|p' t ps' texts' Hp0 Ht0]; subst.
  cbn [flat_map]. 
  destruct ((t ++ [10%N]) ++ flat_map (fun t0 => t0 ++ [10%N]) texts')
    as [|c text] eqn:Htext.
  { destruct t; discriminate Htext. }
  cbn [length Nat.eqb negb].
  cbn [flat_map] in Hres. rewrite Htext in Hres. rewrite Hres.
  simpl. now rewrite <- app_assoc.
Qed.

(** A click on the extraction button when the client cannot be built or
    the file cannot be rewound: the error is shown, and the session,
    with the result of an earlier extraction, stays as it was. *)
Theorem client_failure_reported provider_name api_key f a e :
  api_key <> [] ->
  init' api_key provider_name = Raised e
  \/ (exists self, init' api_key provider_name = Return self
                   /\ seek f 0 = Raised e) ->
  clicked' provider_name api_key f a
  = (Return false,
     {| session := session a;
        page := page a
                ++ [ Enter spinner;
                     StError [Text (lit "Error processing document: ");
                              Text (exc_str e)];
                     Leave spinner ] |}).
Proof.
  intros Hkey H. unfold extract_clicked.
  destruct api_key as [|c0 key]; [congruence|]. cbn [length Nat.eqb].
  unfold within, try_except, lift_exn, show, modify. simpl.
  destruct H as [H | [self [H Hs]]].
  - rewrite H. simpl. now rewrite <- !app_assoc.
  - rewrite H, Hs. simpl. now rewrite <- !app_assoc.
Qed.


End TextFacts.

(** ** gemini_app.py: what a run does to the session *)

Section SessionFacts.

Import GeminiApp.

Lemma preserves_renders {A} P (c : Script A) r ws :
  renders c r ws -> preserves P c.
Proof. intros H a HP. now rewrite H. Qed.

Lemma preserves_draws {A} P (c : Script A) : draws c -> preserves P c.
Proof. intros [r [ws H]]. eapply preserves_renders, H. Qed.

Lemma preserves_ret {A} P (v : A) : preserves P (ret v).
Proof. intros a HP. exact HP. Qed.

Lemma preserves_bind {A B} P (c : Script A) (k : A -> Script B) :
  preserves P c -> (forall v, preserves P (k v)) -> preserves P (bind c k).
Proof.
  intros Hc Hk a HP. specialize (Hc a HP). simpl.
  destruct (c a) as [[v|e] a']; simpl in *; [now apply Hk | exact Hc].
Qed.

Lemma preserves_bind_renders {A B} P (c : Script A) (k : A -> Script B)
    v ws :
  renders c (Return v) ws -> preserves P (k v) -> preserves P (bind c k).
Proof.
  intros Hc Hk a HP. simpl. rewrite Hc. apply Hk. exact HP.
Qed.

Lemma preserves_within {A} P (c : container) (body : Script A) :
  preserves P body -> preserves P (within c body).
Proof.
  intros Hb a HP. unfold within.
  pose proof (preserves_bind P (show (Enter c)) (fun _ => body)
                (preserves_draws P _ (draws_show _)) (fun _ => Hb) a HP)
    as H.
  destruct ((show (Enter c) ;; body) a) as [r a']. exact H.
Qed.

Lemma preserves_try_except {A} P (body : Script A) handler :
  preserves P body -> (forall e, preserves P (handler e)) ->
  preserves P (try_except body handler).
Proof.
  intros Hb Hh a HP. specialize (Hb a HP). unfold try_except.
  destruct (body a) as [[v|[e|]] a']; simpl in *; try exact Hb.
  now apply Hh.
Qed.

Lemma preserves_get P : preserves P (@get app signal).
Proof. intros a HP. exact HP. Qed.

Lemma preserves_get_current_page P : preserves P get_current_page.
Proof.
  intros a HP. unfold get_current_page. simpl.
  destruct (current_page (session a)); exact HP.
Qed.

Lemma preserves_rerun {A} P : preserves P (@st_rerun A).
Proof. intros a HP. exact HP. Qed.

Lemma preserves_button P clicked b label disabled :
  preserves P (st_button clicked b label disabled).
Proof.
  unfold st_button. apply preserves_bind.
  - apply preserves_draws, draws_show.
  - intros _. apply preserves_ret.
Qed.

(** Steps that keep a property of the session, one rule per kind of
    statement. *)
Ltac keep :=
  repeat first
    [ apply preserves_ret
    | apply preserves_get
    | apply preserves_get_current_page
    | apply preserves_rerun
    | apply preserves_button
    | apply preserves_draws; first [apply draws_show | apply draws_lift]
    | apply preserves_within
    | apply preserves_try_except; [|intro]
    | apply preserves_bind; [|intro]
    | match goal with
      | |- preserves _ (if ?b then _ else _) => destruct b
      | |- preserves _ (match ?x with Some _ => _ | None => _ end) =>
          destruct x
      end ].

Lemma set_current_page_keeps_results (Q : option pyval -> Prop) z :
  preserves (fun s => Q (extraction_results s)) (set_current_page z).
Proof. intros a HP. exact HP. Qed.

Lemma display_pdf_pages_keeps (Q : option pyval -> Prop) clicked f :
  preserves (fun s => Q (extraction_results s))
            (display_pdf_pages clicked f).
Proof.
  unfold display_pdf_pages.
  keep; apply set_current_page_keeps_results.
Qed.

(** [display_pdf_pages] never touches the stored result of an extraction,
    whatever the file is and however the call ends. *)
Theorem display_pdf_pages_keeps_results clicked f a :
  extraction_results (session (snd (display_pdf_pages clicked f a)))
  = extraction_results (session a).
Proof.
  apply (display_pdf_pages_keeps
           (fun r => r = extraction_results (session a)) clicked f a).
  reflexivity.
Qed.

Variable json_loads : str -> flow exn pyval.
Variable anthropic_Anthropic : str -> flow exn anthropic_client.
Variable genai_configure : str -> flow exn unit.
Variable genai_GenerativeModel : str -> flow exn gemini_model.

Abbreviation main' :=
  (main json_loads anthropic_Anthropic genai_configure
        genai_GenerativeModel).

Lemma extract_text_from_pdf_keeps P self f :
  preserves P (extract_text_from_pdf self f).
Proof. unfold extract_text_from_pdf. keep. Qed.

Lemma sidebar_keeps P b : preserves P (sidebar b).
Proof. unfold sidebar. keep. Qed.

Lemma set_results_some v :
  preserves (fun s => extraction_results s <> None)
            (set_extraction_results v).
Proof. intros a _. discriminate. Qed.

Lemma extract_clicked_keeps_some provider_name api_key f :
  preserves (fun s => extraction_results s <> None)
    (extract_clicked json_loads anthropic_Anthropic genai_configure
                     genai_GenerativeModel provider_name api_key f).
Proof.
  unfold extract_clicked. keep. apply set_results_some.
Qed.

(** A run never clears the stored result of an extraction: once the
    session holds one, it holds one after every later run, whatever file
    is uploaded and whatever is clicked. *)
Theorem stored_result_never_cleared b s :
  extraction_results s <> None ->
  extraction_results
    (session (snd (run json_loads anthropic_Anthropic genai_configure
                       genai_GenerativeModel b s)))
  <> None.
Proof.
  intros Hs. unfold run.
  assert (H : preserves (fun s => extraction_results s <> None) (main' b));
    [|exact (H {| session := s; page := [] |} Hs)].
  unfold main.
  apply preserves_bind; [apply preserves_draws, draws_show | intros _].
  apply preserves_bind; [apply preserves_draws, draws_show | intros _].
  apply preserves_bind; [apply preserves_draws, draws_show | intros _].
  apply preserves_bind; [apply sidebar_keeps | intros [provider_name api_key]].
  apply preserves_bind; [apply preserves_draws, draws_show | intros _].
  destruct (uploaded b) as [f|]; [|keep].
  apply preserves_bind; [apply preserves_draws, draws_show | intros _].
  apply preserves_bind; [apply preserves_draws, draws_show | intros _].
  apply preserves_bind; [|intros total_pages].
  { apply preserves_within, preserves_bind;
      [apply preserves_draws, draws_show | intros _].
    apply (display_pdf_pages_keeps (fun r => r <> None)). }
  apply preserves_bind; [keep | intros _].
  apply preserves_bind; [apply preserves_draws, draws_show | intros _].
  apply preserves_bind; [apply preserves_button | intros pressed].
  apply preserves_bind; [|intros returned].
  { destruct pressed; [apply extract_clicked_keeps_some | apply preserves_ret]. }
  destruct returned; [apply preserves_ret|].
  apply preserves_bind; [apply preserves_get | intros a'].
  destruct (extraction_results (session a')); [|apply preserves_ret].
  apply preserves_bind; [apply preserves_draws, draws_show | intros _].
  apply preserves_draws, display_signing_rules_draws.
Qed.

Lemma renders_button clicked b label disabled :
  renders (st_button clicked b label disabled)
          (Return (match clicked with
                   | Some c => button_eqb c b && negb disabled
                   | None => false
                   end))
          [StButton label disabled].
Proof.
  unfold st_button.
  apply (renders_bind_return _ _ tt [_] _ []);
    [apply renders_show | apply renders_ret].
Qed.

(** Without a click on the extraction button a run leaves the stored
    result exactly as it is: the result of an earlier extraction stays,
    and is shown, also after another document has been uploaded. *)
Theorem stored_result_kept_without_click b s :
  clicked_button b <> Some ExtractRules ->
  extraction_results
    (session (snd (run json_loads anthropic_Anthropic genai_configure
                       genai_GenerativeModel b s)))
  = extraction_results s.
Proof.
  intros Hclick. unfold run.
  assert (H : preserves
                (fun s' => extraction_results s' = extraction_results s)
                (main' b));
    [|exact (H {| session := s; page := [] |} eq_refl)].
  unfold main.
  apply preserves_bind; [apply preserves_draws, draws_show | intros _].
  apply preserves_bind; [apply preserves_draws, draws_show | intros _].
  apply preserves_bind; [apply preserves_draws, draws_show | intros _].
  apply preserves_bind; [apply sidebar_keeps | intros [provider_name api_key]].
  apply preserves_bind; [apply preserves_draws, draws_show | intros _].
  destruct (uploaded b) as [f|]; [|keep].
  apply preserves_bind; [apply preserves_draws, draws_show | intros _].
  apply preserves_bind; [apply preserves_draws, draws_show | intros _].
  apply preserves_bind; [|intros total_pages].
  { apply preserves_within, preserves_bind;
      [apply preserves_draws, draws_show | intros _].
    apply (display_pdf_pages_keeps
             (fun r => r = extraction_results s)). }
  apply preserves_bind; [keep | intros _].
  apply preserves_bind; [apply preserves_draws, draws_show | intros _].
  eapply preserves_bind_renders; [apply renders_button|].
  replace (match clicked_button b with
           | Some c => button_eqb c ExtractRules && negb false
           | None => false
           end) with false
    by (destruct (clicked_button b) as [[| |]|] eqn:E;
        try reflexivity; congruence).
  apply preserves_bind; [apply preserves_ret | intros returned].
  destruct returned; [apply preserves_ret|].
  apply preserves_bind; [apply preserves_get | intros a'].
  destruct (extraction_results (session a')); [|apply preserves_ret].
  apply preserves_bind; [apply preserves_draws, draws_show | intros _].
  apply preserves_draws, display_signing_rules_draws.
Qed.

(** Without an uploaded file a run only draws the start page: it reads no
    file, makes no request, leaves the session as it is, and shows no
    result even when the session holds one. *)
Theorem start_page_without_file b :
  uploaded b = None ->
  exists widgets,
    (forall a,
       main json_loads anthropic_Anthropic genai_configure
            genai_GenerativeModel b a
       = (Return tt,
          {| session := session a; page := page a ++ widgets |}))
    /\ In (StInfo (lit "👆 Please upload a PDF document to get started"))
          widgets
    /\ ~ In (StHeader (lit "🎯 Extraction Results")) widgets.
Proof.
  intros Hfile.
  assert (Hside : exists key ws,
            renders (sidebar b) (Return (selected_provider b, key)) ws
            /\ ~ In (StHeader (lit "🎯 Extraction Results")) ws).
  { unfold sidebar.
    destruct (eqb (selected_provider b) (lit "claude")); eexists _, _; split.
    1, 3: apply renders_within;
      eapply renders_bind_return; [apply renders_show|];
      eapply renders_bind_return; [apply renders_show|];
      eapply renders_bind_return;
        [ eapply renders_bind_return; [apply renders_show|];
          eapply renders_bind_return; [apply renders_show|];
          apply renders_ret |];
      eapply renders_bind_return; [apply renders_show|];
      eapply renders_bind_return; [apply renders_show|];
      eapply renders_bind_return; [apply renders_show|];
      apply renders_ret.
    all: vm_compute; intuition discriminate. }
  destruct Hside as (key & ws & Hside & Hno).
  eassert (Hmain : renders (main' b) (Return tt) _).
  { unfold main.
    eapply renders_bind_return; [apply renders_show|].
    eapply renders_bind_return; [apply renders_show|].
    eapply renders_bind_return; [apply renders_show|].
    eapply renders_bind_return; [exact Hside|]. cbv beta iota.
    eapply renders_bind_return; [apply renders_show|].
    rewrite Hfile.
    eapply renders_bind_return; [apply renders_show|].
    eapply renders_bind_return; [apply renders_show|].
    eapply renders_bind_return; [apply renders_show|].
    apply renders_show. }
  eexists. split; [exact Hmain|]. split.
  - do 5 (apply in_or_app; right). apply in_or_app. left. left.
    reflexivity.
  - intros Hin.
    repeat (apply in_app_or in Hin as [Hin|Hin];
            [try (destruct Hin as [Hin|[]]; vm_compute in Hin;
                  discriminate Hin) |]);
      try (now apply Hno).
    vm_compute in Hin. intuition discriminate.
Qed.

End SessionFacts.

(** ** gemini_app.py: more on paging *)

Lemma list_index_in_range {A} (xs : list A) (k : Z) (x : A) :
  (0 <= k)%Z ->
  nth_error xs (Z.to_nat k) = Some x ->
  GeminiApp.list_index xs k = Return x.
Proof.
  intros Hk Hn. unfold GeminiApp.list_index.
  assert (Hlt : (Z.to_nat k < length xs)%nat)
    by (apply nth_error_Some; congruence).
  replace (k <? 0)%Z with false by (symmetry; apply Z.ltb_ge; lia).
  replace ((k <? 0) || (Z.of_nat (length xs) <=? k))%Z with false.
  - now rewrite Hn.
  - symmetry. apply orb_false_iff. split.
    + apply Z.ltb_ge; lia.
    + apply Z.leb_gt; lia.
Qed.

Section MorePagingFacts.

Import GeminiApp.

Variables (pdf_file : UploadedFile) (reader : pdf_reader)
          (ps : list pdf_page).
Hypothesis opened : PdfReader pdf_file = Return reader.
Hypothesis listed : pages reader = Return ps.

Abbreviation total := (Z.of_nat (length ps)).
Abbreviation stored a :=
  (match current_page (session a) with Some k => k | None => 0%Z end).

Ltac pager_cases :=
  repeat (cbn -[Z.of_nat lit list_index Z.sub Z.add Z.leb Z.eqb];
          match goal with
          | |- context [if ?b then _ else _] => destruct b eqn:?
          | |- context [match list_index ?l ?k with _ => _ end] =>
              destruct (list_index l k)
          | |- context [match extract_text ?p with _ => _ end] =>
              destruct (extract_text p)
          end);
  cbn -[Z.of_nat lit list_index Z.sub Z.add Z.leb Z.eqb].

Ltac pager_cases_eq :=
  repeat (cbn -[Z.of_nat lit list_index Z.sub Z.add Z.leb Z.eqb];
          match goal with
          | |- context [if ?b then _ else _] => destruct b eqn:?
          | |- context [match list_index ?l ?k with _ => _ end] =>
              destruct (list_index l k) eqn:?
          | |- context [match extract_text ?p with _ => _ end] =>
              destruct (extract_text p) eqn:?
          end);
  cbn -[Z.of_nat lit list_index Z.sub Z.add Z.leb Z.eqb].

(** [display_pdf_pages] asks for a rerun exactly when the click changes
    the page number; in every other case it returns. *)
Theorem rerun_exactly_when_page_changes clicked a :
  fst (display_pdf_pages clicked pdf_file a) = Raised RerunException
  <-> next_page total clicked (stored a) <> stored a.
Proof.
  unfold display_pdf_pages, try_except, within, next_page, lift_exn.
  destruct a as [[cp er] pg].
  cbn -[Z.of_nat lit list_index]. rewrite opened.
  cbn -[Z.of_nat lit list_index]. rewrite listed.
  destruct cp as [k|]; destruct clicked as [[| |]|];
    pager_cases; try discriminate;
    split; intros H; try discriminate; try reflexivity;
    try lia; try congruence.
Qed.

(** When no click moves the page, the page number is one of the document
    and the text of that page can be extracted, [display_pdf_pages]
    returns the number of pages and shows that text in a disabled text
    area. *)
Theorem current_page_text_shown clicked a p text :
  (0 <= stored a)%Z ->
  nth_error ps (Z.to_nat (stored a)) = Some p ->
  extract_text p = Return text ->
  next_page total clicked (stored a) = stored a ->
  fst (display_pdf_pages clicked pdf_file a) = Return total
  /\ In (StTextArea (lit "Document Content (Current Page):") text 400 true)
        (page (snd (display_pdf_pages clicked pdf_file a))).
Proof.
  intros Hk Hn Ht Hstay.
  pose proof (list_index_in_range _ _ _ Hk Hn) as Hidx.
  revert Hstay Hidx.
  unfold display_pdf_pages, try_except, within, next_page, lift_exn.
  destruct a as [[cp er] pg].
  cbn -[Z.of_nat lit list_index]. rewrite opened.
  cbn -[Z.of_nat lit list_index]. rewrite listed.
  destruct cp as [k|]; destruct clicked as [[| |]|];
    cbn -[Z.of_nat lit list_index Z.sub Z.add Z.leb Z.eqb];
    intros Hstay Hidx; cbn [current_page session] in Hidx;
    pager_cases_eq; try discriminate;
    try match goal with
        | H : negb ?b = true, S : context [if ?b then _ else _] |- _ =>
            apply negb_true_iff in H; rewrite H in S; lia
        end;
    try (injection Hidx as ->);
    try match goal with
        | H : extract_text p = _ |- _ =>
            rewrite Ht in H; first [discriminate H | injection H as <-]
        end;
    (split; [reflexivity|]);
    repeat rewrite <- app_assoc; apply in_or_app; right;
    cbn [In List.app]; repeat (first [left; reflexivity | right]).
Qed.

(** Forward and back: from a page that is not the last one, a click on
    the button for the next page followed by one on the button for the
    previous page leads back to the same page; and the other way round
    from a page that is not the first. *)
Theorem next_then_previous_returns a k :
  current_page (session a) = Some k ->
  ((0 <= k < total - 1)%Z ->
   current_page
     (session
        (snd (display_pdf_pages (Some Previous) pdf_file
                (snd (display_pdf_pages (Some Next) pdf_file a)))))
   = Some k)
  /\ ((0 < k <= total - 1)%Z ->
      current_page
        (session
           (snd (display_pdf_pages (Some Next) pdf_file
                   (snd (display_pdf_pages (Some Previous) pdf_file a)))))
      = Some k).
Proof.
  intros Hk.
  split; intros Hrange;
    rewrite !(display_pdf_pages_session pdf_file reader ps opened listed);
    simpl; rewrite Hk; f_equal.
  - destruct (Z.leb_spec (total - 1) k); [lia|].
    destruct (Z.eqb_spec (k + 1) 0); lia.
  - destruct (Z.eqb_spec k 0); [lia|].
    destruct (Z.leb_spec (total - 1) (k - 1)); lia.
Qed.

(** Every page of the document can be reached from a new session by
    clicks on the button for the next page. *)
Theorem every_page_reachable start k :
  current_page (session start) = None ->
  (0 <= k <= total - 1)%Z ->
  exists a, paging pdf_file start a /\ current_page (session a) = Some k.
Proof.
  intros Hnew Hk.
  assert (H : forall n : nat,
            (Z.of_nat n <= total - 1)%Z ->
            exists a, paging pdf_file start a
                      /\ current_page (session a) = Some (Z.of_nat n)).
  { induction n as [|n IH]; intros Hn.
    - exists (snd (display_pdf_pages None pdf_file start)). split.
      + apply paging_run, paging_start.
      + rewrite (display_pdf_pages_session pdf_file reader ps opened listed).
        simpl. now rewrite Hnew.
    - destruct IH as [a [Hpaging Ha]]; [lia|].
      exists (snd (display_pdf_pages (Some Next) pdf_file a)). split.
      + now apply paging_run.
      + rewrite (display_pdf_pages_session pdf_file reader ps opened listed).
        simpl. rewrite Ha. f_equal.
        destruct (Z.leb_spec (total - 1) (Z.of_nat n)); lia. }
  destruct (H (Z.to_nat k)) as [a [Hp Ha]]; [lia|].
  exists a. split; [exact Hp|]. rewrite Ha. f_equal. lia.
Qed.

(** A PDF without pages in a new session: both buttons are drawn
    disabled, the page number becomes 0, the access to page 0 raises
    [IndexError], which is reported, and 0 is returned. *)
Theorem document_without_pages clicked a :
  ps = [] ->
  current_page (session a) = None ->
  display_pdf_pages clicked pdf_file a
  = (Return 0%Z,
     {| session := {| current_page := Some 0%Z;
                      extraction_results := extraction_results (session a) |};
        page :=
          page a
          ++ [ StColumns [1; 2; 1]%Z;
               Enter (Column 0);
               StButton (lit "◀ Previous") true;
               Leave (Column 0);
               Enter (Column 1);
               StWrite [Text (lit "Page "); Int 1; Text (lit " of "); Int 0];
               Leave (Column 1);
               Enter (Column 2);
               StButton (lit "Next ▶") true;
               Leave (Column 2);
               StError [Text (lit "Error displaying PDF: ");
                        Text (lit "sequence index out of range")] ] |}).
Proof.
  intros Hps Hnew. subst ps.
  unfold display_pdf_pages, try_except, within, lift_exn.
  destruct a as [[cp er] pg]. simpl in Hnew. subst cp.
  cbn -[lit]. rewrite opened. cbn -[lit]. rewrite listed.
  destruct clicked as [[| |]|]; cbn -[lit];
    repeat rewrite <- app_assoc; reflexivity.
Qed.

End MorePagingFacts.

(** ** Runs of the further properties on the stand-ins *)

(** The LLM answers with a JSON array, or with an empty JSON object. *)
Lemma result_without_status_not_rendered_witness :
  GeminiApp.display_signing_rules (PyList []) GeminiApp.blank_app
  = (Raised (GeminiApp.Exception
               (TypeError
                  (lit "list indices must be integers or slices, not str"))),
     GeminiApp.blank_app)
  /\ GeminiApp.display_signing_rules (PyDict []) GeminiApp.blank_app
     = (Raised (GeminiApp.Exception (KeyError (lit "status"))),
        GeminiApp.blank_app).
Proof.
  split.
  - destruct (proj1 (result_without_status_not_rendered (PyList [])))
      as [msg H].
    + intros d. discriminate.
    + assert (Hrun : GeminiApp.display_signing_rules (PyList [])
                       GeminiApp.blank_app
                     = (Raised (GeminiApp.Exception
                                  (TypeError
                                     (lit "list indices must be integers or slices, not str"))),
                        GeminiApp.blank_app))
        by (vm_compute; reflexivity).
      pose proof (H GeminiApp.blank_app) as Hmsg.
      rewrite Hrun in Hmsg. rewrite (H GeminiApp.blank_app).
      symmetry. exact Hmsg.
  - apply (proj2 (result_without_status_not_rendered (PyDict [])) []);
      reflexivity.
Defined.

(** The LLM itself reports an error and sends nothing else. *)
Lemma error_status_shows_message_only_witness :
  GeminiApp.display_signing_rules
    (PyDict [ (lit "status", PyStr (lit "error"));
              (lit "message", PyStr (lit "The document is empty.")) ])
    GeminiApp.blank_app
  = (Return tt,
     {| GeminiApp.session := GeminiApp.new_session;
        GeminiApp.page :=
          [GeminiApp.StError
             [GeminiApp.Text (lit "Error: ");
              GeminiApp.Value (PyStr (lit "The document is empty."))]] |}).
Proof.
  apply (error_status_shows_message_only
           [ (lit "status", PyStr (lit "error"));
             (lit "message", PyStr (lit "The document is empty.")) ]
           (PyStr (lit "error")) (PyStr (lit "The document is empty."))
           eq_refl eq_refl eq_refl GeminiApp.blank_app).
Defined.

(** A reply that counts five rules and lists no section. *)
Lemma metrics_show_reported_counts_witness :
  exists outcome widgets,
    GeminiApp.display_signing_rules
      (PyDict [ (lit "status", PyStr (lit "success"));
                (lit "total_rules", PyInt 5);
                (lit "approved_count", PyInt 3);
                (lit "sections_found", PyList []) ])
      GeminiApp.blank_app
    = (outcome,
       {| GeminiApp.session := GeminiApp.new_session;
          GeminiApp.page := widgets |})
    /\ In (GeminiApp.StMetric (lit "Total Rules") (PyInt 5)) widgets
    /\ In (GeminiApp.StMetric (lit "Sections Found") (PyInt 0)) widgets.
Proof.
  destruct (metrics_show_reported_counts
              [ (lit "status", PyStr (lit "success"));
                (lit "total_rules", PyInt 5);
                (lit "approved_count", PyInt 3);
                (lit "sections_found", PyList []) ]
              (PyStr (lit "success")) (PyInt 5) (PyInt 3) []
              eq_refl eq_refl eq_refl eq_refl eq_refl eq_refl eq_refl)
    as [outcome [rest H]].
  eexists outcome, _. split; [apply (H GeminiApp.blank_app)|].
  split; simpl; tauto.
Defined.

Lemma extract_text_joins_pages_witness :
  GeminiApp.extract_text_from_pdf (GeminiApp.Fixture.gemini_replying [])
    GeminiApp.Fixture.three_pages GeminiApp.blank_app
  = (Return (lit "one" ++ [10%N] ++ lit "two" ++ [10%N] ++ lit "three"
               ++ [10%N]),
     GeminiApp.blank_app).
Proof.
  apply (extract_text_joins_pages (GeminiApp.Fixture.gemini_replying [])
           GeminiApp.Fixture.three_pages _ _
           [lit "one"; lit "two"; lit "three"] GeminiApp.blank_app
           eq_refl eq_refl).
  repeat constructor.
Defined.

(** Two scanned pages: the text is two line feeds. *)
Lemma text_empty_only_without_pages_witness :
  exists text,
    GeminiApp.extract_text_from_pdf (GeminiApp.Fixture.gemini_replying [])
      GeminiApp.Fixture.scanned_pdf GeminiApp.blank_app
    = (Return text, GeminiApp.blank_app)
    /\ (2 <= length text)%nat.
Proof.
  destruct (text_empty_only_without_pages
              (GeminiApp.Fixture.gemini_replying [])
              GeminiApp.Fixture.scanned_pdf _ _ [[]; []] GeminiApp.blank_app
              eq_refl eq_refl ltac:(repeat constructor))
    as [text [H [Hlen _]]].
  exists text. split; [exact H | exact Hlen].
Defined.

Lemma unknown_provider_gives_error_result_witness :
  exists self,
    GeminiApp.DocumentProcessor_init GeminiApp.Fixture.no_client
      GeminiApp.Fixture.configure (GeminiApp.Fixture.model_replying [])
      (lit "key") (lit "openai") = Return self
    /\ GeminiApp.model self = None.
Proof.
  destruct (unknown_provider_gives_error_result PyJson.loads
              GeminiApp.Fixture.no_client GeminiApp.Fixture.configure
              (GeminiApp.Fixture.model_replying [])
              (lit "key") (lit "openai") eq_refl eq_refl)
    as [self [H [_ [Hm _]]]].
  exists self. split; [exact H | exact Hm].
Defined.

Lemma extraction_result_stored_witness :
  exists result,
    GeminiApp.extract_clicked PyJson.loads GeminiApp.Fixture.no_client
      GeminiApp.Fixture.configure
      (GeminiApp.Fixture.model_replying (PyJson.text "{'status': 'error'}"))
      (lit "gemini") (lit "key") GeminiApp.Fixture.three_pages
      GeminiApp.blank_app
    = (Return false,
       {| GeminiApp.session :=
            {| GeminiApp.current_page := None;
               GeminiApp.extraction_results := Some result |};
          GeminiApp.page :=
            [ GeminiApp.Enter
                (GeminiApp.Spinner
                   (lit "Analyzing document for signing rules..."));
              GeminiApp.Leave
                (GeminiApp.Spinner
                   (lit "Analyzing document for signing rules...")) ] |}).
Proof.
  destruct (extraction_result_stored PyJson.loads
              GeminiApp.Fixture.no_client GeminiApp.Fixture.configure
              (GeminiApp.Fixture.model_replying
                 (PyJson.text "{'status': 'error'}"))
              (lit "gemini") (lit "key") GeminiApp.Fixture.three_pages
              GeminiApp.blank_app _ 0%Z _ _
              [lit "one"; lit "two"; lit "three"]
              ltac:(discriminate) eq_refl eq_refl eq_refl eq_refl
              ltac:(repeat constructor) ltac:(discriminate))
    as [result [_ H]].
  exists result. exact H.
Defined.

(** No Claude client without a valid key. *)
Lemma client_failure_reported_witness :
  GeminiApp.extract_clicked PyJson.loads GeminiApp.Fixture.no_client
    GeminiApp.Fixture.configure (GeminiApp.Fixture.model_replying [])
    (lit "claude") (lit "key") GeminiApp.Fixture.three_pages
    GeminiApp.blank_app
  = (Return false,
     {| GeminiApp.session := GeminiApp.new_session;
        GeminiApp.page :=
          [ GeminiApp.Enter
              (GeminiApp.Spinner
                 (lit "Analyzing document for signing rules..."));
            GeminiApp.StError
              [GeminiApp.Text (lit "Error processing document: ");
               GeminiApp.Text (lit "invalid x-api-key")];
            GeminiApp.Leave
              (GeminiApp.Spinner
                 (lit "Analyzing document for signing rules...")) ] |}).
Proof.
  apply (client_failure_reported PyJson.loads GeminiApp.Fixture.no_client
           GeminiApp.Fixture.configure (GeminiApp.Fixture.model_replying [])
           (lit "claude") (lit "key") GeminiApp.Fixture.three_pages
           GeminiApp.blank_app
           (mkExn (lit "AuthenticationError") (lit "invalid x-api-key"))).
  - discriminate.
  - left. reflexivity.
Defined.


(** A stored result and a run for another document. *)
Lemma stored_result_never_cleared_witness :
  GeminiApp.extraction_results
    (GeminiApp.session
       (snd (GeminiApp.Fixture.visit []
               (GeminiApp.Fixture.browsing
                  (Some GeminiApp.Fixture.one_page)
                  (Some GeminiApp.ExtractRules))
               {| GeminiApp.current_page := Some 0%Z;
                  GeminiApp.extraction_results := Some (PyDict []) |})))
  <> None.
Proof.
  apply (stored_result_never_cleared PyJson.loads
           GeminiApp.Fixture.no_client GeminiApp.Fixture.configure
           (GeminiApp.Fixture.model_replying [])).
  discriminate.
Defined.

Lemma stored_result_kept_without_click_witness :
  GeminiApp.extraction_results
    (GeminiApp.session
       (snd (GeminiApp.Fixture.visit []
               (GeminiApp.Fixture.browsing
                  (Some GeminiApp.Fixture.one_page) (Some GeminiApp.Next))
               {| GeminiApp.current_page := Some 0%Z;
                  GeminiApp.extraction_results := Some (PyDict []) |})))
  = Some (PyDict []).
Proof.
  apply (stored_result_kept_without_click PyJson.loads
           GeminiApp.Fixture.no_client GeminiApp.Fixture.configure
           (GeminiApp.Fixture.model_replying [])
           (GeminiApp.Fixture.browsing
              (Some GeminiApp.Fixture.one_page) (Some GeminiApp.Next))).
  discriminate.
Defined.

Lemma start_page_without_file_witness :
  exists widgets,
    GeminiApp.Fixture.visit [] (GeminiApp.Fixture.browsing None None)
      GeminiApp.new_session
    = (Return tt,
       {| GeminiApp.session := GeminiApp.new_session;
          GeminiApp.page := widgets |}).
Proof.
  destruct (start_page_without_file PyJson.loads
              GeminiApp.Fixture.no_client GeminiApp.Fixture.configure
              (GeminiApp.Fixture.model_replying [])
              (GeminiApp.Fixture.browsing None None) eq_refl)
    as [widgets [H _]].
  exists widgets. apply (H GeminiApp.blank_app).
Defined.

Lemma rerun_exactly_when_page_changes_witness :
  fst (GeminiApp.display_pdf_pages (Some GeminiApp.Next)
         GeminiApp.Fixture.three_pages GeminiApp.blank_app)
  = Raised GeminiApp.RerunException.
Proof.
  apply (proj2 (rerun_exactly_when_page_changes
                  GeminiApp.Fixture.three_pages _ _ eq_refl eq_refl
                  (Some GeminiApp.Next) GeminiApp.blank_app)).
  discriminate.
Defined.

Lemma current_page_text_shown_witness :
  fst (GeminiApp.display_pdf_pages None GeminiApp.Fixture.three_pages
         GeminiApp.blank_app) = Return 3%Z.
Proof.
  apply (proj1 (current_page_text_shown
                  GeminiApp.Fixture.three_pages _ _ eq_refl eq_refl
                  None GeminiApp.blank_app
                  {| GeminiApp.extract_text := Return (lit "one") |}
                  (lit "one")
                  ltac:(simpl; lia) eq_refl eq_refl eq_refl)).
Defined.

Lemma next_then_previous_returns_witness :
  GeminiApp.current_page
    (GeminiApp.session
       (snd (GeminiApp.display_pdf_pages (Some GeminiApp.Previous)
               GeminiApp.Fixture.three_pages
               (snd (GeminiApp.display_pdf_pages (Some GeminiApp.Next)
                       GeminiApp.Fixture.three_pages
                       {| GeminiApp.session :=
                            {| GeminiApp.current_page := Some 1%Z;
                               GeminiApp.extraction_results := None |};
                          GeminiApp.page := [] |})))))
  = Some 1%Z.
Proof.
  apply (proj1 (next_then_previous_returns
                  GeminiApp.Fixture.three_pages _ _ eq_refl eq_refl
                  {| GeminiApp.session :=
                       {| GeminiApp.current_page := Some 1%Z;
                          GeminiApp.extraction_results := None |};
                     GeminiApp.page := [] |} 1%Z eq_refl)).
  simpl. lia.
Defined.

Lemma every_page_reachable_witness :
  exists a,
    GeminiApp.paging GeminiApp.Fixture.three_pages GeminiApp.blank_app a
    /\ GeminiApp.current_page (GeminiApp.session a) = Some 2%Z.
Proof.
  apply (every_page_reachable GeminiApp.Fixture.three_pages _ _
           eq_refl eq_refl GeminiApp.blank_app 2%Z eq_refl).
  simpl. lia.
Defined.

Lemma document_without_pages_witness :
  fst (GeminiApp.display_pdf_pages None GeminiApp.Fixture.empty_pdf
         GeminiApp.blank_app) = Return 0%Z.
Proof.
  rewrite (document_without_pages GeminiApp.Fixture.empty_pdf _ []
             eq_refl eq_refl None GeminiApp.blank_app eq_refl eq_refl).
  reflexivity.
Defined.
